(** * iTwinUI-react: the VirtualScroll windower and the ComboBox state machine

    A shallow embedding of
    - [src/core/utils/components/VirtualScroll.tsx] (module [VirtualScroll]),
    - the [ComboBox] component and [ComboBoxInput.tsx] (module [ComboBox]),
    and the properties the specification states about them.

    Conventions.  JavaScript numbers that hold indices and counts are
    integers ([Z]; [-1] is the "no index" value the code uses).  Lengths in
    pixels are [Z] too, counted in hundredths of a pixel: the component keeps
    every measured height through [Number(x.toFixed(2))].  On these lengths
    the quotient of [Math.floor(a / b)] is taken exactly, which is [Z.div];
    the code divides doubles, and module [VirtualScroll.Double] has the
    division, [getNumberOfNodesInHeight] and the window of
    [updateVirtualScroll] on IEEE 754 doubles, where the floor of the
    quotient can be one less than the floor of the exact quotient.

    Strings have 8-bit characters, and [toLowerCase] and [toUpperCase] fold
    the letters of ASCII: they are the functions of the code on ASCII
    strings, and the statements that rest on them are about such strings. *)

From Stdlib Require Import Ascii String.
From Stdlib Require Import Floats.
From stdpp Require Import base numbers list strings gmap.

Local Open Scope Z_scope.

(** ** JavaScript operators used by both components *)

(** [a ?? b]: the right operand is taken only when the left one is [null]
    or [undefined] (here [None]). *)
Definition nullish {A : Type} (a : option A) (b : A) : A :=
  match a with
  | Some v => v
  | None => b
  end.

(** [for (let i = start; i < endIndex; i++) arr.push(i)], where [n] bounds the
    number of iterations. *)
Fixpoint push_from (n : nat) (i : Z) : list Z :=
  match n with
  | O => []
  | S n' => i :: push_from n' (i + 1)
  end.

Definition for_range (start endIndex : Z) : list Z :=
  push_from (Z.to_nat (endIndex - start)) start.

(** [array[index]] for a JavaScript number: [undefined] out of range. *)
Definition at_index {A : Type} (l : list A) (index : Z) : option A :=
  if index <? 0 then None else l !! Z.to_nat index.

(** [array.findIndex(p)]: the first position whose element satisfies [p],
    [-1] when there is none. *)
Fixpoint findIndex_from {A : Type} (p : A -> bool) (l : list A) (i : Z) : Z :=
  match l with
  | [] => -1
  | x :: rest => if p x then i else findIndex_from p rest (i + 1)
  end.

Definition findIndex {A : Type} (p : A -> bool) (l : list A) : Z :=
  findIndex_from p l 0.

(** [s.toLowerCase()] and [s.toUpperCase()] on strings of ASCII characters,
    where the mapping of the code is the character-wise folding of the
    letters A-Z and a-z.  On other characters the code applies the mappings
    of Unicode, which are not character-wise (['ß'.toUpperCase()] is ['SS'],
    a final sigma has its own lower case); they are not modelled, and the
    statements about the filter are for ASCII labels and texts. *)
Definition toLowerCaseChar (c : ascii) : ascii :=
  let n := N_of_ascii c in
  if ((65 <=? n) && (n <=? 90))%N then ascii_of_N (n + 32) else c.

Definition toUpperCaseChar (c : ascii) : ascii :=
  let n := N_of_ascii c in
  if ((97 <=? n) && (n <=? 122))%N then ascii_of_N (n - 32) else c.

Fixpoint toLowerCase (s : string) : string :=
  match s with
  | EmptyString => EmptyString
  | String c rest => String (toLowerCaseChar c) (toLowerCase rest)
  end.

Fixpoint toUpperCase (s : string) : string :=
  match s with
  | EmptyString => EmptyString
  | String c rest => String (toUpperCaseChar c) (toUpperCase rest)
  end.

(** [s.startsWith(search)] *)
Fixpoint startsWith (s search : string) {struct search} : bool :=
  match search, s with
  | EmptyString, _ => true
  | String _ _, EmptyString => false
  | String a search', String b s' => bool_decide (a = b) && startsWith s' search'
  end.

(** [s.includes(search)] *)
Fixpoint includes (s search : string) : bool :=
  startsWith s search ||
  match s with
  | EmptyString => false
  | String _ s' => includes s' search
  end.

(** The characters matched by [\s] among the 8-bit ones. *)
Definition isWhitespace (c : ascii) : bool :=
  let n := N_of_ascii c in
  (((9 <=? n) && (n <=? 13)) || (n =? 32) || (n =? 160))%N.

(** [s.replace(/\s/g, '-')] *)
Fixpoint replaceWhitespace (s : string) : string :=
  match s with
  | EmptyString => EmptyString
  | String c rest =>
      String (if isWhitespace c then "-"%char else c) (replaceWhitespace rest)
  end.

(** ** VirtualScroll.tsx *)

Module VirtualScroll.

(** What the component reads from a DOM element: the height of its bounding
    rectangle, its computed vertical margins and its scroll offset. *)
Record HTMLElement := mkElement {
  rectHeight : Z;
  marginTop : Z;
  marginBottom : Z;
  scrollTop : Z
}.

Definition getElementHeight (element : option HTMLElement) : Z :=
  nullish (rectHeight <$> element) 0.

Definition getElementHeightWithMargins (element : option HTMLElement) : Z :=
  match element with
  | None => 0
  | Some e =>
      let margin := marginTop e + marginBottom e in
      getElementHeight (Some e) + margin
  end.

(** [if (!childHeight) return 0; return Math.floor(totalHeight / childHeight)] *)
Definition getNumberOfNodesInHeight (childHeight totalHeight : Z) : Z :=
  if childHeight =? 0 then 0 else Z.div totalHeight childHeight.

Definition getTranslateValue (childHeight firstChildHeight startIndex : Z) : Z :=
  if 0 <? startIndex then childHeight * (startIndex - 1) + firstChildHeight
  else 0.

Definition getVisibleNodeCount
    (childHeight startIndex childrenLength : Z) (scrollContainer : HTMLElement) : Z :=
  Z.min (childrenLength - startIndex)
        (getNumberOfNodesInHeight childHeight (getElementHeight (Some scrollContainer))).

Record VirtualScrollProps := mkProps {
  itemsLength : Z;
  bufferSize : Z;
  scrollToIndex : Z
}.

(** The props with the defaults of the destructuring pattern. *)
Definition withDefaults (itemsLength : Z) (bufferSize scrollToIndex : option Z) :=
  mkProps itemsLength (nullish bufferSize 10) (nullish scrollToIndex 0).

(** [childHeight.current] *)
Record ChildHeight := mkChildHeight {
  firstChild : Z;
  child : Z;
  lastChild : Z
}.

(** The hooks of one mounted component: the two [useState] cells of the
    window, the measured heights, the height used to recalculate on resize,
    the [translateY] written to the wrapper, the last programmatic scroll
    issued on the scroll container, and the dependency
    ([visibleChildren.length]) the measuring effect last ran with. *)
Record Component := mkComponent {
  startNode : Z;
  visibleNodeCount : Z;
  childHeight : ChildHeight;
  scrollContainerHeight : Z;
  transform : option Z;
  scrolledTo : option Z;
  measuredLength : option nat
}.

(** The hooks at the first render. *)
Definition initial : Component :=
  mkComponent 0 0 (mkChildHeight 0 0 0) 0 None None None.

(** The indices handed to [itemRenderer] by the [visibleChildren] memo. *)
Definition visibleChildren (props : VirtualScrollProps) (c : Component) : list Z :=
  let endIndex :=
    Z.min (itemsLength props)
          (startNode c + visibleNodeCount c + bufferSize props * 2) in
  for_range (startNode c) endIndex.

(** [Number(x.toFixed(2))]: a number, never [null] or [undefined]. *)
Definition NumberToFixed2 (x : Z) : option Z := Some x.

(** The body of the layout effect "Get child height when children
    available"; [children] are the element children of the wrapper
    ([parentRef.current.children]). *)
Definition measureChildHeight
    (props : VirtualScrollProps) (children : list HTMLElement) (c : Component) : Component :=
  if (length (visibleChildren props c) =? 0)%nat then c
  else
    let firstChildEl := children !! 0%nat in
    let childEl := children !! 1%nat in
    let lastChildEl := children !! (length children - 1)%nat in
    let firstChildHeight :=
      nullish (NumberToFixed2 (getElementHeightWithMargins firstChildEl)) 0 in
    let heights :=
      mkChildHeight
        firstChildHeight
        (nullish (NumberToFixed2 (getElementHeightWithMargins childEl)) firstChildHeight)
        (nullish (NumberToFixed2 (getElementHeightWithMargins lastChildEl)) 0) in
    mkComponent (startNode c) (visibleNodeCount c) heights
                (scrollContainerHeight c) (transform c) (scrolledTo c)
                (measuredLength c).

(** The effect runs after a render in which [visibleChildren.length] differs
    from the one of the previous render (and after the first render). *)
Definition measureEffect
    (props : VirtualScrollProps) (children : list HTMLElement) (c : Component) : Component :=
  let len := length (visibleChildren props c) in
  if bool_decide (measuredLength c = Some len) then c
  else
    measureChildHeight props children
      (mkComponent (startNode c) (visibleNodeCount c) (childHeight c)
                   (scrollContainerHeight c) (transform c) (scrolledTo c) (Some len)).

(** [updateVirtualScroll(scrollTop?)]; [scrollableContainer] is
    [scrollContainer.current ?? ownerDocument.scrollingElement]. *)
Definition updateVirtualScroll
    (props : VirtualScrollProps) (scrollTopArg : option Z)
    (scrollableContainer : option HTMLElement) (c : Component) : Component :=
  match scrollableContainer with
  | None => c
  | Some container =>
      let start :=
        getNumberOfNodesInHeight (child (childHeight c))
                                 (nullish scrollTopArg (scrollTop container)) in
      let startIndex := Z.max 0 (start - bufferSize props) in
      let count :=
        getVisibleNodeCount (child (childHeight c)) start (itemsLength props) container in
      let translate :=
        getTranslateValue (child (childHeight c)) (firstChild (childHeight c)) startIndex in
      let scrolled :=
        match scrollTopArg with
        | Some top => if top =? 0 then scrolledTo c else Some top
        | None => scrolledTo c
        end in
      mkComponent startIndex count (childHeight c) (scrollContainerHeight c)
                  (Some translate) scrolled (measuredLength c)
  end.

Definition onScroll (props : VirtualScrollProps) (container : option HTMLElement)
    (c : Component) : Component :=
  updateVirtualScroll props None container c.

(** The resize observer stores the new height; the layout effect that
    depends on it recomputes the window. *)
Definition onResize (height : Z) (c : Component) : Component :=
  mkComponent (startNode c) (visibleNodeCount c) (childHeight c) height
              (transform c) (scrolledTo c) (measuredLength c).

Definition resizeEffect (props : VirtualScrollProps) (container : option HTMLElement)
    (c : Component) : Component :=
  if scrollContainerHeight c =? 0 then c
  else
    updateVirtualScroll props
      (if 0 <? scrollToIndex props
       then Some ((scrollToIndex props - 1) * child (childHeight c)
                  + firstChild (childHeight c))
       else None)
      container c.

(** The [minHeight] reserved on the outer element. *)
Definition minHeight (props : VirtualScrollProps) (c : Component) : Z :=
  Z.max (itemsLength props - 2) 0 * child (childHeight c)
  + firstChild (childHeight c) + lastChild (childHeight c).

(** What happens to a mounted component: a scroll event or a resize of the
    scroll container; [children] are the element children of the wrapper
    after the render the event causes. *)
Inductive Event :=
  | Scroll (container : option HTMLElement) (children : list HTMLElement)
  | Resize (height : Z) (container : option HTMLElement) (children : list HTMLElement).

Definition step (props : VirtualScrollProps) (c : Component) (e : Event) : Component :=
  match e with
  | Scroll container children =>
      measureEffect props children (onScroll props container c)
  | Resize height container children =>
      measureEffect props children (resizeEffect props container (onResize height c))
  end.

(** The component after its first render ([children] are the elements it
    produced) and the events [es]. *)
Definition run (props : VirtualScrollProps) (children : list HTMLElement)
    (es : list Event) : Component :=
  foldl (step props) (measureEffect props children initial) es.

(** *** Vocabulary of the properties *)

(** [q] is the floor of the quotient [a / b], for a positive [b]. *)
Definition is_floor (a b q : Z) : Prop := q * b <= a < (q + 1) * b.

(** The invariant of the window, with measured heights that are not
    negative. *)
Definition window_ok (props : VirtualScrollProps) (c : Component) : Prop :=
  0 <= startNode c /\
  startNode c + visibleNodeCount c <= itemsLength props /\
  0 <= child (childHeight c) /\ 0 <= firstChild (childHeight c).

Definition heights_nonneg (children : list HTMLElement) : Prop :=
  Forall (fun e => 0 <= getElementHeightWithMargins (Some e)) children.

(** An event whose scroll offset and measured heights are not negative. *)
Definition event_nonneg (e : Event) : Prop :=
  match e with
  | Scroll container children =>
      heights_nonneg children /\
      nullish (Z.le 0 <$> (scrollTop <$> container)) True
  | Resize _ container children =>
      heights_nonneg children /\
      nullish (Z.le 0 <$> (scrollTop <$> container)) True
  end.

(** No height was ever measured. *)
Definition never_measured (c : Component) : Prop :=
  0 <= startNode c /\ childHeight c = mkChildHeight 0 0 0.

(** A component that has measured 10px rows: three items, the default
    buffer. *)
Definition threeRows : VirtualScrollProps := mkProps 3 10 0.
Definition row10 : HTMLElement := mkElement 1000 0 0 0.
Definition measured10 : Component := run threeRows [row10; row10; row10] [].

(** *** The scrollable parent and the scroll listener *)

(** What the search for the scrollable parent reads of an element: its
    identity and its computed style. *)
Record StyledElement := mkStyled {
  nodeId : nat;
  computedStyle : string -> string
}.

Definition getElementStyle (element : StyledElement) (prop : string) : string :=
  computedStyle element prop.

(** [/(auto|scroll|overlay)/.test(s)] *)
Definition testScrollWords (s : string) : bool :=
  includes s "auto" || includes s "scroll" || includes s "overlay".

Definition isElementScrollable (element : StyledElement) : bool :=
  testScrollWords (getElementStyle element "overflow"
                   +:+ getElementStyle element "overflow-y").

(** [getScrollableParent(element, ownerDocument)]: [ancestors] is the element
    followed by the chain of its [parentElement]s ([[]] when the element is
    [null]), [body] is [ownerDocument.body]. *)
Fixpoint getScrollableParent (ancestors : list StyledElement) (body : StyledElement)
    : StyledElement :=
  match ancestors with
  | [] => body
  | element :: parents =>
      if (nodeId element =? nodeId body)%nat then body
      else if isElementScrollable element then element
      else getScrollableParent parents body
  end.

(** The keywords of the CSS [overflow] properties. *)
Inductive OverflowKeyword :=
  | OverflowVisible
  | OverflowHidden
  | OverflowClip
  | OverflowScroll
  | OverflowAuto
  | OverflowOverlay.

Definition cssText (k : OverflowKeyword) : string :=
  match k with
  | OverflowVisible => "visible"
  | OverflowHidden => "hidden"
  | OverflowClip => "clip"
  | OverflowScroll => "scroll"
  | OverflowAuto => "auto"
  | OverflowOverlay => "overlay"
  end.

(** The keywords that make a box scroll. *)
Definition scrolls (k : OverflowKeyword) : bool :=
  match k with
  | OverflowScroll | OverflowAuto | OverflowOverlay => true
  | _ => false
  end.

(** Where a scroll listener is registered. *)
Inductive EventTarget :=
  | TheDocument
  | TheElement (node : nat).

#[global] Instance EventTarget_eq_dec : EqDecision EventTarget.
Proof. solve_decision. Defined.

(** The refs and the registered listeners that the scroll-listener effect
    works on: [scrollContainer.current] and [ownerDocument.body] by their
    identity, [onScrollRef.current] by the identity of the callback. *)
Record ScrollListening := mkListening {
  scrollContainerRef : option nat;
  bodyNode : nat;
  onScrollRef : option nat;
  listeners : list (EventTarget * nat)
}.

(** The target both [removeScrollListener] and the effect choose. *)
Definition scrollTarget (s : ScrollListening) : EventTarget :=
  match scrollContainerRef s with
  | None => TheDocument
  | Some node => if (node =? bodyNode s)%nat then TheDocument else TheElement node
  end.

(** [target.removeEventListener('scroll', listener)] *)
Definition removeEventListener (target : EventTarget) (listener : nat)
    (registered : list (EventTarget * nat)) : list (EventTarget * nat) :=
  List.filter (fun r => negb (bool_decide (r = (target, listener)))) registered.

(** [target.addEventListener('scroll', listener)]: a listener that is
    registered already is not registered twice. *)
Definition addEventListener (target : EventTarget) (listener : nat)
    (registered : list (EventTarget * nat)) : list (EventTarget * nat) :=
  if bool_decide ((target, listener) ∈ registered) then registered
  else registered ++ [(target, listener)].

Definition removeScrollListener (s : ScrollListening) : ScrollListening :=
  match onScrollRef s with
  | None => s
  | Some listener =>
      mkListening (scrollContainerRef s) (bodyNode s) (onScrollRef s)
                  (removeEventListener (scrollTarget s) listener (listeners s))
  end.

(** The body of the layout effect "Add event listener to the scrollable
    container", for the callback [onScroll]. *)
Definition listenerEffect (onScroll : nat) (s : ScrollListening) : ScrollListening :=
  let s1 := removeScrollListener s in
  mkListening (scrollContainerRef s1) (bodyNode s1) (Some onScroll)
              (addEventListener (scrollTarget s1) onScroll (listeners s1)).

(** The effect runs again when [onScroll] changes: its cleanup
    ([removeScrollListener]) first, then its body. *)
Definition listenerEffectAgain (s : ScrollListening) (onScroll : nat) : ScrollListening :=
  listenerEffect onScroll (removeScrollListener s).

(** The heights the component assumes for the rows of the list: the first
    row has the measured first height, every other row the uniform one. *)
Definition rowHeightAt (heights : ChildHeight) (i : nat) : Z :=
  match i with
  | O => firstChild heights
  | S _ => child heights
  end.

(** The sum of the assumed heights of the rows before row [k]. *)
Fixpoint rowsAbove (heights : ChildHeight) (k : nat) : Z :=
  match k with
  | O => 0
  | S k' => rowsAbove heights k' + rowHeightAt heights k'
  end.

(** *** The numbers of the code

    A JavaScript number is an IEEE 754 double.  The definitions above divide
    lengths exactly; these are the division of the code, its floor, and with
    them [getNumberOfNodesInHeight], [getVisibleNodeCount] and the window
    that [updateVirtualScroll] stores.  Heights and offsets are doubles;
    indices and counts stay integers. *)

Module Double.

(** The integer [±mantissa] of a finite double [±mantissa * 2 ^ exponent]. *)
Definition signedMantissa (sign : bool) (mantissa : positive) : Z :=
  if sign then Z.neg mantissa else Z.pos mantissa.

(** [Math.floor(x)] for a finite [x], as an integer; [None] for NaN and the
    infinities, which [Math.floor] returns as they are. *)
Definition MathFloor (x : float) : option Z :=
  match Prim2SF x with
  | S754_zero _ => Some 0
  | S754_finite sign mantissa exponent =>
      Some (if 0 <=? exponent then signedMantissa sign mantissa * 2 ^ exponent
            else signedMantissa sign mantissa / 2 ^ (- exponent))
  | _ => None
  end.

(** [!x] for a number: [0], [-0] and NaN are falsy. *)
Definition falsy (x : float) : bool := (x =? 0)%float || is_nan x.

(** [if (!childHeight) return 0; return Math.floor(totalHeight / childHeight)] *)
Definition getNumberOfNodesInHeight (childHeight totalHeight : float) : option Z :=
  if falsy childHeight then Some 0 else MathFloor (totalHeight / childHeight).

Definition getVisibleNodeCount (childHeight : float) (startIndex childrenLength : Z)
    (containerHeight : float) : option Z :=
  Z.min (childrenLength - startIndex)
    <$> getNumberOfNodesInHeight childHeight containerHeight.

(** What [updateVirtualScroll] gives to [setStartNode] and to
    [setVisibleNodeCount]. *)
Record Window := mkWindow {
  windowStart : Z;
  windowCount : Z
}.

(** The window of [updateVirtualScroll(scrollTop?)] for a container with the
    given scroll offset and height; [None] when a quotient is not finite. *)
Definition updateVirtualScroll (props : VirtualScrollProps) (childHeight : float)
    (scrollTopArg : option float) (containerScrollTop containerHeight : float)
    : option Window :=
  start ← getNumberOfNodesInHeight childHeight
                                   (nullish scrollTopArg containerScrollTop);
  count ← getVisibleNodeCount childHeight start (itemsLength props) containerHeight;
  Some (mkWindow (Z.max 0 (start - bufferSize props)) count).

(** The double of an integer below [2 ^ 53], which is exact. *)
Definition numberOfInteger (z : Z) : float :=
  if z <? 0 then (- of_uint63 (Uint63.of_Z (- z)))%float
  else of_uint63 (Uint63.of_Z z).

(** The double that a length of [hundredths] hundredths of a pixel is in the
    code: the double nearest to [hundredths / 100], which is what [Number]
    gives for the text of [toFixed(2)] and what the correctly rounded
    division gives here. *)
Definition numberOfHundredths (hundredths : Z) : float :=
  (numberOfInteger hundredths / 100)%float.

(** [(scrollToIndex - 1) * childHeight.current.child +
     childHeight.current.firstChild], the offset the resize effect asks
    for. *)
Definition scrollOffsetOfIndex (scrollToIndex : Z) (child firstChild : float)
    : float :=
  (numberOfInteger (scrollToIndex - 1) * child + firstChild)%float.

(** [Number.isFinite(x)] *)
Definition isFinite (x : float) : bool :=
  match Prim2SF x with
  | S754_zero _ | S754_finite _ _ _ => true
  | _ => false
  end.

(** [k] is the floor of the finite double [x]: [k <= x < k + 1] for the
    value [±mantissa * 2 ^ exponent] of [x]. *)
Definition floor_of_double (x : float) (k : Z) : Prop :=
  match Prim2SF x with
  | S754_zero _ => k = 0
  | S754_finite sign mantissa exponent =>
      if 0 <=? exponent then k = signedMantissa sign mantissa * 2 ^ exponent
      else k * 2 ^ (- exponent) <= signedMantissa sign mantissa
           < (k + 1) * 2 ^ (- exponent)
  | _ => False
  end.

End Double.

End VirtualScroll.

(** ** ComboBox.tsx and ComboBoxInput.tsx *)

Module ComboBox.

(** [SelectOption<T>], with the fields the two files read.  [isSelected] is
    the truthiness of the property of that name. *)
Record SelectOption (T : Type) := mkOption {
  label : string;
  value : T;
  id : option string;
  disabled : bool;
  isSelected : bool
}.
Arguments mkOption {T} _ _ _ _ _.
Arguments label {T} _.
Arguments value {T} _.
Arguments id {T} _.
Arguments disabled {T} _.
Arguments isSelected {T} _.

(** The [value] prop, together with [multiple]: one value, or an array of
    values when [multiple] is enabled; [None] is [undefined]. *)
Inductive ValueProp (T : Type) :=
  | SingleValue (v : option T)
  | MultipleValue (vs : option (list T)).
Arguments SingleValue {T} _.
Arguments MultipleValue {T} _.

Record ComboBoxProps (T : Type) := mkProps {
  options : list (SelectOption T);
  valueProp : ValueProp T;
  filterFunction : option (list (SelectOption T) -> string -> list (SelectOption T));
  enableVirtualization : bool;
  idPrefix : string
}.
Arguments mkProps {T} _ _ _ _ _.
Arguments options {T} _.
Arguments valueProp {T} _.
Arguments filterFunction {T} _.
Arguments enableVirtualization {T} _.
Arguments idPrefix {T} _.

(** The second argument of [onChange] in multiple mode. *)
Inductive SelectValueChangeEvent := added | removed.

(** A call of the caller's [onChange]. *)
Inductive Notification (T : Type) :=
  | OnChange (currentValue : option T)
  | OnChangeMultiple (v : T) (event : SelectValueChangeEvent).
Arguments OnChange {T} _.
Arguments OnChangeMultiple {T} _ _.

(** [selectedIndex: number | number[]] *)
Inductive SelectedIndex :=
  | Single (index : Z)
  | Multiple (indexes : list Z).

#[global] Instance SelectedIndex_eq_dec : EqDecision SelectedIndex.
Proof. solve_decision. Defined.

(** The state kept by [useReducer]. *)
Record ComboBoxState := mkState {
  isOpen : bool;
  selectedIndex : SelectedIndex;
  focusedIndex : Z
}.

Inductive ComboBoxAction :=
  | Open
  | Close
  | Select (index : Z)
  | Multiselect (index : Z)
  | Focus (index : option Z).

(** Modelled from the spec: the toggle of [comboBoxReducer] ([./helpers],
    not among the sources) for a multiselect action, "toggle membership of
    focused option in selection set"; a new array each time. *)
Definition toggle (index : Z) (indexes : list Z) : list Z :=
  if bool_decide (index ∈ indexes)
  then List.filter (fun i => negb (i =? index)) indexes
  else indexes ++ [index].

(** Modelled from the spec: [comboBoxReducer] of [./helpers], which is not
    among the sources.  The transition table of the specification gives:
    open and close set [isOpen]; select commits the selection to the given
    option; multiselect toggles the membership of the given option in the
    selection set; focus sets the focused index, and without a value resets
    it to none ([-1]). *)
Definition comboBoxReducer (state : ComboBoxState) (action : ComboBoxAction)
    : ComboBoxState :=
  match action with
  | Open => mkState true (selectedIndex state) (focusedIndex state)
  | Close => mkState false (selectedIndex state) (focusedIndex state)
  | Select index =>
      match selectedIndex state with
      | Single _ => mkState (isOpen state) (Single index) (focusedIndex state)
      | Multiple _ => state
      end
  | Multiselect index =>
      match selectedIndex state with
      | Single _ => state
      | Multiple indexes =>
          mkState (isOpen state) (Multiple (toggle index indexes)) (focusedIndex state)
      end
  | Focus index => mkState (isOpen state) (selectedIndex state) (nullish index (-1))
  end.

(** The hooks of one mounted ComboBox. *)
Record Component (T : Type) := mkComponent {
  state : ComboBoxState;
  mounted : bool;
  inputValue : string;
  filteredOptions : list (SelectOption T);
  optionsExtraInfo : gmap string Z
}.
Arguments mkComponent {T} _ _ _ _ _.
Arguments state {T} _.
Arguments mounted {T} _.
Arguments inputValue {T} _.
Arguments filteredOptions {T} _.
Arguments optionsExtraInfo {T} _.

(** An element of the dropdown list that carries [data-iui-index]. *)
Record MenuItem := mkMenuItem {
  dataIndex : Z;
  ariaDisabled : bool
}.

(** What [handleKeyDown] does: it dispatches actions, or dispatches a focus
    on [Number(undefined)], or its loop does not end. *)
Inductive KeyResult :=
  | Dispatched (actions : list ComboBoxAction)
  | FocusNaN
  | NoTermination.

(** The keys of the model; ArrowUp is not part of it. *)
Inductive Key := ArrowDown | Enter | Escape | Tab.

Section WithValues.
Context {T : Type} `{EqDecision T}.

Definition multiple (props : ComboBoxProps T) : bool :=
  match valueProp props with
  | SingleValue _ => false
  | MultipleValue _ => true
  end.

(** [option.id ?? `${idPrefix}-option-${option.label.replace(/\s/g, '-')}`] *)
Definition getOptionId (opt : SelectOption T) (idPrefix : string) : string :=
  nullish (id opt) (idPrefix +:+ "-option-" +:+ replaceWhitespace (label opt)).

(** [options.forEach((option, index) => extraInfo[getOptionId(option, id)] =
    { __originalIndex: index })], from position [index]. *)
Fixpoint recordIndexes (idPrefix : string) (options : list (SelectOption T))
    (index : Z) (extraInfo : gmap string Z) : gmap string Z :=
  match options with
  | [] => extraInfo
  | opt :: rest =>
      recordIndexes idPrefix rest (index + 1)
                    (<[getOptionId opt idPrefix := index]> extraInfo)
  end.

(** "Initialize the extra info only if it is not already initialized" *)
Definition initExtraInfo (props : ComboBoxProps T) (extraInfo : gmap string Z)
    : gmap string Z :=
  if (0 <? length (options props))%nat && bool_decide (extraInfo = ∅)
  then recordIndexes (idPrefix props) (options props) 0 extraInfo
  else extraInfo.

(** [optionsRef.current.findIndex((option) => option.value === value)] *)
Definition indexOfValue (options : list (SelectOption T)) (v : option T) : Z :=
  findIndex (fun opt => bool_decide (Some (value opt) = v)) options.

Definition getSelectedIndexes (props : ComboBoxProps T) : list Z :=
  match valueProp props with
  | MultipleValue (Some values) =>
      map (fun v => indexOfValue (options props) (Some v)) values
  | _ => []
  end.

(** The initial state given to [useReducer]. *)
Definition initialState (props : ComboBoxProps T) : ComboBoxState :=
  mkState false
    (match valueProp props with
     | MultipleValue _ => Multiple (getSelectedIndexes props)
     | SingleValue v => Single (indexOfValue (options props) v)
     end)
    (-1).

(** The default filter: [option.label.toLowerCase().includes(value.toLowerCase())] *)
Definition defaultFilter (options : list (SelectOption T)) (text : string)
    : list (SelectOption T) :=
  List.filter (fun opt => includes (toLowerCase (label opt)) (toLowerCase text))
              options.

(** [filterFunction?.(options, value) ?? options.filter(...)] *)
Definition filterOptions (props : ComboBoxProps T) (text : string)
    : list (SelectOption T) :=
  nullish ((fun f => f (options props) text) <$> filterFunction props)
          (defaultFilter (options props) text).

(** [handleOnInput]: the state it stores and the actions it dispatches. *)
Definition handleOnInput (props : ComboBoxProps T) (text : string) (c : Component T)
    : Component T * list ComboBoxAction :=
  (mkComponent (state c) (mounted c) text (filterOptions props text)
               (optionsExtraInfo c),
   Open :: (if focusedIndex (state c) =? -1 then [] else [Focus (Some (-1))])).

(** The effect "Update filtered options to the latest value options according
    to input value", which runs when [options] changes. *)
Definition filteredOptionsEffect (props : ComboBoxProps T) (c : Component T)
    : Component T * list ComboBoxAction :=
  (mkComponent (state c) (mounted c) (inputValue c)
               (if bool_decide (inputValue c = "") then options props
                else filterOptions props (inputValue c))
               (optionsExtraInfo c),
   [Focus None]).

(** The effect "When the value prop changes, update the selectedIndex"; the
    branch for [multiple] is empty. *)
Definition valueEffect (props : ComboBoxProps T) : list ComboBoxAction :=
  match valueProp props with
  | MultipleValue _ => []
  | SingleValue v => [Select (indexOfValue (options props) v)]
  end.

(** The layout effect on [isOpen] and [selectedIndex]. *)
Definition layoutEffect (props : ComboBoxProps T) (c : Component T)
    : Component T * list ComboBoxAction :=
  if isOpen (state c) then
    (mkComponent (state c) (mounted c) (inputValue c) (options props)
                 (optionsExtraInfo c),
     [Focus None])
  else
    (match selectedIndex (state c) with
     | Multiple _ => c
     | Single index =>
         mkComponent (state c) (mounted c)
           (if 0 <=? index
            then nullish (label <$> at_index (options props) index) ""
            else "")
           (filteredOptions c) (optionsExtraInfo c)
     end,
     [Focus None]).

(** The effect "Call user-defined onChange when the value actually changes",
    for a ComboBox that was given [onChange] ([onChangeEffectFor] below has
    the other case).  [None] is the [TypeError] of reading [value] of an
    option that does not exist. *)
Definition onChangeEffect (props : ComboBoxProps T) (c : Component T)
    : option (Component T * list (Notification T)) :=
  if negb (mounted c) then
    Some (mkComponent (state c) true (inputValue c) (filteredOptions c)
                      (optionsExtraInfo c), [])
  else
    match valueProp props, selectedIndex (state c) with
    | MultipleValue _, Multiple indexes =>
        let currentOptions := map (at_index (options props)) indexes in
        if (0 <? length currentOptions)%nat then
          calls ← mapM (fmap (fun opt =>
                          OnChangeMultiple (value opt)
                            (if isSelected opt then removed else added)))
                       currentOptions;
          Some (c, calls)
        else Some (c, [])
    | SingleValue v, Single index =>
        let currentValue := value <$> at_index (options props) index in
        if bool_decide (currentValue = v) || (index =? -1) then Some (c, [])
        else Some (c, [OnChange currentValue])
    | _, _ => Some (c, [])
    end.

(** A render caused by [actions], followed by the effects whose dependencies
    changed: the layout effect depends on [isOpen] and [selectedIndex], the
    [onChange] effect on [selectedIndex].  What the layout effect dispatches
    changes the focused index only, so no effect runs again. *)
Definition commit (props : ComboBoxProps T) (c : Component T)
    (actions : list ComboBoxAction) : option (Component T * list (Notification T)) :=
  let state' := foldl comboBoxReducer (state c) actions in
  let sameSelection := bool_decide (selectedIndex state' = selectedIndex (state c)) in
  let sameOpen := bool_decide (isOpen state' = isOpen (state c)) in
  let c1 := mkComponent state' (mounted c) (inputValue c) (filteredOptions c)
                        (initExtraInfo props (optionsExtraInfo c)) in
  let '(c2, dispatched) :=
    if sameSelection && sameOpen then (c1, []) else layoutEffect props c1 in
  '(c3, calls) ← (if sameSelection then Some (c2, []) else onChangeEffect props c2);
  Some (mkComponent (foldl comboBoxReducer (state c3) dispatched) (mounted c3)
                    (inputValue c3) (filteredOptions c3) (optionsExtraInfo c3),
        calls).

(** The first render and its effects: the extra info is cleared, the layout
    effect, the filtered-options effect and the value effect dispatch, the
    [onChange] effect records that the component is mounted. *)
Definition mount (props : ComboBoxProps T)
    : option (Component T * list (Notification T)) :=
  let c0 := mkComponent (initialState props) false "" (options props)
                        (initExtraInfo props ∅) in
  let '(c1, fromFilter) := filteredOptionsEffect props c0 in
  let '(c2, fromLayout) := layoutEffect props c1 in
  '(c3, calls) ← onChangeEffect props c2;
  '(c4, calls') ←
    commit props
      (mkComponent (state c3) (mounted c3) (inputValue c3) (filteredOptions c3) ∅)
      (fromLayout ++ fromFilter ++ valueEffect props);
  Some (c4, calls ++ calls').

(** The caller passes another [value]. *)
Definition newValue (props : ComboBoxProps T) (c : Component T)
    : option (Component T * list (Notification T)) :=
  commit props c (valueEffect props).

(** The caller passes another [options] array (and possibly another value). *)
Definition newOptions (props : ComboBoxProps T) (c : Component T)
    : option (Component T * list (Notification T)) :=
  let cleared :=
    mkComponent (state c) (mounted c) (inputValue c) (filteredOptions c) ∅ in
  let '(c1, fromFilter) := filteredOptionsEffect props cleared in
  commit props c1 (fromFilter ++ valueEffect props).

(** The user types: [handleOnInput], then the render. *)
Definition input (props : ComboBoxProps T) (text : string) (c : Component T)
    : option (Component T * list (Notification T)) :=
  let '(c1, actions) := handleOnInput props text c in
  commit props c1 actions.

(** Modelled from the spec: [ComboBoxMenuItem], which is not among the
    sources, renders the item of an option; the item of a disabled option is
    the one navigation skips, so it carries [aria-disabled]. *)
Definition itemDisabled (opt : SelectOption T) : bool := disabled opt.

(** The items of the list when it is not virtualized:
    [filteredOptions.map(getMenuItem)], each with the [__originalIndex] of
    its option as [data-iui-index]; [None] is the [TypeError] of an option
    without extra info. *)
Definition getMenuItem (props : ComboBoxProps T) (c : Component T)
    (opt : SelectOption T) : option MenuItem :=
  originalIndex ← optionsExtraInfo c !! getOptionId opt (idPrefix props);
  Some (mkMenuItem originalIndex (itemDisabled opt)).

Definition menuItems (props : ComboBoxProps T) (c : Component T)
    : option (list MenuItem) :=
  mapM (getMenuItem props c) (filteredOptions c).

(** [menuRef.current?.querySelector(`[data-iui-index="${index}"]`)]: the
    position of the first such item. *)
Fixpoint querySelector (menu : list MenuItem) (index : Z) : option nat :=
  match menu with
  | [] => None
  | item :: rest =>
      if dataIndex item =? index then Some O else S <$> querySelector rest index
  end.

Definition nextElementSibling (menu : list MenuItem) (position : nat)
    : option MenuItem :=
  menu !! S position.

(** [currentElement?.nextElementSibling ??
     menuRef.current?.querySelector('[data-iui-index]')] *)
Definition nextElement (menu : list MenuItem) (index : Z) : option MenuItem :=
  match querySelector menu index ≫= nextElementSibling menu with
  | Some item => Some item
  | None => head menu
  end.

(** The [do ... while (nextIndex !== focusedIndexRef.current)] loop of
    ArrowDown. *)
Fixpoint arrowDownLoop (fuel : nat) (menu : list MenuItem)
    (focused nextIndex : Z) : KeyResult :=
  match fuel with
  | O => NoTermination
  | S fuel' =>
      match nextElement menu nextIndex with
      | None => FocusNaN
      | Some item =>
          if negb (ariaDisabled item) then Dispatched [Focus (Some (dataIndex item))]
          else if dataIndex item =? focused then Dispatched []
          else arrowDownLoop fuel' menu focused (dataIndex item)
      end
  end.

(** [handleKeyDown] of ComboBoxInput.  [onChangeHandler] comes from the
    state context; the calls it makes are returned with the actions. *)
Definition handleKeyDown (props : ComboBoxProps T) (c : Component T)
    (onChangeHandler : option (Z -> list (Notification T)))
    (menu : list MenuItem) (key : Key) : KeyResult * list (Notification T) :=
  let length := size (optionsExtraInfo c) in
  let focused := focusedIndex (state c) in
  let handlerCalls :=
    nullish ((fun handler => handler focused) <$> onChangeHandler) [] in
  match key with
  | ArrowDown =>
      if negb (isOpen (state c)) then (Dispatched [Open], [])
      else if (length =? 0)%nat then (Dispatched [], [])
      else if focused =? -1 then
        (Dispatched [Focus (Some (nullish (dataIndex <$> head menu) 0))], [])
      else if enableVirtualization props &&
              negb (bool_decide
                      (is_Some (querySelector menu focused ≫= nextElementSibling menu)))
      then (Dispatched [], [])
      else (arrowDownLoop (S (List.length menu)) menu focused focused, [])
  | Enter =>
      if isOpen (state c) then
        if multiple props then
          if -1 <? focused then (Dispatched [Multiselect focused], handlerCalls)
          else (Dispatched [Close], [])
        else (Dispatched [Select focused; Close], handlerCalls)
      else (Dispatched [Open], [])
  | Escape => (Dispatched [Close], [])
  | Tab => (Dispatched [Close], [])
  end.

(** A key pressed in the input of the ComboBox: its state context has no
    [onChangeHandler].  [None] when the handler dispatches no proper action
    or the render throws. *)
Definition keyDown (props : ComboBoxProps T) (menu : list MenuItem) (key : Key)
    (c : Component T) : option (Component T * list (Notification T)) :=
  match handleKeyDown props c None menu key with
  | (Dispatched actions, calls) =>
      '(c', calls') ← commit props c actions;
      Some (c', calls ++ calls')
  | _ => None
  end.

(** A key pressed while the list is not virtualized: the items are those of
    the filtered options. *)
Definition press (props : ComboBoxProps T) (key : Key) (c : Component T)
    : option (Component T * list (Notification T)) :=
  menu ← menuItems props c;
  keyDown props menu key c.

(** [handleFocus] *)
Definition focusInput (props : ComboBoxProps T) (c : Component T)
    : option (Component T * list (Notification T)) :=
  commit props c [Open].

(** One event after another; the calls of [onChange] add up. *)
Definition andThen (r : option (Component T * list (Notification T)))
    (event : Component T -> option (Component T * list (Notification T)))
    : option (Component T * list (Notification T)) :=
  '(c, calls) ← r;
  '(c', calls') ← event c;
  Some (c', calls ++ calls').

End WithValues.

Infix ">>>" := andThen (at level 50, left associativity).

(** *** Vocabulary of the properties *)

(** [kept] is the subsequence of [all] made of the elements that satisfy
    [P]. *)
Inductive selects {A : Type} (P : A -> Prop) : list A -> list A -> Prop :=
  | selects_nil : selects P [] []
  | selects_keep (x : A) (all kept : list A) :
      P x -> selects P all kept -> selects P (x :: all) (x :: kept)
  | selects_skip (x : A) (all kept : list A) :
      ~ P x -> selects P all kept -> selects P (x :: all) kept.

(** The label contains the text, letter case ignored. *)
Definition contains_ignoring_case (label text : string) : Prop :=
  exists pre post, toLowerCase label = pre +:+ toLowerCase text +:+ post.

(** The items that follow position [p], cyclically, up to the item at [p]
    itself. *)
Definition itemsAfter (menu : list MenuItem) (p : nat) : list MenuItem :=
  drop (S p) menu ++ take (S p) menu.

Definition firstEnabled (items : list MenuItem) : option MenuItem :=
  List.find (fun item => negb (ariaDisabled item)) items.

Definition focusOn (target : option MenuItem) : KeyResult :=
  match target with
  | Some item => Dispatched [Focus (Some (dataIndex item))]
  | None => Dispatched []
  end.

(** [rest] are the items the loop of ArrowDown meets, one after the other,
    from the item with index [cur]. *)
Fixpoint follows (menu : list MenuItem) (cur : Z) (rest : list MenuItem) : Prop :=
  match rest with
  | [] => True
  | item :: rest' =>
      nextElement menu cur = Some item /\ follows menu (dataIndex item) rest'
  end.

Definition lastIndex (cur : Z) (items : list MenuItem) : Z :=
  nullish (dataIndex <$> last items) cur.

(** Concrete boxes: three fruits, with their values. *)
Definition apple : SelectOption Z := mkOption "Apple" 1 None false false.
Definition banana : SelectOption Z := mkOption "Banana" 2 None false false.
Definition cherry : SelectOption Z := mkOption "Cherry" 3 None false false.
Definition disabledApple : SelectOption Z := mkOption "Apple" 1 None true false.
Definition disabledCherry : SelectOption Z := mkOption "Cherry" 3 None true false.

Definition fruits (v : ValueProp Z) : ComboBoxProps Z :=
  mkProps [apple; banana; cherry] v None false "cb".

(** A mounted box over [options] with the given reducer state, an empty input
    and the full list. *)
Definition boxOf (options : list (SelectOption Z)) (st : ComboBoxState)
    : Component Z :=
  mkComponent st true "" options (recordIndexes "cb" options 0 ∅).

(** *** The click handler and ArrowUp *)

Section MoreHandlers.
Context {T : Type} `{EqDecision T}.

(** [onClickHandler(__originalIndex)]: the state it stores and the actions it
    dispatches. *)
Definition onClickHandler (props : ComboBoxProps T) (originalIndex : Z)
    (c : Component T) : Component T * list ComboBoxAction :=
  if multiple props then
    (mkComponent (state c) (mounted c) "" (filteredOptions c) (optionsExtraInfo c),
     [Multiselect originalIndex])
  else (c, [Select originalIndex; Close]).

Definition previousElementSibling (menu : list MenuItem) (position : nat)
    : option MenuItem :=
  match position with
  | O => None
  | S before => menu !! before
  end.

(** [currentElement?.previousElementSibling ??
     menuRef.current?.querySelector('[data-iui-index]:last-of-type')]; the
    items are the children of the list, so the last of them is the one the
    selector finds. *)
Definition prevElement (menu : list MenuItem) (index : Z) : option MenuItem :=
  match querySelector menu index ≫= previousElementSibling menu with
  | Some item => Some item
  | None => last menu
  end.

(** The [do ... while (prevIndex !== focusedIndexRef.current)] loop of
    ArrowUp. *)
Fixpoint arrowUpLoop (fuel : nat) (menu : list MenuItem)
    (focused prevIndex : Z) : KeyResult :=
  match fuel with
  | O => NoTermination
  | S fuel' =>
      match prevElement menu prevIndex with
      | None => FocusNaN
      | Some item =>
          if negb (ariaDisabled item) then Dispatched [Focus (Some (dataIndex item))]
          else if dataIndex item =? focused then Dispatched []
          else arrowUpLoop fuel' menu focused (dataIndex item)
      end
  end.

(** The ArrowUp case of [handleKeyDown].  [recorded] are the
    [__originalIndex]es of [Object.values(optionsExtraInfoRef.current)], in
    the order of the object's properties; there are as many as the object has
    keys. *)
Definition handleArrowUp (props : ComboBoxProps T) (c : Component T)
    (recorded : list Z) (menu : list MenuItem) : KeyResult :=
  let length := size (optionsExtraInfo c) in
  let focused := focusedIndex (state c) in
  if negb (isOpen (state c)) then Dispatched [Open]
  else if (length =? 0)%nat then Dispatched []
  else if enableVirtualization props &&
          negb (bool_decide
                  (is_Some (querySelector menu focused ≫= previousElementSibling menu)))
  then Dispatched []
  else if focused =? -1 then
    Dispatched [Focus (Some (nullish (recorded !! (length - 1)%nat) (-1)))]
  else arrowUpLoop (S (List.length menu)) menu focused focused.

End MoreHandlers.

(** *** The optional [onChange], and the order of the extra info *)

Section OptionalOnChange.
Context {T : Type} `{EqDecision T}.

(** The [onChange] effect with the [onChange] prop given or not.  The calls
    are [onChangeProp.current?.(...)]: without [onChange] the optional call
    evaluates neither the call nor its arguments, so nothing is called and
    no [value] is read; the effect still records the mount. *)
Definition onChangeEffectFor (hasOnChange : bool) (props : ComboBoxProps T)
    (c : Component T) : option (Component T * list (Notification T)) :=
  if hasOnChange then onChangeEffect props c
  else if negb (mounted c) then
    Some (mkComponent (state c) true (inputValue c) (filteredOptions c)
                      (optionsExtraInfo c), [])
  else Some (c, []).

(** [object[key] = value] on the properties of an object, in their order:
    a key that is not an array index keeps the place of its first
    assignment. *)
Fixpoint assignProperty (key : string) (v : Z) (properties : list (string * Z))
    : list (string * Z) :=
  match properties with
  | [] => [(key, v)]
  | (k, w) :: rest =>
      if bool_decide (k = key) then (k, v) :: rest
      else (k, w) :: assignProperty key v rest
  end.

(** The properties of the extra info after
    [options.forEach((option, index) => extraInfo[getOptionId(option, id)] =
    { __originalIndex: index })], from position [index]. *)
Fixpoint recordProperties (idPrefix : string) (options : list (SelectOption T))
    (index : Z) (properties : list (string * Z)) : list (string * Z) :=
  match options with
  | [] => properties
  | opt :: rest =>
      recordProperties idPrefix rest (index + 1)
                       (assignProperty (getOptionId opt idPrefix) index properties)
  end.

(** The [__originalIndex]es of [Object.values(optionsExtraInfoRef.current)]
    for the extra info initialised from the options, when no id is an array
    index. *)
Definition recordedValues (props : ComboBoxProps T) : list Z :=
  map snd (recordProperties (idPrefix props) (options props) 0 []).

End OptionalOnChange.

Definition isDigit (c : ascii) : bool :=
  (48 <=? nat_of_ascii c)%nat && (nat_of_ascii c <=? 57)%nat.

Fixpoint allDigits (s : string) : bool :=
  match s with
  | EmptyString => true
  | String c rest => isDigit c && allDigits rest
  end.

(** A key that may be an array index, which an object lists before its other
    keys: it is made of decimal digits only. *)
Definition digitsOnly (s : string) : bool :=
  negb (bool_decide (s = ""%string)) && allDigits s.

(** A string of ASCII characters. *)
Fixpoint isASCII (s : string) : bool :=
  match s with
  | EmptyString => true
  | String c rest => (nat_of_ascii c <? 128)%nat && isASCII rest
  end.

(** The items before position [p], cyclically and backwards, down to the item
    at [p] itself. *)
Definition itemsBefore (menu : list MenuItem) (p : nat) : list MenuItem :=
  reverse (take p menu) ++ reverse (drop p menu).

(** The ids of the options, in their order. *)
Definition idsOf {T : Type} (idPrefix : string) (options : list (SelectOption T))
    : list string :=
  map (fun opt => getOptionId opt idPrefix) options.

(** Two options whose labels give the same id. *)
Definition spaced : SelectOption Z := mkOption "Red apple" 1 None false false.
Definition dashed : SelectOption Z := mkOption "Red-apple" 2 None false false.

End ComboBox.

(** * Properties of the windower *)

Module VirtualScrollSpec.
Import VirtualScroll.

Lemma elem_of_push_from (n : nat) (i k : Z) :
  k ∈ push_from n i <-> i <= k < i + Z.of_nat n.
Proof.
  revert i; induction n as [|n IH]; intros i; simpl.
  - rewrite elem_of_nil. lia.
  - rewrite elem_of_cons, IH. lia.
Qed.

Lemma elem_of_for_range (start endIndex k : Z) :
  k ∈ for_range start endIndex <-> start <= k < endIndex.
Proof. unfold for_range. rewrite elem_of_push_from. lia. Qed.

Lemma for_range_nil (start endIndex : Z) :
  for_range start endIndex = [] <-> endIndex <= start.
Proof.
  unfold for_range. split.
  - destruct (Z.to_nat (endIndex - start)) eqn:E; [lia | discriminate].
  - intros H. replace (Z.to_nat (endIndex - start)) with O by lia. reflexivity.
Qed.

Lemma length_for_range (start endIndex : Z) :
  length (for_range start endIndex) = Z.to_nat (endIndex - start).
Proof.
  unfold for_range. generalize (Z.to_nat (endIndex - start)) as n.
  intros n; revert start; induction n as [|n IH]; intros start; simpl; auto.
Qed.

Lemma nodes_in_height_zero (totalHeight : Z) :
  getNumberOfNodesInHeight 0 totalHeight = 0.
Proof. reflexivity. Qed.

Lemma nodes_in_height_floor (childHeight totalHeight : Z) :
  0 < childHeight ->
  is_floor totalHeight childHeight (getNumberOfNodesInHeight childHeight totalHeight).
Proof.
  intros Hpos. unfold getNumberOfNodesInHeight, is_floor.
  destruct (Z.eqb_spec childHeight 0) as [->|_]; [lia|].
  pose proof (Z.div_mod totalHeight childHeight ltac:(lia)) as Hdm.
  pose proof (Z.mod_pos_bound totalHeight childHeight Hpos) as Hmod.
  nia.
Qed.

Lemma is_floor_unique (a b q q' : Z) :
  0 < b -> is_floor a b q -> is_floor a b q' -> q = q'.
Proof. unfold is_floor. intros Hb H1 H2. nia. Qed.

Lemma nodes_in_height_nonneg (childHeight totalHeight : Z) :
  0 <= childHeight -> 0 <= totalHeight ->
  0 <= getNumberOfNodesInHeight childHeight totalHeight.
Proof.
  intros Hc Ht. unfold getNumberOfNodesInHeight.
  destruct (Z.eqb_spec childHeight 0); [lia|].
  apply Z.div_pos; lia.
Qed.

Lemma nodes_in_height_at_zero (childHeight : Z) :
  getNumberOfNodesInHeight childHeight 0 = 0.
Proof.
  unfold getNumberOfNodesInHeight.
  destruct (childHeight =? 0); [reflexivity | apply Zdiv_0_l].
Qed.

(** *** The window computation (C5) *)

(** With the quotients taken exactly, [updateVirtualScroll] stores
    [startIndex = max(0, rawStart - bufferSize)] and
    [visibleCount = min(itemCount - rawStart, perViewport)], where [rawStart]
    is the floor of the exact quotient [scrollOffset / rowHeight] and
    [perViewport] the floor of [viewportHeight / rowHeight], both [0] when
    [rowHeight = 0]. *)
Lemma window_of_exact_quotients
    (props : VirtualScrollProps) (scrollTopArg : option Z)
    (container : HTMLElement) (c : Component) :
  let rowHeight := child (childHeight c) in
  let scrollOffset := nullish scrollTopArg (scrollTop container) in
  let viewportHeight := rectHeight container in
  let c' := updateVirtualScroll props scrollTopArg (Some container) c in
  0 <= rowHeight ->
  exists rawStart perViewport : Z,
    (rowHeight = 0 -> rawStart = 0 /\ perViewport = 0) /\
    (0 < rowHeight ->
       is_floor scrollOffset rowHeight rawStart /\
       is_floor viewportHeight rowHeight perViewport) /\
    startNode c' = Z.max 0 (rawStart - bufferSize props) /\
    visibleNodeCount c' = Z.min (itemsLength props - rawStart) perViewport.
Proof.
  intros rowHeight scrollOffset viewportHeight c' Hr.
  exists (getNumberOfNodesInHeight rowHeight scrollOffset),
         (getNumberOfNodesInHeight rowHeight viewportHeight).
  split; [|split; [|split]].
  - intros ->. split; apply nodes_in_height_zero.
  - intros Hpos. split; apply nodes_in_height_floor; assumption.
  - reflexivity.
  - reflexivity.
Qed.

(** The floor of a finite double. *)
Lemma MathFloor_finite (x : float) :
  Double.isFinite x = true ->
  exists k, Double.MathFloor x = Some k /\ Double.floor_of_double x k.
Proof.
  unfold Double.isFinite, Double.MathFloor, Double.floor_of_double.
  destruct (Prim2SF x) as [s| s | |s m e]; intros H; try discriminate H.
  - exists 0. split; reflexivity.
  - eexists. split; [reflexivity|].
    destruct (Z.leb_spec 0 e) as [Hle|Hlt]; [reflexivity|].
    assert (Hpos : 0 < 2 ^ (- e)) by (apply Z.pow_pos_nonneg; lia).
    pose proof (Z.mul_div_le (Double.signedMantissa s m) _ Hpos).
    pose proof (Z.mul_succ_div_gt (Double.signedMantissa s m) _ Hpos).
    lia.
Qed.

Lemma floor_of_double_unique (x : float) (k k' : Z) :
  Double.floor_of_double x k -> Double.floor_of_double x k' -> k = k'.
Proof.
  unfold Double.floor_of_double.
  destruct (Prim2SF x) as [s| s | |s m e]; try tauto; try congruence.
  destruct (Z.leb_spec 0 e) as [Hle|Hlt]; [congruence|].
  assert (Hpos : 0 < 2 ^ (- e)) by (apply Z.pow_pos_nonneg; lia).
  intros H1 H2. nia.
Qed.

Lemma Prim2SF_zero : Prim2SF 0 = S754_zero false.
Proof. reflexivity. Qed.

(** What the comparisons of doubles with [0] say about a double. *)
Lemma nonneg_double (x : float) :
  (0 <=? x)%float = true ->
  (exists s, Prim2SF x = S754_zero s) \/
  (exists m e, Prim2SF x = S754_finite false m e) \/
  Prim2SF x = S754_infinity false.
Proof.
  rewrite FloatAxioms.leb_spec, Prim2SF_zero. unfold SFleb, SFcompare.
  destruct (Prim2SF x) as [s|[]| |[] m e]; intros H; try discriminate H; eauto.
Qed.

Lemma zero_double (x : float) :
  (x =? 0)%float = true <-> exists s, Prim2SF x = S754_zero s.
Proof.
  rewrite FloatAxioms.eqb_spec, Prim2SF_zero. unfold SFeqb, SFcompare.
  split.
  - destruct (Prim2SF x) as [s|[]| |[] m e]; intros H; try discriminate H; eauto.
  - intros [s ->]. reflexivity.
Qed.

Lemma positive_double (x : float) :
  (0 <? x)%float = true ->
  (exists m e, Prim2SF x = S754_finite false m e) \/ Prim2SF x = S754_infinity false.
Proof.
  rewrite FloatAxioms.ltb_spec, Prim2SF_zero. unfold SFltb, SFcompare.
  destruct (Prim2SF x) as [s|[]| |[] m e]; intros H; try discriminate H; eauto.
Qed.

Lemma falsy_spec (x : float) :
  Double.falsy x = match Prim2SF x with
                   | S754_zero _ | S754_nan => true
                   | _ => false
                   end.
Proof.
  unfold Double.falsy, is_nan. rewrite !FloatAxioms.eqb_spec, Prim2SF_zero.
  unfold SFeqb, SFcompare.
  destruct (Prim2SF x) as [s|[]| |[] m e]; try reflexivity;
    rewrite Z.compare_refl, Pos.compare_cont_refl; reflexivity.
Qed.

Lemma zero_quotient (x y : float) (s : bool) :
  Prim2SF x = S754_zero s ->
  (exists m e, Prim2SF y = S754_finite false m e) \/ Prim2SF y = S754_infinity false ->
  exists s', Prim2SF (x / y) = S754_zero s'.
Proof.
  intros Hx Hy. rewrite FloatAxioms.div_spec, Hx. unfold SF64div, SFdiv.
  destruct Hy as [(m & e & ->) | ->]; eauto.
Qed.

(** C5, as stated, fails: the quotient of the code is a double.  For rows of
    32.2px and a scroll offset of 483px the quotient of the doubles is
    14.999999999999998, and [rawStart] is 14, where the floor of
    [483 / 32.2] is 15; with a container of 966px, 100 items and a buffer of
    10 the window is [startIndex = 4], [visibleCount = 29], not 5 and 30. *)
Lemma floor_of_double_quotient_is_one_less :
  Double.getNumberOfNodesInHeight (Double.numberOfHundredths 3220)
                                  (Double.numberOfHundredths 48300) = Some 14 /\
  is_floor 48300 3220 15 /\
  Double.getNumberOfNodesInHeight (Double.numberOfHundredths 3220)
                                  (Double.numberOfHundredths 96600) = Some 29 /\
  is_floor 96600 3220 30 /\
  Double.updateVirtualScroll (mkProps 100 10 0) (Double.numberOfHundredths 3220) None
    (Double.numberOfHundredths 48300) (Double.numberOfHundredths 96600)
  = Some (Double.mkWindow 4 29).
Proof.
  vm_compute. repeat split; try reflexivity; intros H; discriminate H.
Qed.

(** C5, amended.  For a non-negative scroll offset, viewport height and row
    height (doubles), a non-negative item count and buffer size, and finite
    quotients, [updateVirtualScroll] stores
    [startIndex = max(0, rawStart - bufferSize)] and
    [visibleCount = min(itemCount - rawStart, perViewport)], where [rawStart]
    is the floor of the double [scrollOffset / rowHeight] and [perViewport]
    the floor of the double [viewportHeight / rowHeight], both [0] when
    [rowHeight] is [0]; a scroll offset of [0] gives [startIndex = 0]. *)
Theorem window_computation
    (props : VirtualScrollProps) (rowHeight : float) (scrollTopArg : option float)
    (containerScrollTop viewportHeight : float) :
  let scrollOffset := nullish scrollTopArg containerScrollTop in
  (0 <=? scrollOffset)%float = true -> (0 <=? viewportHeight)%float = true ->
  (0 <=? rowHeight)%float = true ->
  0 <= itemsLength props -> 0 <= bufferSize props ->
  (rowHeight =? 0)%float = true \/
  (Double.isFinite (scrollOffset / rowHeight) = true /\
   Double.isFinite (viewportHeight / rowHeight) = true) ->
  exists rawStart perViewport : Z,
    ((rowHeight =? 0)%float = true -> rawStart = 0 /\ perViewport = 0) /\
    ((0 <? rowHeight)%float = true ->
       Double.floor_of_double (scrollOffset / rowHeight) rawStart /\
       Double.floor_of_double (viewportHeight / rowHeight) perViewport) /\
    Double.updateVirtualScroll props rowHeight scrollTopArg containerScrollTop
                               viewportHeight
    = Some (Double.mkWindow (Z.max 0 (rawStart - bufferSize props))
                            (Z.min (itemsLength props - rawStart) perViewport)) /\
    ((scrollOffset =? 0)%float = true -> Z.max 0 (rawStart - bufferSize props) = 0).
Proof.
  intros scrollOffset Hs Hv Hr Hi Hb Hfin.
  unfold Double.updateVirtualScroll, Double.getVisibleNodeCount,
    Double.getNumberOfNodesInHeight. fold scrollOffset.
  rewrite falsy_spec.
  destruct (nonneg_double rowHeight Hr) as [[s Hz] | Hpos].
  - rewrite Hz. exists 0, 0. split; [split; reflexivity|]. split; [|split].
    + intros Hlt. apply positive_double in Hlt.
      rewrite Hz in Hlt. destruct Hlt as [(m & e & H) | H]; discriminate H.
    + reflexivity.
    + intros _. lia.
  - assert (Hnz : (rowHeight =? 0)%float = false).
    { destruct ((rowHeight =? 0)%float) eqn:E; [|reflexivity].
      apply zero_double in E as [s E].
      destruct Hpos as [(m & e & H) | H]; rewrite H in E; discriminate E. }
    rewrite Hnz in Hfin. destruct Hfin as [Hfin | [Hq1 Hq2]]; [discriminate Hfin|].
    destruct (MathFloor_finite _ Hq1) as (rawStart & Hstart & Hfloor1).
    destruct (MathFloor_finite _ Hq2) as (perViewport & Hper & Hfloor2).
    exists rawStart, perViewport.
    split; [intros H; rewrite Hnz in H; discriminate H|].
    split; [intros _; split; assumption|]. split.
    + destruct Hpos as [(m & e & ->) | ->]; rewrite Hstart, Hper; reflexivity.
    + intros Hzero. apply zero_double in Hzero as [s Hzero].
      destruct (zero_quotient scrollOffset rowHeight s Hzero Hpos) as [s' Hq].
      unfold Double.floor_of_double in Hfloor1. rewrite Hq in Hfloor1. lia.
Qed.

Lemma window_computation_witness :
  exists rawStart perViewport : Z,
    ((Double.numberOfHundredths 3220 =? 0)%float = true ->
     rawStart = 0 /\ perViewport = 0) /\
    ((0 <? Double.numberOfHundredths 3220)%float = true ->
       Double.floor_of_double
         (Double.numberOfHundredths 48300 / Double.numberOfHundredths 3220) rawStart /\
       Double.floor_of_double
         (Double.numberOfHundredths 96600 / Double.numberOfHundredths 3220)
         perViewport) /\
    Double.updateVirtualScroll (mkProps 100 10 0) (Double.numberOfHundredths 3220) None
      (Double.numberOfHundredths 48300) (Double.numberOfHundredths 96600)
    = Some (Double.mkWindow (Z.max 0 (rawStart - 10))
                            (Z.min (100 - rawStart) perViewport)) /\
    ((Double.numberOfHundredths 48300 =? 0)%float = true ->
     Z.max 0 (rawStart - 10) = 0).
Proof.
  apply (window_computation (mkProps 100 10 0) (Double.numberOfHundredths 3220) None
           (Double.numberOfHundredths 48300) (Double.numberOfHundredths 96600));
    try (vm_compute; reflexivity); try (simpl; lia).
  right. split; vm_compute; reflexivity.
Defined.

(** *** The translate offset (C6) *)

Lemma translate_at_start (childHeight firstChildHeight startIndex : Z) :
  startIndex <= 0 -> getTranslateValue childHeight firstChildHeight startIndex = 0.
Proof.
  intros H. unfold getTranslateValue.
  destruct (Z.ltb_spec 0 startIndex); [lia | reflexivity].
Qed.

Lemma translate_after_start (childHeight firstChildHeight startIndex : Z) :
  0 < startIndex ->
  getTranslateValue childHeight firstChildHeight startIndex
  = childHeight * (startIndex - 1) + firstChildHeight.
Proof.
  intros H. unfold getTranslateValue.
  destruct (Z.ltb_spec 0 startIndex); [reflexivity | lia].
Qed.

(** C6, as stated, fails: with heights not yet measured (both [0]) the
    translate value at [startIndex = 1] is [0] although [startIndex <> 0]. *)
Lemma translate_zero_away_from_start :
  getTranslateValue 0 0 1 = 0 /\ (1 : Z) <> 0.
Proof. split; [reflexivity | discriminate]. Qed.

(** C6, amended.  For [startIndex >= 0], [getTranslateValue] returns [0] when
    [startIndex = 0] and [rowHeight * (startIndex - 1) + firstRowHeight]
    otherwise; when moreover [rowHeight >= 0] and [firstRowHeight > 0] it
    returns [0] exactly when [startIndex = 0]. *)
Theorem translate_value
    (rowHeight firstRowHeight startIndex : Z) :
  0 <= startIndex ->
  (startIndex = 0 -> getTranslateValue rowHeight firstRowHeight startIndex = 0) /\
  (startIndex <> 0 ->
     getTranslateValue rowHeight firstRowHeight startIndex
     = rowHeight * (startIndex - 1) + firstRowHeight) /\
  (0 <= rowHeight -> 0 < firstRowHeight ->
     (getTranslateValue rowHeight firstRowHeight startIndex = 0 <-> startIndex = 0)).
Proof.
  intros Hs. split; [|split].
  - intros ->. reflexivity.
  - intros Hne. apply translate_after_start. lia.
  - intros Hr Hf. split.
    + intros H0. destruct (Z.eq_dec startIndex 0) as [|Hne]; [assumption|].
      rewrite translate_after_start in H0 by lia. nia.
    + intros ->. reflexivity.
Qed.

Lemma translate_value_witness :
  ((3 : Z) = 0 -> getTranslateValue 1000 1200 3 = 0) /\
  ((3 : Z) <> 0 -> getTranslateValue 1000 1200 3 = 1000 * (3 - 1) + 1200) /\
  (0 <= 1000 -> 0 < 1200 -> (getTranslateValue 1000 1200 3 = 0 <-> (3 : Z) = 0)).
Proof. apply (translate_value 1000 1200 3). lia. Defined.

(** *** The materialized range and the window invariant (C1) *)

Lemma visible_children_within
    (props : VirtualScrollProps) (c : Component) (i : Z) :
  i ∈ visibleChildren props c -> startNode c <= i < itemsLength props.
Proof.
  unfold visibleChildren. rewrite elem_of_for_range. lia.
Qed.

Lemma update_start_nonneg
    (props : VirtualScrollProps) (scrollTopArg : option Z)
    (container : HTMLElement) (c : Component) :
  0 <= startNode (updateVirtualScroll props scrollTopArg (Some container) c).
Proof. simpl. lia. Qed.

Lemma update_window_fits
    (props : VirtualScrollProps) (scrollTopArg : option Z)
    (container : HTMLElement) (c : Component) :
  0 <= itemsLength props -> 0 <= bufferSize props ->
  0 <= nullish scrollTopArg (scrollTop container) ->
  0 <= child (childHeight c) ->
  let c' := updateVirtualScroll props scrollTopArg (Some container) c in
  startNode c' + visibleNodeCount c' <= itemsLength props.
Proof.
  intros Hi Hb Hs Hr. simpl. unfold getVisibleNodeCount.
  pose proof (nodes_in_height_nonneg _ _ Hr Hs). lia.
Qed.

(** C1, as stated, fails for a negative scroll offset (an overscrolled
    container): with three 10px rows in a 100px container scrolled to -50px the
    recomputation stores [startIndex = 0] and [visibleCount = 8], and
    [0 + 8 > 3]. *)
Lemma window_exceeds_items_when_overscrolled :
  let c' := updateVirtualScroll threeRows None
              (Some (mkElement 10000 0 0 (-5000))) measured10 in
  child (childHeight measured10) = 1000 /\
  startNode c' = 0 /\ visibleNodeCount c' = 8 /\
  itemsLength threeRows < startNode c' + visibleNodeCount c'.
Proof. cbv zeta. repeat split; vm_compute; reflexivity. Qed.

(** C1, amended.  For [itemCount >= 0] and [bufferSize >= 0] and every scroll
    offset, row height and container height, the range materialized after a
    recomputation, [[startIndex, min(itemCount, startIndex + visibleCount +
    2 * bufferSize))], lies within [[0, itemCount)] and [startIndex >= 0]; when
    the scroll offset and the row height are not negative,
    [startIndex + visibleCount <= itemCount] as well. *)
Theorem materialized_range_within_items
    (props : VirtualScrollProps) (scrollTopArg : option Z)
    (container : HTMLElement) (c : Component) :
  0 <= itemsLength props -> 0 <= bufferSize props ->
  let c' := updateVirtualScroll props scrollTopArg (Some container) c in
  (forall i, i ∈ visibleChildren props c' <->
             startNode c' <= i
             < Z.min (itemsLength props)
                     (startNode c' + visibleNodeCount c' + 2 * bufferSize props)) /\
  (forall i, i ∈ visibleChildren props c' -> 0 <= i < itemsLength props) /\
  0 <= startNode c' /\
  (0 <= nullish scrollTopArg (scrollTop container) ->
   0 <= child (childHeight c) ->
   startNode c' + visibleNodeCount c' <= itemsLength props).
Proof.
  intros Hi Hb c'. split; [|split; [|split]].
  - intros i. unfold visibleChildren. rewrite elem_of_for_range. lia.
  - intros i Hin. apply visible_children_within in Hin.
    pose proof (update_start_nonneg props scrollTopArg container c) as Hstart.
    fold c' in Hstart. lia.
  - apply update_start_nonneg.
  - intros Hs Hr. apply update_window_fits; assumption.
Qed.

Lemma materialized_range_within_items_witness :
  let c' := updateVirtualScroll threeRows None
              (Some (mkElement 10000 0 0 2500)) measured10 in
  (forall i, i ∈ visibleChildren threeRows c' <->
             startNode c' <= i
             < Z.min (itemsLength threeRows)
                     (startNode c' + visibleNodeCount c' + 2 * bufferSize threeRows)) /\
  (forall i, i ∈ visibleChildren threeRows c' -> 0 <= i < itemsLength threeRows) /\
  0 <= startNode c' /\
  (0 <= nullish None (scrollTop (mkElement 10000 0 0 2500)) ->
   0 <= child (childHeight measured10) ->
   startNode c' + visibleNodeCount c' <= itemsLength threeRows).
Proof.
  apply (materialized_range_within_items threeRows None
           (mkElement 10000 0 0 2500) measured10); simpl; lia.
Defined.

Lemma measured_height_nonneg (children : list HTMLElement) (i : nat) :
  heights_nonneg children -> 0 <= getElementHeightWithMargins (children !! i).
Proof.
  intros Hall. destruct (children !! i) as [e|] eqn:E; [|simpl; lia].
  unfold heights_nonneg in Hall. rewrite Forall_forall in Hall.
  apply Hall. eapply list_elem_of_lookup_2; eassumption.
Qed.

Lemma measureChildHeight_window
    (props : VirtualScrollProps) (children : list HTMLElement) (c : Component) :
  startNode (measureChildHeight props children c) = startNode c /\
  visibleNodeCount (measureChildHeight props children c) = visibleNodeCount c.
Proof.
  unfold measureChildHeight.
  destruct (length (visibleChildren props c) =? 0)%nat; simpl; auto.
Qed.

Lemma measureEffect_ok
    (props : VirtualScrollProps) (children : list HTMLElement) (c : Component) :
  heights_nonneg children -> window_ok props c ->
  window_ok props (measureEffect props children c).
Proof.
  intros Hch (H1 & H2 & H3 & H4). unfold measureEffect.
  case_bool_decide; [repeat split; assumption|].
  unfold measureChildHeight.
  match goal with |- context [if ?b then _ else _] => destruct b end;
    [repeat split; assumption|].
  repeat split; simpl; try assumption; apply measured_height_nonneg; assumption.
Qed.

Lemma update_ok
    (props : VirtualScrollProps) (scrollTopArg : option Z)
    (container : option HTMLElement) (c : Component) :
  0 <= itemsLength props -> 0 <= bufferSize props ->
  nullish ((fun e => 0 <= nullish scrollTopArg (scrollTop e)) <$> container) True ->
  window_ok props c ->
  window_ok props (updateVirtualScroll props scrollTopArg container c).
Proof.
  intros Hi Hb Hs Hok. destruct container as [e|]; [|exact Hok].
  destruct Hok as (H1 & H2 & H3 & H4). simpl in Hs.
  split; [apply update_start_nonneg|].
  split; [apply update_window_fits; assumption|].
  split; assumption.
Qed.

Lemma step_ok (props : VirtualScrollProps) (c : Component) (e : Event) :
  0 <= itemsLength props -> 0 <= bufferSize props ->
  event_nonneg e -> window_ok props c -> window_ok props (step props c e).
Proof.
  intros Hi Hb He Hok. destruct e as [container children|height container children];
    destruct He as [Hch Hs]; simpl; apply measureEffect_ok; try assumption.
  - apply update_ok; try assumption.
    destruct container; simpl in *; [assumption | exact I].
  - unfold resizeEffect, onResize. simpl.
    destruct (height =? 0); [exact Hok|].
    apply update_ok; try assumption.
    destruct Hok as (H1 & H2 & H3 & H4).
    destruct container as [el|]; simpl in *; [|exact I].
    destruct (0 <? scrollToIndex props) eqn:E; simpl; [|assumption].
    apply Z.ltb_lt in E. nia.
Qed.

(** The same over the life of a component: the invariant holds after the
    first render and is kept by every scroll and resize whose scroll offset is
    not negative, as long as the measured heights are not negative. *)
Lemma run_window_ok
    (props : VirtualScrollProps) (children : list HTMLElement) (es : list Event) :
  0 <= itemsLength props -> 0 <= bufferSize props ->
  heights_nonneg children -> Forall event_nonneg es ->
  window_ok props (run props children es).
Proof.
  intros Hi Hb Hch Hes. unfold run.
  assert (Hinit : window_ok props (measureEffect props children initial)).
  { apply measureEffect_ok; [assumption|]. repeat split; simpl; lia. }
  revert Hinit. generalize (measureEffect props children initial) as c.
  induction Hes as [|e es He Hes IH]; intros c Hc; simpl; [assumption|].
  apply IH. apply step_ok; assumption.
Qed.

(** *** Measuring the rows (C9) *)

Lemma visible_children_length_zero (props : VirtualScrollProps) (c : Component) :
  (length (visibleChildren props c) =? 0)%nat = true <-> visibleChildren props c = [].
Proof.
  rewrite Nat.eqb_eq. destruct (visibleChildren props c); simpl; split;
    intros H; try reflexivity; discriminate H.
Qed.

(** What the effect stores when there are materialized items: the heights
    with margins of the first, the second and the last child of the wrapper;
    the second one is [0] when there is no second child. *)
Lemma measured_heights
    (props : VirtualScrollProps) (children : list HTMLElement) (c : Component) :
  visibleChildren props c <> [] ->
  childHeight (measureChildHeight props children c)
  = mkChildHeight (getElementHeightWithMargins (head children))
                  (getElementHeightWithMargins (children !! 1%nat))
                  (getElementHeightWithMargins (last children)).
Proof.
  intros Hne. unfold measureChildHeight.
  destruct (length (visibleChildren props c) =? 0)%nat eqn:E.
  - apply visible_children_length_zero in E. contradiction.
  - simpl. rewrite <- head_lookup, last_lookup.
    replace (Nat.pred (length children)) with (length children - 1)%nat by lia.
    reflexivity.
Qed.

Lemma unmeasured_without_items
    (props : VirtualScrollProps) (children : list HTMLElement) (c : Component) :
  visibleChildren props c = [] -> measureChildHeight props children c = c.
Proof.
  intros Hnil. unfold measureChildHeight.
  apply visible_children_length_zero in Hnil. rewrite Hnil. reflexivity.
Qed.

(** Without a second child the stored uniform height is [0], whatever the
    height of the first one. *)
Lemma uniform_height_without_second_item
    (props : VirtualScrollProps) (children : list HTMLElement) (c : Component) :
  visibleChildren props c <> [] -> children !! 1%nat = None ->
  child (childHeight (measureChildHeight props children c)) = 0.
Proof.
  intros Hne Hnone. rewrite measured_heights by exact Hne. simpl.
  rewrite Hnone. reflexivity.
Qed.

(** The effect runs when the number of materialized items goes from zero to
    non-zero. *)
Lemma measured_when_items_appear
    (props : VirtualScrollProps) (children : list HTMLElement) (c : Component) :
  measuredLength c = Some 0%nat -> visibleChildren props c <> [] ->
  childHeight (measureEffect props children c)
  = mkChildHeight (getElementHeightWithMargins (head children))
                  (getElementHeightWithMargins (children !! 1%nat))
                  (getElementHeightWithMargins (last children)).
Proof.
  intros Hprev Hne. unfold measureEffect.
  case_bool_decide as Hdec.
  - rewrite Hprev in Hdec. injection Hdec as Hlen.
    destruct (visibleChildren props c); [contradiction | discriminate Hlen].
  - apply measured_heights. exact Hne.
Qed.

(** C9 fails on the code where no second item exists: the fallback
    [?? firstChildHeight] is never taken, because its left operand is a
    number.  A list of one item, 20px high with 1px margins, is measured as
    [firstChild = lastChild = 22px] and [child = 0], not [22px]. *)
Theorem single_item_uniform_height :
  let props := mkProps 1 10 0 in
  let c := run props [mkElement 2000 100 100 0] [] in
  visibleChildren props initial = [0] /\
  firstChild (childHeight c) = 2200 /\
  lastChild (childHeight c) = 2200 /\
  child (childHeight c) = 0.
Proof. vm_compute. repeat split; reflexivity. Qed.

(** *** The window before the rows are measured (C10) *)

(** At the first render no height is measured, and the component
    materializes the first [2 * bufferSize] items (it needs them in the
    document to measure them).  And once 10px rows are measured, an item
    count of 0 leaves [firstChild + lastChild = 20px] reserved. *)
Lemma unmeasured_window_not_empty :
  let props := mkProps 5 10 0 in
  child (childHeight initial) = 0 /\
  visibleChildren props initial = [0; 1; 2; 3; 4] /\
  visibleChildren props
    (updateVirtualScroll props None (Some (mkElement 10000 0 0 300)) initial)
  = [0; 1; 2; 3; 4] /\
  visibleChildren (mkProps 0 10 0) measured10 = [] /\
  measureEffect (mkProps 0 10 0) [] measured10
  = mkComponent 0 0 (mkChildHeight 1000 1000 1000) 0 None None (Some 0%nat) /\
  minHeight (mkProps 0 10 0) measured10 = 2000.
Proof. vm_compute. repeat split; reflexivity. Qed.

Lemma update_unmeasured
    (props : VirtualScrollProps) (scrollTopArg : option Z)
    (container : HTMLElement) (c : Component) :
  0 <= itemsLength props -> child (childHeight c) = 0 ->
  let c' := updateVirtualScroll props scrollTopArg (Some container) c in
  startNode c' = Z.max 0 (- bufferSize props) /\ visibleNodeCount c' = 0.
Proof.
  intros Hi H0. simpl. unfold getVisibleNodeCount. rewrite H0.
  rewrite !nodes_in_height_zero. lia.
Qed.

Lemma empty_without_items (props : VirtualScrollProps) (c : Component) :
  itemsLength props = 0 -> 0 <= startNode c -> visibleChildren props c = [].
Proof.
  intros H0 Hs. unfold visibleChildren. apply for_range_nil. lia.
Qed.

Lemma step_never_measured (props : VirtualScrollProps) (c : Component) (e : Event) :
  itemsLength props = 0 -> never_measured c -> never_measured (step props c e).
Proof.
  intros H0 Hc.
  assert (Hm : forall children c0,
             never_measured c0 -> never_measured (measureEffect props children c0)).
  { intros children c0 [Hs Hh]. unfold measureEffect.
    case_bool_decide; [split; assumption|].
    rewrite unmeasured_without_items by (apply empty_without_items; assumption).
    split; assumption. }
  assert (Hu : forall arg container c0,
             never_measured c0 ->
             never_measured (updateVirtualScroll props arg container c0)).
  { intros arg [el|] c0 [Hs Hh]; [|split; assumption].
    split; [apply update_start_nonneg | exact Hh]. }
  destruct e as [container children|height container children]; simpl; apply Hm.
  - apply Hu, Hc.
  - unfold resizeEffect. simpl. destruct (height =? 0).
    + destruct Hc; split; assumption.
    + apply Hu. destruct Hc; split; assumption.
Qed.

Lemma run_never_measured
    (props : VirtualScrollProps) (children : list HTMLElement) (es : list Event) :
  itemsLength props = 0 -> never_measured (run props children es).
Proof.
  intros H0. unfold run.
  assert (Hinit : never_measured (measureEffect props children initial)).
  { unfold measureEffect. case_bool_decide; [split; simpl; [lia | reflexivity]|].
    rewrite unmeasured_without_items
      by (apply empty_without_items; simpl; [assumption | lia]).
    split; simpl; [lia | reflexivity]. }
  revert Hinit. generalize (measureEffect props children initial) as c.
  induction es as [|e es IH]; intros c Hc; simpl; [assumption|].
  apply IH, step_never_measured; assumption.
Qed.

(** While no row height is measured ([rowHeight = 0]) the first render and
    every recomputation give [startIndex = 0] and [visibleCount = 0], so the
    materialized window is [[0, min(itemCount, 2 * bufferSize))], empty only
    when [itemCount = 0] or [bufferSize = 0].  When [itemCount = 0] the window
    is empty and the reserved height is [firstChild + lastChild] of the stored
    heights, which is zero for a component whose item count is 0 since it
    mounted. *)
Lemma unmeasured_window (props : VirtualScrollProps) :
  0 <= itemsLength props -> 0 <= bufferSize props ->
  let firstItems := for_range 0 (Z.min (itemsLength props) (bufferSize props * 2)) in
  visibleChildren props initial = firstItems /\
  (forall scrollTopArg container c,
     child (childHeight c) = 0 ->
     let c' := updateVirtualScroll props scrollTopArg (Some container) c in
     startNode c' = 0 /\ visibleNodeCount c' = 0 /\
     visibleChildren props c' = firstItems) /\
  (firstItems = [] <-> itemsLength props = 0 \/ bufferSize props = 0) /\
  (itemsLength props = 0 ->
     (forall c, 0 <= startNode c ->
        visibleChildren props c = [] /\
        minHeight props c = firstChild (childHeight c) + lastChild (childHeight c)) /\
     (forall children es,
        visibleChildren props (run props children es) = [] /\
        minHeight props (run props children es) = 0)).
Proof.
  intros Hi Hb firstItems. split; [|split; [|split]].
  - reflexivity.
  - intros scrollTopArg container c H0.
    destruct (update_unmeasured props scrollTopArg container c Hi H0) as [Hs Hv].
    cbv zeta. rewrite Z.max_l in Hs by lia. split; [exact Hs|]. split; [exact Hv|].
    unfold visibleChildren. rewrite Hs, Hv. reflexivity.
  - subst firstItems. rewrite for_range_nil. lia.
  - intros H0. split.
    + intros c Hs. split; [apply empty_without_items; assumption|].
      unfold minHeight. rewrite H0. simpl. lia.
    + intros children es.
      destruct (run_never_measured props children es H0) as [Hs Hh].
      split; [apply empty_without_items; assumption|].
      unfold minHeight. rewrite Hh, H0. reflexivity.
Qed.

Lemma unmeasured_window_witness :
  let props := mkProps 0 10 0 in
  let firstItems := for_range 0 (Z.min (itemsLength props) (bufferSize props * 2)) in
  visibleChildren props initial = firstItems /\
  (forall scrollTopArg container c,
     child (childHeight c) = 0 ->
     let c' := updateVirtualScroll props scrollTopArg (Some container) c in
     startNode c' = 0 /\ visibleNodeCount c' = 0 /\
     visibleChildren props c' = firstItems) /\
  (firstItems = [] <-> itemsLength props = 0 \/ bufferSize props = 0) /\
  (itemsLength props = 0 ->
     (forall c, 0 <= startNode c ->
        visibleChildren props c = [] /\
        minHeight props c = firstChild (childHeight c) + lastChild (childHeight c)) /\
     (forall children es,
        visibleChildren props (run props children es) = [] /\
        minHeight props (run props children es) = 0)).
Proof. apply (unmeasured_window (mkProps 0 10 0)); simpl; lia. Defined.

(** The measurement recomputes nothing: the effect stores the heights in a
    ref and leaves the window, the transform and the rest of the state as
    they are, so the materialized items are the same after it. *)
Lemma measurement_recomputes_nothing
    (props : VirtualScrollProps) (children : list HTMLElement) (c : Component) :
  let c' := measureEffect props children c in
  startNode c' = startNode c /\ visibleNodeCount c' = visibleNodeCount c /\
  transform c' = transform c /\ scrolledTo c' = scrolledTo c /\
  scrollContainerHeight c' = scrollContainerHeight c /\
  visibleChildren props c' = visibleChildren props c.
Proof.
  cbv zeta. unfold measureEffect, measureChildHeight.
  case_bool_decide; [repeat split; reflexivity|].
  match goal with |- context [(?n =? 0)%nat] => destruct (n =? 0)%nat end;
    repeat split; reflexivity.
Qed.

(** The first recomputation after the measurement is that of the next resize
    (or scroll): for a resize to a non-zero height, with [scrollToIndex = 0],
    the window is computed from the uniform height that was measured, the
    height of the second child of the wrapper. *)
Lemma next_resize_recomputes
    (props : VirtualScrollProps) (children : list HTMLElement) (height : Z)
    (container : HTMLElement) (c : Component) :
  visibleChildren props c <> [] ->
  measuredLength c <> Some (length (visibleChildren props c)) ->
  height <> 0 -> scrollToIndex props = 0 ->
  let measured := measureEffect props children c in
  let rowHeight := getElementHeightWithMargins (children !! 1%nat) in
  let rawStart := getNumberOfNodesInHeight rowHeight (scrollTop container) in
  let c' := resizeEffect props (Some container) (onResize height measured) in
  child (childHeight measured) = rowHeight /\
  startNode c' = Z.max 0 (rawStart - bufferSize props) /\
  visibleNodeCount c'
  = Z.min (itemsLength props - rawStart)
          (getNumberOfNodesInHeight rowHeight (rectHeight container)).
Proof.
  intros Hne Hlen Hheight Hindex measured rowHeight rawStart c'.
  assert (Hchild : child (childHeight measured) = rowHeight).
  { subst measured. unfold measureEffect.
    rewrite bool_decide_eq_false_2 by exact Hlen.
    rewrite measured_heights by exact Hne. reflexivity. }
  split; [exact Hchild|].
  subst c'. unfold resizeEffect, onResize. simpl.
  destruct (Z.eqb_spec height 0) as [|_]; [contradiction|].
  rewrite Hindex. simpl. rewrite Hchild. split; reflexivity.
Qed.

(** The heights that were measured stay when the list has no item any more:
    the effect returns before it reads the wrapper, and no event of the
    component changes them. *)
Lemma heights_stay_without_items
    (props : VirtualScrollProps) (children : list HTMLElement) (c : Component) :
  itemsLength props = 0 -> 0 <= startNode c ->
  childHeight (measureEffect props children c) = childHeight c /\
  (forall e, childHeight (step props c e) = childHeight c).
Proof.
  intros H0 Hs.
  assert (Hm : forall children' c0,
             0 <= startNode c0 ->
             childHeight (measureEffect props children' c0) = childHeight c0).
  { intros children' c0 Hs0. unfold measureEffect. case_bool_decide; [reflexivity|].
    rewrite unmeasured_without_items by (apply empty_without_items; assumption).
    reflexivity. }
  split; [apply Hm; exact Hs|].
  assert (Hu : forall arg container c0,
             0 <= startNode c0 ->
             0 <= startNode (updateVirtualScroll props arg container c0) /\
             childHeight (updateVirtualScroll props arg container c0) = childHeight c0).
  { intros arg [el|] c0 Hs0; [|split; [assumption | reflexivity]].
    split; [apply update_start_nonneg | reflexivity]. }
  intros [container children'|height container children']; simpl.
  - destruct (Hu None container c Hs) as [Hs' Hh]. unfold onScroll.
    rewrite Hm by exact Hs'. exact Hh.
  - unfold resizeEffect. simpl. destruct (height =? 0).
    + rewrite Hm by exact Hs. reflexivity.
    + match goal with
      | |- context [updateVirtualScroll props ?arg container ?c0] =>
          destruct (Hu arg container c0 Hs) as [Hs' Hh]
      end.
      rewrite Hm by exact Hs'. exact Hh.
Qed.

(** C10 fails on the code.  A list of 100 rows of 10px with the default
    buffer: the first render materializes the first 20 items although no
    height is measured; the measurement stores the heights and recomputes
    nothing, the window is recomputed at the next resize (or scroll).  When
    the list then has no item, the window is empty, the measured heights
    stay, and the height reserved for the list is
    [firstChild + lastChild = 20px], not zero. *)
Theorem reserved_height_without_items :
  let props := mkProps 100 10 0 in
  let measured := run props (replicate 20 row10) [] in
  let resized :=
    step props measured
         (Resize 30000 (Some (mkElement 30000 0 0 0)) (replicate 50 row10)) in
  let emptied := mkProps 0 10 0 in
  let withoutItems := measureEffect emptied [] resized in
  (child (childHeight initial) = 0 /\
   visibleChildren props initial = for_range 0 20) /\
  (childHeight measured = mkChildHeight 1000 1000 1000 /\
   startNode measured = 0 /\ visibleNodeCount measured = 0 /\
   transform measured = None /\
   visibleChildren props measured = for_range 0 20) /\
  (startNode resized = 0 /\ visibleNodeCount resized = 30 /\
   visibleChildren props resized = for_range 0 50) /\
  (visibleChildren emptied withoutItems = [] /\
   childHeight withoutItems = mkChildHeight 1000 1000 1000 /\
   childHeight
     (step emptied withoutItems (Scroll (Some (mkElement 30000 0 0 0)) []))
   = mkChildHeight 1000 1000 1000 /\
   minHeight emptied withoutItems = 2000).
Proof. vm_compute. repeat split; reflexivity. Qed.
End VirtualScrollSpec.

(** * Properties of the ComboBox *)

Module ComboBoxSpec.
Import ComboBox.

(** *** Strings *)

Lemma startsWith_spec (s search : string) :
  startsWith s search = true <-> exists post, s = search +:+ post.
Proof.
  revert s; induction search as [|a search IH]; intros s; simpl.
  - split; [intros _; exists s; reflexivity | reflexivity].
  - destruct s as [|b s].
    + split; [discriminate | intros [post H]; discriminate H].
    + rewrite andb_true_iff, bool_decide_eq_true, IH. split.
      * intros [-> [post ->]]. exists post. reflexivity.
      * intros [post H]. injection H as -> ->. split; [reflexivity | eauto].
Qed.

Lemma includes_spec (s search : string) :
  includes s search = true <-> exists pre post, s = pre +:+ search +:+ post.
Proof.
  induction s as [|b s IH].
  - cbn [includes]. rewrite orb_false_r, startsWith_spec. split.
    + intros [post H]. exists ""%string, post. exact H.
    + intros [pre [post H]]. destruct pre as [|x pre]; [|discriminate H].
      exists post. exact H.
  - cbn [includes]. rewrite orb_true_iff, startsWith_spec, IH. split.
    + intros [[post H] | [pre [post H]]].
      * exists ""%string, post. exact H.
      * exists (String b pre), post. simpl. rewrite H. reflexivity.
    + intros [pre [post H]]. destruct pre as [|x pre].
      * left. exists post. exact H.
      * right. simpl in H. injection H as -> ->. exists pre, post. reflexivity.
Qed.

Lemma toLowerCaseChar_upper (c : ascii) :
  toLowerCaseChar (toUpperCaseChar c) = toLowerCaseChar c.
Proof. destruct c as [[] [] [] [] [] [] [] []]; reflexivity. Qed.

Lemma toLowerCaseChar_lower (c : ascii) :
  toLowerCaseChar (toLowerCaseChar c) = toLowerCaseChar c.
Proof. destruct c as [[] [] [] [] [] [] [] []]; reflexivity. Qed.

Lemma toLowerCase_toUpperCase (s : string) :
  toLowerCase (toUpperCase s) = toLowerCase s.
Proof.
  induction s as [|c s IH]; simpl; [reflexivity|].
  rewrite toLowerCaseChar_upper, IH. reflexivity.
Qed.

Lemma toLowerCase_idempotent (s : string) :
  toLowerCase (toLowerCase s) = toLowerCase s.
Proof.
  induction s as [|c s IH]; simpl; [reflexivity|].
  rewrite toLowerCaseChar_lower, IH. reflexivity.
Qed.

(** *** Filtering (C7) *)

Section Filtering.
Context {T : Type} `{EqDecision T}.

Lemma selects_bool_filter {A : Type} (f : A -> bool) (P : A -> Prop) (l : list A) :
  (forall x, f x = true <-> P x) -> selects P l (List.filter f l).
Proof.
  intros Hfp. induction l as [|x l IH]; simpl; [constructor|].
  destruct (f x) eqn:E.
  - apply selects_keep; [apply Hfp; exact E | exact IH].
  - apply selects_skip; [|exact IH]. intros HP. apply Hfp in HP. congruence.
Qed.

Lemma selects_functional {A : Type} (P : A -> Prop) (l kept kept' : list A) :
  selects P l kept -> selects P l kept' -> kept = kept'.
Proof.
  intros H1. revert kept'. induction H1 as [|x all kept HP _ IH|x all kept HP _ IH];
    intros kept' H2; inversion H2; subst; try contradiction;
    [reflexivity | f_equal; apply IH; assumption | apply IH; assumption].
Qed.

Lemma selects_sublist {A : Type} (P : A -> Prop) (l kept : list A) :
  selects P l kept -> sublist kept l.
Proof.
  induction 1; [constructor | apply sublist_skip; assumption
               | apply sublist_cons; assumption].
Qed.

Lemma selects_elem_of {A : Type} (P : A -> Prop) (l kept : list A) (x : A) :
  selects P l kept -> (x ∈ kept <-> x ∈ l /\ P x).
Proof.
  induction 1 as [|y all kept HP _ IH|y all kept HP _ IH].
  - rewrite elem_of_nil. tauto.
  - rewrite !elem_of_cons, IH. split.
    + intros [->|[Hin Hx]]; tauto.
    + intros [[->|Hin] Hx]; tauto.
  - rewrite elem_of_cons, IH. split.
    + tauto.
    + intros [[->|Hin] Hx]; [contradiction | tauto].
Qed.

Lemma defaultFilter_spec (options : list (SelectOption T)) (text : string) :
  selects (fun opt => contains_ignoring_case (label opt) text) options
          (defaultFilter options text).
Proof.
  unfold defaultFilter. apply selects_bool_filter.
  intros opt. apply includes_spec.
Qed.

Lemma defaultFilter_case (options : list (SelectOption T)) (text text' : string) :
  toLowerCase text' = toLowerCase text ->
  defaultFilter options text' = defaultFilter options text.
Proof. intros Heq. unfold defaultFilter. rewrite Heq. reflexivity. Qed.

Lemma includes_empty (s : string) : includes s "" = true.
Proof. destruct s; reflexivity. Qed.

Lemma defaultFilter_empty (options : list (SelectOption T)) :
  defaultFilter options "" = options.
Proof.
  unfold defaultFilter. induction options as [|opt options IH]; [reflexivity|].
  simpl. rewrite includes_empty. simpl in IH. rewrite IH. reflexivity.
Qed.

(** What holds of C7, for labels and texts of ASCII characters.  Without a
    custom [filterFunction], the view that a keystroke stores is the
    subsequence of the full options whose label contains the text, letter
    case ignored (so is the view the options effect stores for the current
    input text); it is the same for a text that differs in letter case only,
    and it does not depend on the component's previous state, in particular
    on the previous view; when the dropdown is open it is the view after the
    render as well. *)
Lemma default_filter_view
    (props : ComboBoxProps T) (text : string) (c : Component T) :
  filterFunction props = None ->
  Forall (fun opt => isASCII (label opt) = true) (options props) ->
  isASCII text = true -> isASCII (inputValue c) = true ->
  let view (t : string) := filteredOptions (fst (handleOnInput props t c)) in
  selects (fun opt => contains_ignoring_case (label opt) text)
          (options props) (view text) /\
  selects (fun opt => contains_ignoring_case (label opt) (inputValue c))
          (options props) (filteredOptions (fst (filteredOptionsEffect props c))) /\
  (forall text', toLowerCase text' = toLowerCase text -> view text' = view text) /\
  view (toUpperCase text) = view text /\
  view (toLowerCase text) = view text /\
  (forall c' : Component T,
     filteredOptions (fst (handleOnInput props text c')) = view text) /\
  (isOpen (state c) = true ->
   exists c', input props text c = Some (c', []) /\
              filteredOptions c' = view text /\ inputValue c' = text).
Proof.
  intros Hnone _ _ _ view.
  assert (Hview : forall t (c0 : Component T),
             filteredOptions (fst (handleOnInput props t c0))
             = defaultFilter (options props) t).
  { intros t c0. simpl. unfold filterOptions. rewrite Hnone. reflexivity. }
  assert (Hcase : forall t, toLowerCase t = toLowerCase text -> view t = view text).
  { intros t Ht. unfold view. rewrite !Hview. apply defaultFilter_case. exact Ht. }
  split; [unfold view; rewrite Hview; apply defaultFilter_spec|].
  split.
  { simpl. case_bool_decide as He.
    - rewrite He. rewrite <- (defaultFilter_empty (options props)) at 2.
      apply defaultFilter_spec.
    - unfold filterOptions. rewrite Hnone. simpl. apply defaultFilter_spec. }
  split; [exact Hcase|].
  split; [apply Hcase, toLowerCase_toUpperCase|].
  split; [apply Hcase, toLowerCase_idempotent|].
  split; [intros c'; unfold view; rewrite !Hview; reflexivity|].
  intros Hopen. unfold input.
  destruct (handleOnInput props text c) as [c1 actions] eqn:Hh.
  assert (Hv : filteredOptions c1 = view text) by (unfold view; rewrite Hh; reflexivity).
  unfold handleOnInput in Hh. injection Hh as <- <-.
  unfold commit. cbn [state mounted inputValue filteredOptions optionsExtraInfo].
  assert (Hst : foldl comboBoxReducer (state c)
                  (Open :: (if focusedIndex (state c) =? -1 then []
                            else [Focus (Some (-1))]))
                = mkState true (selectedIndex (state c))
                    (if focusedIndex (state c) =? -1 then focusedIndex (state c) else -1)).
  { destruct (focusedIndex (state c) =? -1); reflexivity. }
  rewrite Hst. cbn [isOpen selectedIndex]. rewrite Hopen.
  rewrite !bool_decide_eq_true_2 by reflexivity. simpl.
  eexists. split; [reflexivity|]. simpl. split; [exact Hv | reflexivity].
Qed.

End Filtering.

Lemma default_filter_view_witness :
  selects (fun opt => contains_ignoring_case (label opt) "AN")
          [apple; banana; cherry]
          (filteredOptions
             (fst (handleOnInput (fruits (SingleValue None)) "AN"
                     (boxOf [cherry] (mkState true (Single (-1)) (-1)))))).
Proof.
  apply (default_filter_view (fruits (SingleValue None)) "AN"
           (boxOf [cherry] (mkState true (Single (-1)) (-1)))); try reflexivity.
  repeat (apply Forall_cons_2; [reflexivity|]). apply Forall_nil_2.
Defined.

(** Typing "AN" keeps Banana only, whatever the previous view. *)
Lemma typing_an_keeps_banana :
  filteredOptions
    (fst (handleOnInput (fruits (SingleValue None)) "AN"
            (boxOf [cherry] (mkState true (Single (-1)) (-1)))))
  = [banana].
Proof. vm_compute. reflexivity. Qed.

(** A keystroke that opens the dropdown: the layout effect of the opening
    then puts the full list back. *)
Lemma input_while_closed_resets_view :
  (filteredOptions ∘ fst) <$>
    (mount (fruits (SingleValue None))
     >>> input (fruits (SingleValue None)) "an")
  = Some [apple; banana; cherry].
Proof. vm_compute. reflexivity. Qed.

Lemma input_while_open_filters :
  (filteredOptions ∘ fst) <$>
    (mount (fruits (SingleValue None))
     >>> focusInput (fruits (SingleValue None))
     >>> input (fruits (SingleValue None)) "an")
  = Some [banana].
Proof. vm_compute. reflexivity. Qed.

(** C7 fails on the code.  A keystroke in the input of a closed dropdown:
    [handleOnInput] stores the filtered view and reopens the dropdown
    ("reopen when typing"), and the layout effect of the opening then puts
    the full list back ("Reset the filtered list"), so after the render the
    list shows all the options, whatever the text.  Of Apple, Banana and
    Cherry: the user focuses the input (the dropdown opens), presses Escape
    (it closes) and types "an"; the input shows "an", the dropdown is open,
    and the view is the three options, not Banana alone, which is the view
    the same keystroke gives in an open dropdown. *)
Theorem keystroke_in_closed_dropdown_shows_all_options :
  let props := fruits (SingleValue None) in
  let closed := mount props >>> focusInput props >>> press props Escape in
  let typed := closed >>> input props "an" in
  (isOpen ∘ state ∘ fst) <$> closed = Some false /\
  ((fun c => filteredOptions (fst (handleOnInput props "an" c))) ∘ fst) <$> closed
  = Some [banana] /\
  (inputValue ∘ fst) <$> typed = Some "an"%string /\
  (isOpen ∘ state ∘ fst) <$> typed = Some true /\
  (filteredOptions ∘ fst) <$> typed = Some [apple; banana; cherry] /\
  (filteredOptions ∘ fst) <$> (mount props >>> focusInput props >>> input props "an")
  = Some [banana].
Proof. vm_compute. repeat split; reflexivity. Qed.

(** *** Change notifications in single mode (C4) *)

Section Notifications.
Context {T : Type} `{EqDecision T}.

Lemma commit_nothing_changed
    (props : ComboBoxProps T) (c : Component T) (actions : list ComboBoxAction) :
  selectedIndex (foldl comboBoxReducer (state c) actions) = selectedIndex (state c) ->
  isOpen (foldl comboBoxReducer (state c) actions) = isOpen (state c) ->
  commit props c actions
  = Some (mkComponent (foldl comboBoxReducer (state c) actions) (mounted c)
                      (inputValue c) (filteredOptions c)
                      (initExtraInfo props (optionsExtraInfo c)), []).
Proof.
  intros Hsel Hopen. unfold commit. rewrite Hsel, Hopen.
  rewrite !bool_decide_eq_true_2 by reflexivity. reflexivity.
Qed.

(** Mounting calls [onChange] for no value prop. *)
Lemma mount_silent (props : ComboBoxProps T) :
  exists c, mount props = Some (c, []) /\ mounted c = true.
Proof.
  unfold mount, filteredOptionsEffect, layoutEffect, onChangeEffect, valueEffect,
    initialState.
  destruct (valueProp props) as [v|vs] eqn:Hv; cbn -[commit];
    (rewrite commit_nothing_changed;
     [ cbn; eexists; split; reflexivity
     | cbn; try rewrite Hv; try reflexivity .. ]).
Qed.

(** After the mount, in single mode, the effect calls [onChange] only with a
    derived value that differs from the value prop. *)
Lemma single_onChange_differs
    (props : ComboBoxProps T) (v : option T) (c c' : Component T)
    (calls : list (Notification T)) (call : Notification T) :
  valueProp props = SingleValue v -> mounted c = true ->
  onChangeEffect props c = Some (c', calls) -> call ∈ calls ->
  exists index,
    selectedIndex (state c) = Single index /\
    call = OnChange (value <$> at_index (options props) index) /\
    value <$> at_index (options props) index <> v.
Proof.
  intros Hv Hm Heff Hin. unfold onChangeEffect in Heff. rewrite Hm, Hv in Heff.
  simpl in Heff. destruct (selectedIndex (state c)) as [index|indexes].
  - exists index. split; [reflexivity|].
    destruct (bool_decide (value <$> at_index (options props) index = v)) eqn:Hd;
      simpl in Heff.
    + injection Heff as _ <-. inversion Hin.
    + apply bool_decide_eq_false in Hd.
      destruct (index =? -1); injection Heff as _ <-.
      * inversion Hin.
      * apply list_elem_of_singleton in Hin. subst call. split; [reflexivity | exact Hd].
  - injection Heff as _ <-. inversion Hin.
Qed.

(** Committing the focused option, when it is not the selected one and its
    value is not the value prop: one call, with its value. *)
Lemma commit_focused_option
    (props : ComboBoxProps T) (v : option T) (c : Component T)
    (menu : list MenuItem) (selected : Z) (opt : SelectOption T) :
  valueProp props = SingleValue v -> mounted c = true ->
  isOpen (state c) = true -> selectedIndex (state c) = Single selected ->
  at_index (options props) (focusedIndex (state c)) = Some opt ->
  focusedIndex (state c) <> selected -> Some (value opt) <> v ->
  exists c',
    keyDown props menu Enter c = Some (c', [OnChange (Some (value opt))]) /\
    isOpen (state c') = false /\
    selectedIndex (state c') = Single (focusedIndex (state c)).
Proof.
  intros Hv Hm Hopen Hsel Hopt Hne Hval.
  assert (Hfocus : focusedIndex (state c) <> -1).
  { intros Heq. rewrite Heq in Hopt. discriminate Hopt. }
  unfold keyDown, handleKeyDown, multiple. rewrite Hopen, Hv. simpl.
  unfold commit. simpl. rewrite Hsel, Hopen. simpl.
  rewrite (bool_decide_eq_false_2 (Single _ = Single _)) by congruence.
  simpl. unfold onChangeEffect. simpl. rewrite Hm, Hv. simpl.
  rewrite Hopt. simpl.
  rewrite bool_decide_eq_false_2 by exact Hval.
  destruct (Z.eqb_spec (focusedIndex (state c)) (-1)) as [Heq|_]; [contradiction|].
  simpl. eexists. split; [reflexivity|]. split; reflexivity.
Qed.

(** Committing the focused option when it is the selected one already: the
    selection does not change, the effect does not run, and [onChange] is
    not called; the dropdown closes. *)
Lemma commit_selected_option
    (props : ComboBoxProps T) (v : option T) (c : Component T)
    (menu : list MenuItem) :
  valueProp props = SingleValue v -> isOpen (state c) = true ->
  selectedIndex (state c) = Single (focusedIndex (state c)) ->
  exists c',
    keyDown props menu Enter c = Some (c', []) /\
    isOpen (state c') = false /\
    selectedIndex (state c') = Single (focusedIndex (state c)).
Proof.
  intros Hv Hopen Hsel.
  unfold keyDown, handleKeyDown, multiple. rewrite Hopen, Hv. simpl.
  unfold commit. simpl. rewrite Hsel, Hopen. simpl.
  rewrite (bool_decide_eq_true_2 (Single _ = Single _)) by reflexivity.
  simpl. eexists. split; [reflexivity|]. split; reflexivity.
Qed.

(** C4, amended.  For every value prop the mount calls [onChange] not at
    all; after the mount, in single mode, [onChange] is called only with a
    derived value that differs from the value prop; committing a focused
    option that is not the selected one, and whose value differs from the
    value prop, closes the dropdown and calls [onChange] once, with that
    option's value; committing the option that is selected already closes
    the dropdown and calls [onChange] not at all. *)
Theorem onChange_in_single_mode (props : ComboBoxProps T) :
  (exists c, mount props = Some (c, []) /\ mounted c = true) /\
  (forall v c c' calls call,
     valueProp props = SingleValue v -> mounted c = true ->
     onChangeEffect props c = Some (c', calls) -> call ∈ calls ->
     exists index,
       selectedIndex (state c) = Single index /\
       call = OnChange (value <$> at_index (options props) index) /\
       value <$> at_index (options props) index <> v) /\
  (forall v c menu selected opt,
     valueProp props = SingleValue v -> mounted c = true ->
     isOpen (state c) = true -> selectedIndex (state c) = Single selected ->
     at_index (options props) (focusedIndex (state c)) = Some opt ->
     focusedIndex (state c) <> selected -> Some (value opt) <> v ->
     exists c',
       keyDown props menu Enter c = Some (c', [OnChange (Some (value opt))]) /\
       isOpen (state c') = false /\
       selectedIndex (state c') = Single (focusedIndex (state c))) /\
  (forall v c menu,
     valueProp props = SingleValue v -> isOpen (state c) = true ->
     selectedIndex (state c) = Single (focusedIndex (state c)) ->
     exists c',
       keyDown props menu Enter c = Some (c', []) /\
       isOpen (state c') = false /\
       selectedIndex (state c') = Single (focusedIndex (state c))).
Proof.
  split; [apply mount_silent|]. split; [|split].
  - intros v c c' calls call. apply single_onChange_differs.
  - intros v c menu selected opt. apply commit_focused_option.
  - intros v c menu. apply commit_selected_option.
Qed.

End Notifications.

(** C4, as stated, fails: committing the focused option that is already the
    selected one calls [onChange] not at all.  The box shows Apple, the value
    prop; the dropdown is open with Apple focused, and the user presses
    Enter. *)
Lemma commit_of_selected_option_is_silent :
  let props := fruits (SingleValue (Some 1)) in
  let onApple := boxOf (options props) (mkState true (Single 0) 0) in
  at_index (options props) 0 = Some apple /\
  (state ∘ fst) <$> press props Enter onApple
  = Some (mkState false (Single 0) (-1)) /\
  snd <$> press props Enter onApple = Some [].
Proof. vm_compute. repeat split; reflexivity. Qed.

(** The same from the mount on: the user focuses the input, presses
    ArrowDown (Apple is focused) and Enter. *)
Lemma commit_of_selected_option_after_mount :
  let props := fruits (SingleValue (Some 1)) in
  let focused := mount props >>> focusInput props >>> press props ArrowDown in
  (state ∘ fst) <$> focused = Some (mkState true (Single 0) 0) /\
  (state ∘ fst) <$> (focused >>> press props Enter)
  = Some (mkState false (Single 0) (-1)) /\
  snd <$> (focused >>> press props Enter) = Some [].
Proof. vm_compute. repeat split; reflexivity. Qed.

(** Committing another option calls [onChange] once. *)
Lemma commit_of_other_option_notifies :
  let props := fruits (SingleValue (Some 1)) in
  snd <$> (mount props >>> focusInput props
           >>> press props ArrowDown
           >>> press props ArrowDown
           >>> press props Enter)
  = Some [OnChange (Some 2)].
Proof. vm_compute. reflexivity. Qed.

(** *** Enter in multiple mode (C2) *)

Lemma elem_of_toggle (index i : Z) (indexes : list Z) :
  i ∈ toggle index indexes <->
  (i <> index /\ i ∈ indexes) \/ (i = index /\ index ∉ indexes).
Proof.
  unfold toggle. case_bool_decide as Hin.
  - rewrite list_elem_of_In, filter_In, <- list_elem_of_In, negb_true_iff, Z.eqb_neq.
    split; [intros [Hi Hne]; left; tauto | intros [[Hne Hi] | [-> Hn]]; tauto].
  - rewrite elem_of_app, list_elem_of_singleton. split.
    + intros [Hi | ->]; [left | right]; [|tauto].
      split; [|exact Hi]. intros ->. contradiction.
    + tauto.
Qed.

Lemma toggle_twice (index i : Z) (indexes : list Z) :
  i ∈ toggle index (toggle index indexes) <-> i ∈ indexes.
Proof.
  rewrite !elem_of_toggle. destruct (decide (i = index)) as [->|Hne];
    destruct (decide (index ∈ indexes)); tauto.
Qed.

Section EnterMultiple.
Context {T : Type} `{EqDecision T}.

(** What holds of Enter in multiple mode: the handler dispatches the toggle
    of the focused option and nothing else, so the dropdown stays open and
    the membership of that option alone changes. *)
Lemma enter_toggles_focused_option
    (props : ComboBoxProps T) (c : Component T) (menu : list MenuItem)
    (vs : option (list T)) (indexes : list Z) :
  valueProp props = MultipleValue vs -> isOpen (state c) = true ->
  selectedIndex (state c) = Multiple indexes -> -1 < focusedIndex (state c) ->
  let focused := focusedIndex (state c) in
  handleKeyDown props c None menu Enter = (Dispatched [Multiselect focused], []) /\
  comboBoxReducer (state c) (Multiselect focused)
  = mkState true (Multiple (toggle focused indexes)) focused /\
  (forall i, i <> focused -> (i ∈ toggle focused indexes <-> i ∈ indexes)) /\
  (focused ∈ toggle focused indexes <-> focused ∉ indexes).
Proof.
  intros Hv Hopen Hsel Hfocus focused. split; [|split; [|split]].
  - unfold handleKeyDown, multiple. rewrite Hopen, Hv.
    destruct (Z.ltb_spec (-1) (focusedIndex (state c))); [reflexivity | lia].
  - unfold comboBoxReducer. rewrite Hsel, Hopen. reflexivity.
  - intros i Hne. rewrite elem_of_toggle. tauto.
  - rewrite elem_of_toggle. tauto.
Qed.

End EnterMultiple.

(** C2 fails on the code.  The dropdown is open with Apple focused.  With
    nothing selected, Enter selects Apple and calls [onChange(1, 'added')];
    with Apple selected, Enter deselects it and calls [onChange] not at all:
    two Enters on Apple make one call, none with ['removed']. *)
Theorem enter_twice_notifies_once :
  let props := fruits (MultipleValue (Some [])) in
  let onApple (selected : list Z) :=
    boxOf (options props) (mkState true (Multiple selected) 0) in
  (selectedIndex ∘ state ∘ fst) <$> press props Enter (onApple [])
  = Some (Multiple [0]) /\
  (isOpen ∘ state ∘ fst) <$> press props Enter (onApple []) = Some true /\
  snd <$> press props Enter (onApple []) = Some [OnChangeMultiple 1 added] /\
  (selectedIndex ∘ state ∘ fst) <$> press props Enter (onApple [0])
  = Some (Multiple []) /\
  (isOpen ∘ state ∘ fst) <$> press props Enter (onApple [0]) = Some true /\
  snd <$> press props Enter (onApple [0]) = Some [].
Proof. vm_compute. repeat split; reflexivity. Qed.

(** The same from the mount on: the user focuses the input, presses
    ArrowDown (Apple is focused) and Enter, ArrowDown again (the layout effect
    has reset the focus) and Enter again. *)
Lemma enter_twice_after_mount :
  let props := fruits (MultipleValue (Some [])) in
  let focused := mount props >>> focusInput props >>> press props ArrowDown in
  let once := focused >>> press props Enter in
  let refocused := once >>> press props ArrowDown in
  let twice := refocused >>> press props Enter in
  (state ∘ fst) <$> focused = Some (mkState true (Multiple []) 0) /\
  snd <$> focused = Some [] /\
  (state ∘ fst) <$> once = Some (mkState true (Multiple [0]) (-1)) /\
  snd <$> once = Some [OnChangeMultiple 1 added] /\
  (state ∘ fst) <$> refocused = Some (mkState true (Multiple [0]) 0) /\
  (state ∘ fst) <$> twice = Some (mkState true (Multiple []) (-1)) /\
  snd <$> twice = Some [OnChangeMultiple 1 added].
Proof. vm_compute. repeat split; reflexivity. Qed.

(** With Banana selected, one Enter on Apple makes two calls, one of them
    for Banana, which was not toggled. *)
Lemma enter_notifies_for_every_selected_option :
  let props := fruits (MultipleValue (Some [2])) in
  snd <$> (mount props >>> focusInput props >>> press props ArrowDown
           >>> press props Enter)
  = Some [OnChangeMultiple 2 added; OnChangeMultiple 1 added].
Proof. vm_compute. reflexivity. Qed.

(** *** Reconciling the selection with the value prop and the options (C3) *)

Lemma findIndex_from_spec {A : Type} (p : A -> bool) (l : list A) (i : Z) :
  0 <= i ->
  (findIndex_from p l i = -1 /\ Forall (fun x => p x = false) l) \/
  (exists (n : nat) (x : A),
     findIndex_from p l i = i + Z.of_nat n /\ l !! n = Some x /\ p x = true /\
     forall (m : nat) (y : A), (m < n)%nat -> l !! m = Some y -> p y = false).
Proof.
  revert i; induction l as [|a l IH]; intros i Hi; simpl.
  - left. split; [reflexivity | constructor].
  - destruct (p a) eqn:Hpa.
    + right. exists O, a. repeat split; [lia | exact Hpa | intros m y Hm; lia].
    + destruct (IH (i + 1) ltac:(lia)) as [[Hr Hall] | (n & x & Hr & Hx & Hpx & Hbefore)].
      * left. split; [exact Hr | constructor; assumption].
      * right. exists (S n), x. repeat split; [lia | exact Hx | exact Hpx |].
        intros [|m] y Hm Hy; simpl in Hy.
        -- injection Hy as <-. exact Hpa.
        -- apply (Hbefore m y); [lia | exact Hy].
Qed.

Section Reconciliation.
Context {T : Type} `{EqDecision T}.

(** [indexOfValue] is the linear search: the first position whose option has
    the value, [-1] when no option has it. *)
Lemma indexOfValue_spec (options : list (SelectOption T)) (v : option T) :
  (indexOfValue options v = -1 /\
   forall opt, opt ∈ options -> Some (value opt) <> v) \/
  (exists (n : nat) (opt : SelectOption T),
     indexOfValue options v = Z.of_nat n /\ options !! n = Some opt /\
     Some (value opt) = v /\
     forall (m : nat) (opt' : SelectOption T),
       (m < n)%nat -> options !! m = Some opt' -> Some (value opt') <> v).
Proof.
  unfold indexOfValue, findIndex.
  destruct (findIndex_from_spec
              (fun opt => bool_decide (Some (value opt) = v)) options 0 ltac:(lia))
    as [[Hr Hall] | (n & x & Hr & Hx & Hpx & Hbefore)].
  - left. split; [exact Hr|]. intros opt Hin.
    rewrite Forall_forall in Hall. specialize (Hall opt Hin).
    apply bool_decide_eq_false in Hall. exact Hall.
  - right. exists n, x. repeat split; [lia | exact Hx | |].
    + apply bool_decide_eq_true in Hpx. exact Hpx.
    + intros m opt' Hm Hopt'. specialize (Hbefore m opt' Hm Hopt').
      apply bool_decide_eq_false in Hbefore. exact Hbefore.
Qed.

Lemma commit_single_succeeds
    (props : ComboBoxProps T) (v : option T) (c : Component T) (selected : Z)
    (actions : list ComboBoxAction) :
  valueProp props = SingleValue v -> selectedIndex (state c) = Single selected ->
  exists c' calls,
    commit props c actions = Some (c', calls) /\
    selectedIndex (state c') = selectedIndex (foldl comboBoxReducer (state c) actions) /\
    optionsExtraInfo c' = initExtraInfo props (optionsExtraInfo c).
Proof.
  intros Hv Hsel. unfold commit.
  set (state' := foldl comboBoxReducer (state c) actions).
  assert (Hshape : exists index, selectedIndex state' = Single index).
  { subst state'. revert Hsel. generalize (state c) as st. revert selected.
    induction actions as [|a actions IH]; intros selected st Hst; simpl; [eauto|].
    destruct a; simpl; try (eapply IH; simpl; eassumption).
    - rewrite Hst. eapply IH. reflexivity.
    - rewrite Hst. eapply IH. eassumption. }
  destruct Hshape as [index Hindex].
  destruct (bool_decide (selectedIndex state' = selectedIndex (state c))) eqn:Hsame;
    destruct (bool_decide (isOpen state' = isOpen (state c))) eqn:Hopen; simpl.
  - eexists _, _. split; [reflexivity|]. simpl. split; reflexivity.
  - unfold layoutEffect. simpl. destruct (isOpen state'); simpl.
    + eexists _, _. split; [reflexivity|]. simpl. split; reflexivity.
    + rewrite Hindex. simpl. eexists _, _. split; [reflexivity|]. simpl.
      rewrite Hindex. split; reflexivity.
  - unfold layoutEffect, onChangeEffect. simpl. rewrite Hv.
    destruct (isOpen state'); simpl; rewrite ?Hindex; simpl;
      destruct (mounted c); simpl; rewrite ?Hindex;
      repeat match goal with
             | |- context [if ?b then _ else _] => destruct b; simpl
             end;
      eexists _, _; (split; [reflexivity|]); simpl; rewrite ?Hindex; split; reflexivity.
  - unfold layoutEffect, onChangeEffect. simpl. rewrite Hv.
    destruct (isOpen state'); simpl; rewrite ?Hindex; simpl;
      destruct (mounted c); simpl; rewrite ?Hindex;
      repeat match goal with
             | |- context [if ?b then _ else _] => destruct b; simpl
             end;
      eexists _, _; (split; [reflexivity|]); simpl; rewrite ?Hindex; split; reflexivity.
Qed.

(** In single mode a new value prop is looked up in the options. *)
Lemma value_change_in_single_mode
    (props : ComboBoxProps T) (v : option T) (c : Component T) (selected : Z) :
  valueProp props = SingleValue v -> selectedIndex (state c) = Single selected ->
  exists c' calls,
    newValue props c = Some (c', calls) /\
    selectedIndex (state c') = Single (indexOfValue (options props) v).
Proof.
  intros Hv Hsel. unfold newValue.
  destruct (commit_single_succeeds props v c selected (valueEffect props) Hv Hsel)
    as (c' & calls & Hc & Hs & _).
  exists c', calls. split; [exact Hc|]. rewrite Hs.
  unfold valueEffect. rewrite Hv. simpl. rewrite Hsel. reflexivity.
Qed.

(** In single mode new options rebuild the extra info from the new array and
    the value prop is looked up in the new array. *)
Lemma options_change_in_single_mode
    (props : ComboBoxProps T) (v : option T) (c : Component T) (selected : Z) :
  valueProp props = SingleValue v -> selectedIndex (state c) = Single selected ->
  exists c' calls,
    newOptions props c = Some (c', calls) /\
    selectedIndex (state c') = Single (indexOfValue (options props) v) /\
    optionsExtraInfo c' = recordIndexes (idPrefix props) (options props) 0 ∅.
Proof.
  intros Hv Hsel. unfold newOptions, filteredOptionsEffect.
  set (c1 := mkComponent _ _ _ _ _).
  destruct (commit_single_succeeds props v c1 selected
              ([Focus None] ++ valueEffect props) Hv Hsel)
    as (c' & calls & Hc & Hs & Hinfo).
  exists c', calls. split; [exact Hc|]. split.
  - rewrite Hs. unfold valueEffect. rewrite Hv. simpl. rewrite Hsel. reflexivity.
  - rewrite Hinfo. unfold initExtraInfo. simpl.
    destruct (options props); reflexivity.
Qed.

(** The extra info maps the id of an option to its position in the array
    (the last one with that id). *)
Lemma recordIndexes_lookup
    (idPrefix : string) (options : list (SelectOption T)) (i : Z)
    (extraInfo : gmap string Z) (n : nat) (opt : SelectOption T) :
  options !! n = Some opt ->
  (forall (m : nat) (opt' : SelectOption T),
     (n < m)%nat -> options !! m = Some opt' ->
     getOptionId opt' idPrefix <> getOptionId opt idPrefix) ->
  recordIndexes idPrefix options i extraInfo !! getOptionId opt idPrefix
  = Some (i + Z.of_nat n).
Proof.
  assert (Hkeep : forall (l : list (SelectOption T)) j (m : gmap string Z) key,
             (forall opt', opt' ∈ l -> getOptionId opt' idPrefix <> key) ->
             recordIndexes idPrefix l j m !! key = m !! key).
  { induction l as [|a l IH]; intros j m key Hno; simpl; [reflexivity|].
    rewrite IH by (intros opt' Hin; apply Hno; right; exact Hin).
    apply lookup_insert_ne. apply Hno. left. }
  revert i extraInfo n; induction options as [|a options IH];
    intros i extraInfo n Hn Hlast; [discriminate Hn|].
  destruct n as [|n]; simpl in Hn |- *.
  - injection Hn as ->. rewrite Hkeep.
    + rewrite lookup_insert_eq. f_equal. lia.
    + intros opt' Hin. apply list_elem_of_lookup in Hin as [m Hm].
      apply (Hlast (S m) opt'); [lia | exact Hm].
  - rewrite (IH (i + 1) _ n Hn).
    + f_equal. lia.
    + intros m opt' Hm Hopt'. apply (Hlast (S m) opt'); [lia | exact Hopt'].
Qed.

(** In multiple mode neither a new value prop nor new options change the
    selection: both leave the reducer state's [selectedIndex] as it is. *)
Lemma multiple_mode_keeps_selection
    (props : ComboBoxProps T) (vs : option (list T)) (c : Component T) :
  valueProp props = MultipleValue vs ->
  (exists c', newValue props c = Some (c', []) /\
              selectedIndex (state c') = selectedIndex (state c)) /\
  (exists c', newOptions props c = Some (c', []) /\
              selectedIndex (state c') = selectedIndex (state c) /\
              optionsExtraInfo c' = recordIndexes (idPrefix props) (options props) 0 ∅).
Proof.
  intros Hv. split.
  - unfold newValue, valueEffect. rewrite Hv.
    rewrite commit_nothing_changed by reflexivity.
    eexists. split; reflexivity.
  - unfold newOptions, filteredOptionsEffect, valueEffect. rewrite Hv.
    rewrite commit_nothing_changed by reflexivity.
    eexists. split; [reflexivity|]. split; [reflexivity|].
    simpl. unfold initExtraInfo. simpl. destruct (options props); reflexivity.
Qed.

End Reconciliation.

(** C3 fails on the code in multiple mode, where the effect on the value prop
    does nothing.  Apple (value 1) is selected; the caller passes the value
    [[2]]: the selection stays [[0]], although the search gives [[1]].  The
    caller passes the options in reverse order: the selection stays [[0]],
    now Cherry, although value 1 is at position 2. *)
Theorem multiple_selection_not_reconciled :
  let before := fruits (MultipleValue (Some [1])) in
  let after := fruits (MultipleValue (Some [2])) in
  let reversed :=
    mkProps [cherry; banana; apple] (MultipleValue (Some [1])) None false "cb" in
  (selectedIndex ∘ state ∘ fst) <$> mount before = Some (Multiple [0]) /\
  (selectedIndex ∘ state ∘ fst) <$> (mount before >>> newValue after)
  = Some (Multiple [0]) /\
  getSelectedIndexes after = [1] /\
  (selectedIndex ∘ state ∘ fst) <$> (mount before >>> newOptions reversed)
  = Some (Multiple [0]) /\
  getSelectedIndexes reversed = [2].
Proof. vm_compute. repeat split; reflexivity. Qed.

(** The same changes in single mode are followed. *)
Lemma single_selection_reconciled :
  let before := fruits (SingleValue (Some 1)) in
  let after := fruits (SingleValue (Some 2)) in
  let reversed :=
    mkProps [cherry; banana; apple] (SingleValue (Some 1)) None false "cb" in
  (selectedIndex ∘ state ∘ fst) <$> (mount before >>> newValue after)
  = Some (Single 1) /\
  (selectedIndex ∘ state ∘ fst) <$> (mount before >>> newOptions reversed)
  = Some (Single 2) /\
  (fun r => optionsExtraInfo (fst r) !! "cb-option-Apple"%string)
    <$> (mount before >>> newOptions reversed) = Some (Some 2).
Proof. vm_compute. repeat split; reflexivity. Qed.

(** *** ArrowDown (C8) *)

Section ArrowDownKey.
Context {T : Type} `{EqDecision T}.

(** ArrowDown on a closed dropdown opens it; the focused index stays. *)
Lemma arrowDown_opens
    (props : ComboBoxProps T) (c : Component T) (menu : list MenuItem) :
  isOpen (state c) = false ->
  handleKeyDown props c None menu ArrowDown = (Dispatched [Open], []) /\
  comboBoxReducer (state c) Open
  = mkState true (selectedIndex (state c)) (focusedIndex (state c)).
Proof.
  intros Hclosed. unfold handleKeyDown. rewrite Hclosed. split; reflexivity.
Qed.

(** ArrowDown with no focused option focuses the first item of the list,
    whether it is disabled or not. *)
Lemma arrowDown_without_focus
    (props : ComboBoxProps T) (c : Component T) (menu : list MenuItem)
    (item : MenuItem) :
  isOpen (state c) = true -> size (optionsExtraInfo c) <> O ->
  focusedIndex (state c) = -1 -> head menu = Some item ->
  handleKeyDown props c None menu ArrowDown
  = (Dispatched [Focus (Some (dataIndex item))], []).
Proof.
  intros Hopen Hsize Hfocus Hhead. unfold handleKeyDown.
  rewrite Hopen, Hfocus, Hhead. simpl.
  destruct (Nat.eqb_spec (size (optionsExtraInfo c)) 0); [contradiction | reflexivity].
Qed.

End ArrowDownKey.

(** The loop of ArrowDown walks the items that follow the focused one,
    cyclically, up to the focused one itself. *)
Lemma querySelector_position (menu : list MenuItem) (p : nat) (item : MenuItem) :
  NoDup (dataIndex <$> menu) -> menu !! p = Some item ->
  querySelector menu (dataIndex item) = Some p.
Proof.
  revert p; induction menu as [|x menu IH]; intros p Hnd Hp; [discriminate Hp|].
  rewrite fmap_cons in Hnd. apply NoDup_cons in Hnd as [Hx Hnd].
  destruct p as [|p]; simpl in Hp |- *.
  - injection Hp as ->. rewrite Z.eqb_refl. reflexivity.
  - destruct (Z.eqb_spec (dataIndex x) (dataIndex item)) as [Heq|_].
    + exfalso. apply Hx. rewrite Heq. apply list_elem_of_fmap.
      exists item. split; [reflexivity|]. eapply list_elem_of_lookup_2. exact Hp.
    + rewrite (IH p Hnd Hp). reflexivity.
Qed.

Lemma nextElement_inside (menu : list MenuItem) (p : nat) (item next : MenuItem) :
  NoDup (dataIndex <$> menu) -> menu !! p = Some item -> menu !! S p = Some next ->
  nextElement menu (dataIndex item) = Some next.
Proof.
  intros Hnd Hp Hnext. unfold nextElement, nextElementSibling.
  rewrite (querySelector_position menu p item Hnd Hp). simpl.
  rewrite Hnext. reflexivity.
Qed.

Lemma nextElement_wraps (menu : list MenuItem) (p : nat) (item : MenuItem) :
  NoDup (dataIndex <$> menu) -> menu !! p = Some item -> menu !! S p = None ->
  nextElement menu (dataIndex item) = head menu.
Proof.
  intros Hnd Hp Hnext. unfold nextElement, nextElementSibling.
  rewrite (querySelector_position menu p item Hnd Hp). simpl.
  rewrite Hnext. reflexivity.
Qed.

Lemma follows_segment (menu : list MenuItem) (k p : nat) (item : MenuItem) :
  NoDup (dataIndex <$> menu) -> menu !! p = Some item ->
  follows menu (dataIndex item) (take k (drop (S p) menu)).
Proof.
  intros Hnd. revert p item; induction k as [|k IH]; intros p item Hp.
  - rewrite take_0. exact I.
  - destruct (menu !! S p) as [next|] eqn:Hnext.
    + rewrite (drop_S menu next (S p) Hnext). simpl. split.
      * eapply nextElement_inside; eassumption.
      * apply IH. exact Hnext.
    + rewrite drop_ge by (apply lookup_ge_None; exact Hnext). exact I.
Qed.

Lemma follows_app (menu : list MenuItem) (cur : Z) (l1 l2 : list MenuItem) :
  follows menu cur l1 -> follows menu (lastIndex cur l1) l2 ->
  follows menu cur (l1 ++ l2).
Proof.
  revert cur; induction l1 as [|x l1 IH]; intros cur H1 H2; simpl; [exact H2|].
  destruct H1 as [Hx H1]. split; [exact Hx|]. apply IH; [exact H1|].
  unfold lastIndex in *. destruct l1 as [|y l1]; [exact H2|].
  rewrite last_cons_cons in H2. simpl in H2 |- *.
  destruct (last (y :: l1)) eqn:E; [exact H2|].
  apply last_None in E. discriminate E.
Qed.

Lemma last_of_drop {A : Type} (l : list A) (n : nat) :
  (n < length l)%nat -> last (drop n l) = last l.
Proof.
  intros Hn. rewrite !last_lookup, lookup_drop, length_drop. f_equal. lia.
Qed.

Lemma follows_itemsAfter (menu : list MenuItem) (p : nat) (item : MenuItem) :
  NoDup (dataIndex <$> menu) -> menu !! p = Some item ->
  follows menu (dataIndex item) (itemsAfter menu p).
Proof.
  intros Hnd Hp. unfold itemsAfter. apply follows_app.
  - rewrite <- (take_ge (drop (S p) menu) (length menu))
      by (rewrite length_drop; lia).
    apply follows_segment; assumption.
  - destruct menu as [|first menu']; [discriminate Hp|].
    set (menu := first :: menu') in *.
    assert (Hlast : exists (q : nat) (final : MenuItem),
               menu !! q = Some final /\ menu !! S q = None /\
               lastIndex (dataIndex item) (drop (S p) menu) = dataIndex final).
    { destruct (menu !! S p) as [next|] eqn:Hnext.
      - destruct (last menu) as [final|] eqn:Hfinal;
          [|apply last_None in Hfinal; discriminate Hfinal].
        exists (Nat.pred (length menu)), final.
        rewrite last_lookup in Hfinal. split; [exact Hfinal|]. split.
        + apply lookup_ge_None. apply lookup_lt_Some in Hnext. lia.
        + unfold lastIndex. rewrite last_of_drop by (apply lookup_lt_Some in Hnext; exact Hnext).
          rewrite last_lookup, Hfinal. reflexivity.
      - exists p, item. split; [exact Hp|]. split; [exact Hnext|].
        rewrite drop_ge by (apply lookup_ge_None; exact Hnext). reflexivity. }
    destruct Hlast as (q & final & Hq & Hend & ->).
    change (take (S p) menu) with (first :: take p (drop 1 menu)).
    split.
    + rewrite (nextElement_wraps menu q final Hnd Hq Hend). reflexivity.
    + apply (follows_segment menu p 0 first Hnd). reflexivity.
Qed.

Lemma loop_follows (menu : list MenuItem) (focused : Z) (final : MenuItem)
    (before : list MenuItem) (fuel : nat) (cur : Z) :
  follows menu cur (before ++ [final]) ->
  Forall (fun item => dataIndex item <> focused) before ->
  dataIndex final = focused -> (length before < fuel)%nat ->
  arrowDownLoop fuel menu focused cur = focusOn (firstEnabled (before ++ [final])).
Proof.
  revert fuel cur; induction before as [|item before IH];
    intros fuel cur Hfollows Hothers Hfinal Hfuel;
    (destruct fuel as [|fuel]; [simpl in Hfuel; lia|]);
    simpl in Hfollows; destruct Hfollows as [Hnext Hfollows];
    cbn [arrowDownLoop]; rewrite Hnext; unfold firstEnabled; cbn [app List.find].
  - destruct (ariaDisabled final); simpl; [|reflexivity].
    rewrite Hfinal, Z.eqb_refl. reflexivity.
  - apply Forall_cons in Hothers as [Hitem Hothers].
    destruct (ariaDisabled item); simpl; [|reflexivity].
    destruct (Z.eqb_spec (dataIndex item) focused) as [Heq|_]; [contradiction|].
    apply IH; [assumption .. | simpl in Hfuel; lia].
Qed.

Lemma itemsAfter_ends_with (menu : list MenuItem) (p : nat) (item : MenuItem) :
  NoDup (dataIndex <$> menu) -> menu !! p = Some item ->
  itemsAfter menu p = (drop (S p) menu ++ take p menu) ++ [item] /\
  Forall (fun other => dataIndex other <> dataIndex item)
         (drop (S p) menu ++ take p menu).
Proof.
  intros Hnd Hp. split.
  - unfold itemsAfter. rewrite (take_S_r menu p item Hp), app_assoc. reflexivity.
  - assert (Hother : forall (q : nat) (other : MenuItem),
               menu !! q = Some other -> q <> p -> dataIndex other <> dataIndex item).
    { intros q other Hq Hne Heq. apply Hne.
      apply (NoDup_lookup (dataIndex <$> menu) q p (dataIndex item)); [exact Hnd | |].
      - rewrite list_lookup_fmap, Hq. simpl. rewrite Heq. reflexivity.
      - rewrite list_lookup_fmap, Hp. reflexivity. }
    apply Forall_app. split; apply Forall_forall; intros other Hin;
      apply list_elem_of_lookup in Hin as [q Hq].
    + rewrite lookup_drop in Hq. apply (Hother _ _ Hq). lia.
    + apply lookup_take_Some in Hq as [Hq Hlt]. apply (Hother _ _ Hq). lia.
Qed.

Section ArrowDownFocused.
Context {T : Type} `{EqDecision T}.

(** ArrowDown with a focused option whose item is at position [p] of the
    list (the items have distinct indices).  Without virtualization the focus
    goes to the next item that is not disabled, cyclically, the focused one
    being the last candidate; with virtualization nothing happens when the
    focused item is the last one. *)
Lemma arrowDown_with_focus
    (props : ComboBoxProps T) (c : Component T) (menu : list MenuItem)
    (p : nat) (item : MenuItem) :
  isOpen (state c) = true -> size (optionsExtraInfo c) <> O ->
  focusedIndex (state c) = dataIndex item -> dataIndex item <> -1 ->
  NoDup (dataIndex <$> menu) -> menu !! p = Some item ->
  (enableVirtualization props = false ->
   handleKeyDown props c None menu ArrowDown
   = (focusOn (firstEnabled (itemsAfter menu p)), [])) /\
  (enableVirtualization props = true -> menu !! S p = None ->
   handleKeyDown props c None menu ArrowDown = (Dispatched [], [])).
Proof.
  intros Hopen Hsize Hfocus Hne Hnd Hp.
  unfold handleKeyDown. rewrite Hopen, Hfocus. cbn -[arrowDownLoop].
  destruct (Nat.eqb_spec (size (optionsExtraInfo c)) 0) as [|_]; [contradiction|].
  destruct (Z.eqb_spec (dataIndex item) (-1)) as [|_]; [contradiction|].
  split.
  - intros ->. cbn -[arrowDownLoop].
    destruct (itemsAfter_ends_with menu p item Hnd Hp) as [Hsplit Hothers].
    rewrite Hsplit. f_equal. apply loop_follows.
    + rewrite <- Hsplit. apply follows_itemsAfter; assumption.
    + exact Hothers.
    + reflexivity.
    + rewrite length_app, length_drop, length_take.
      apply lookup_lt_Some in Hp. lia.
  - intros -> Hlast. simpl.
    rewrite (querySelector_position menu p item Hnd Hp). simpl.
    unfold nextElementSibling. rewrite Hlast.
    rewrite bool_decide_eq_false_2 by (intros [x Hx]; discriminate Hx).
    reflexivity.
Qed.

End ArrowDownFocused.

(** C8 fails on the code in two places.  (1) With no focused option,
    ArrowDown focuses the first item although it is disabled: of Apple
    (disabled), Banana and Cherry, Apple gets the focus.  (2) With
    virtualization, the guard against wrapping is tested once, before the loop
    that skips disabled items: from Banana, followed by the disabled Cherry,
    which is the last rendered item, the focus wraps to Apple. *)
Theorem arrowDown_disabled_first_and_virtualized_wrap :
  let options1 := [disabledApple; banana; cherry] in
  let plain := mkProps options1 (SingleValue None) None false "cb" in
  let noFocus := boxOf options1 (mkState true (Single (-1)) (-1)) in
  let rendered1 := [mkMenuItem 0 true; mkMenuItem 1 false; mkMenuItem 2 false] in
  let options2 := [apple; banana; disabledCherry] in
  let virtualized := mkProps options2 (SingleValue None) None true "cb" in
  let onBanana := boxOf options2 (mkState true (Single (-1)) 1) in
  let rendered2 := [mkMenuItem 0 false; mkMenuItem 1 false; mkMenuItem 2 true] in
  menuItems plain noFocus = Some rendered1 /\
  handleKeyDown plain noFocus None rendered1 ArrowDown
  = (Dispatched [Focus (Some 0)], []) /\
  menuItems virtualized onBanana = Some rendered2 /\
  handleKeyDown virtualized onBanana None rendered2 ArrowDown
  = (Dispatched [Focus (Some 0)], []).
Proof. vm_compute. repeat split; reflexivity. Qed.

(** The same from the mount on: the input is focused, then ArrowDown is
    pressed. *)
Lemma arrowDown_focuses_disabled_apple :
  let props := mkProps [disabledApple; banana; cherry] (SingleValue None) None false "cb" in
  let opened := mount props >>> focusInput props in
  (state ∘ fst) <$> opened = Some (mkState true (Single (-1)) (-1)) /\
  (state ∘ fst) <$> (opened >>> press props ArrowDown)
  = Some (mkState true (Single (-1)) 0).
Proof. vm_compute. repeat split; reflexivity. Qed.

(** With virtualization, ArrowDown on the last rendered item does nothing;
    without it, the focus wraps to the first enabled item. *)
Lemma arrowDown_on_last_item :
  let virtualized := mkProps [apple; banana; cherry] (SingleValue None) None true "cb" in
  let plain := mkProps [disabledApple; banana; cherry] (SingleValue None) None false "cb" in
  let rendered := [mkMenuItem 0 true; mkMenuItem 1 false; mkMenuItem 2 false] in
  let onCherry := boxOf [apple; banana; cherry] (mkState true (Single (-1)) 2) in
  handleKeyDown virtualized onCherry None rendered ArrowDown = (Dispatched [], []) /\
  handleKeyDown plain onCherry None rendered ArrowDown
  = (Dispatched [Focus (Some 1)], []).
Proof. vm_compute. split; reflexivity. Qed.
End ComboBoxSpec.

(** * Further properties of the windower *)

Module VirtualScrollMore.
Import VirtualScroll VirtualScrollSpec.

(** *** The scrollable parent *)

(** [getScrollableParent] returns the nearest element of the chain that is
    scrollable and is not the body, every element before it being neither;
    when the chain has no such element before it reaches the body or ends
    (or the element is [null]), it returns the body. *)
Theorem scrollable_parent_is_nearest
    (ancestors : list StyledElement) (body : StyledElement) :
  let found := getScrollableParent ancestors body in
  let passed (e : StyledElement) :=
    nodeId e <> nodeId body /\ isElementScrollable e = false in
  (exists before after,
     ancestors = before ++ found :: after /\ Forall passed before /\
     nodeId found <> nodeId body /\ isElementScrollable found = true) \/
  (found = body /\
   exists before after,
     ancestors = before ++ after /\ Forall passed before /\
     match after with
     | [] => True
     | e :: _ => nodeId e = nodeId body
     end).
Proof.
  cbv zeta. induction ancestors as [|e parents IH]; simpl.
  - right. split; [reflexivity|]. exists [], []. repeat split. constructor.
  - destruct (Nat.eqb_spec (nodeId e) (nodeId body)) as [Heq|Hne].
    + right. split; [reflexivity|]. exists [], (e :: parents).
      repeat split; [constructor | exact Heq].
    + destruct (isElementScrollable e) eqn:Hscroll.
      * left. exists [], parents. repeat split; [constructor | exact Hne | exact Hscroll].
      * destruct IH as [(before & after & Hsplit & Hpassed & Hfound)
                       | (Hbody & before & after & Hsplit & Hpassed & Hafter)].
        -- left. exists (e :: before), after. split; [rewrite Hsplit at 1; reflexivity|].
           split; [constructor; [split; assumption | exact Hpassed] | exact Hfound].
        -- right. split; [exact Hbody|]. exists (e :: before), after.
           split; [rewrite Hsplit at 1; reflexivity|].
           split; [constructor; [split; assumption | exact Hpassed] | exact Hafter].
Qed.

Lemma append_assoc (a b c : string) : (a +:+ b) +:+ c = a +:+ (b +:+ c).
Proof.
  induction a as [|x a IH]; [reflexivity|].
  change (String x ((a +:+ b) +:+ c) = String x (a +:+ (b +:+ c))).
  rewrite IH. reflexivity.
Qed.

Lemma includes_append (s t word : string) :
  includes s word = true \/ includes t word = true ->
  includes (s +:+ t) word = true.
Proof.
  rewrite !ComboBoxSpec.includes_spec. intros [(pre & post & ->) | (pre & post & ->)].
  - exists pre, (post +:+ t). rewrite !append_assoc. reflexivity.
  - exists (s +:+ pre), post. rewrite !append_assoc. reflexivity.
Qed.

(** An element is taken as scrollable as soon as its [overflow] or its
    [overflow-y] contains auto, scroll or overlay; when both are single
    keywords, exactly when one of them is auto, scroll or overlay. *)
Theorem scrollable_by_overflow (e : StyledElement) :
  (forall word,
     word ∈ ["auto"; "scroll"; "overlay"]%string ->
     includes (getElementStyle e "overflow") word = true \/
     includes (getElementStyle e "overflow-y") word = true ->
     isElementScrollable e = true) /\
  (forall k1 k2,
     getElementStyle e "overflow" = cssText k1 ->
     getElementStyle e "overflow-y" = cssText k2 ->
     isElementScrollable e = scrolls k1 || scrolls k2).
Proof.
  split.
  - intros word Hword Hin. unfold isElementScrollable, testScrollWords.
    pose proof (includes_append _ _ word Hin) as Happ.
    rewrite !elem_of_cons, elem_of_nil in Hword.
    destruct Hword as [-> | [-> | [-> | []]]]; rewrite Happ;
      rewrite ?orb_true_r; reflexivity.
  - intros k1 k2 H1 H2. unfold isElementScrollable. rewrite H1, H2.
    destruct k1, k2; vm_compute; reflexivity.
Qed.

(** *** The scroll listener *)

Lemma removeScrollListener_single
    (container : option nat) (body cb : nat) (target : EventTarget) :
  target = scrollTarget (mkListening container body None []) ->
  removeScrollListener (mkListening container body (Some cb) [(target, cb)])
  = mkListening container body (Some cb) [].
Proof.
  intros ->. unfold removeScrollListener, removeEventListener, scrollTarget. simpl.
  rewrite bool_decide_eq_true_2 by reflexivity. reflexivity.
Qed.

Lemma listenerEffect_fresh
    (container : option nat) (body next : nat) (ref : option nat) :
  listenerEffect next (mkListening container body ref [])
  = mkListening container body (Some next)
      [(scrollTarget (mkListening container body None []), next)].
Proof.
  unfold listenerEffect, removeScrollListener, addEventListener, scrollTarget.
  destruct ref; simpl; first
    [ reflexivity
    | case_bool_decide as Hin; [apply elem_of_nil in Hin; contradiction | reflexivity] ].
Qed.

(** From the mount to the unmount the component has exactly one scroll
    listener, the callback of the last render that changed it, on the document
    when the scroll container is missing or is the body and on the container
    otherwise; the cleanup of the unmount leaves none. *)
Theorem one_scroll_listener
    (container : option nat) (body : nat) (onScroll : nat) (later : list nat) :
  let refs := mkListening container body None [] in
  let s := foldl listenerEffectAgain (listenerEffect onScroll refs) later in
  s = mkListening container body (Some (nullish (last later) onScroll))
        [(scrollTarget refs, nullish (last later) onScroll)] /\
  listeners (removeScrollListener s) = [].
Proof.
  intros refs s.
  assert (Hinv : forall (cbs : list nat) (cb : nat),
             foldl listenerEffectAgain
               (mkListening container body (Some cb) [(scrollTarget refs, cb)]) cbs
             = mkListening container body (Some (nullish (last cbs) cb))
                 [(scrollTarget refs, nullish (last cbs) cb)]).
  { induction cbs as [|next cbs IH]; intros cb; simpl; [reflexivity|].
    unfold listenerEffectAgain at 2.
    rewrite removeScrollListener_single by reflexivity.
    rewrite listenerEffect_fresh. fold refs. rewrite IH.
    replace (nullish (last (next :: cbs)) cb) with (nullish (last cbs) next);
      [reflexivity|].
    destruct cbs as [|x cbs]; [reflexivity|]. rewrite last_cons_cons.
    destruct (last (x :: cbs)) eqn:E; [reflexivity|].
    apply last_None in E. discriminate E. }
  assert (Hs : s = mkListening container body (Some (nullish (last later) onScroll))
                     [(scrollTarget refs, nullish (last later) onScroll)]).
  { subst s. unfold refs at 1. rewrite listenerEffect_fresh. fold refs. apply Hinv. }
  rewrite Hs. split; [reflexivity|].
  rewrite removeScrollListener_single by reflexivity. reflexivity.
Qed.

(** *** The size and the place of the window *)

Lemma floor_of_nodes (rowHeight total q : Z) :
  0 < rowHeight -> is_floor total rowHeight q ->
  getNumberOfNodesInHeight rowHeight total = q.
Proof.
  intros Hpos Hq. eapply is_floor_unique; [exact Hpos | | exact Hq].
  apply nodes_in_height_floor. exact Hpos.
Qed.

(** After a recomputation with measured rows, the number of materialized
    items is at most the number of whole rows that fit in the container plus
    twice the buffer, however long the list is. *)
Theorem rendered_items_bounded
    (props : VirtualScrollProps) (scrollTopArg : option Z)
    (container : HTMLElement) (c : Component) (perViewport : Z) :
  0 <= bufferSize props -> 0 < child (childHeight c) ->
  0 <= rectHeight container ->
  is_floor (rectHeight container) (child (childHeight c)) perViewport ->
  let c' := updateVirtualScroll props scrollTopArg (Some container) c in
  Z.of_nat (length (visibleChildren props c')) <= perViewport + 2 * bufferSize props.
Proof.
  intros Hb Hpos Hh Hfloor c'. unfold visibleChildren. rewrite length_for_range.
  assert (Hcount : visibleNodeCount c' <= perViewport).
  { subst c'. simpl. unfold getVisibleNodeCount, getElementHeight. simpl.
    rewrite (floor_of_nodes _ _ perViewport Hpos Hfloor). lia. }
  assert (0 <= perViewport) by (unfold is_floor in Hfloor; nia).
  lia.
Qed.

Lemma rendered_items_bounded_witness :
  Z.of_nat (length (visibleChildren (mkProps 100000 10 0)
                      (updateVirtualScroll (mkProps 100000 10 0) None
                         (Some (mkElement 30500 0 0 777777))
                         (mkComponent 0 0 (mkChildHeight 1000 1000 1000) 0
                                      None None None))))
  <= 30 + 2 * 10.
Proof.
  apply (rendered_items_bounded (mkProps 100000 10 0) None
           (mkElement 30500 0 0 777777)
           (mkComponent 0 0 (mkChildHeight 1000 1000 1000) 0 None None None) 30);
    unfold is_floor; simpl; lia.
Defined.

Lemma rowsAbove_after_first (heights : ChildHeight) (k : nat) :
  rowsAbove heights (S k) = firstChild heights + Z.of_nat k * child heights.
Proof.
  induction k as [|k IH]; [simpl; lia|].
  change (rowsAbove heights (S (S k)))
    with (rowsAbove heights (S k) + child heights).
  rewrite IH. lia.
Qed.

(** The translate value for a start index is the sum of the heights of the
    rows above it, the first row counted with the first measured height and
    every other row with the uniform one. *)
Theorem translate_is_height_of_rows_above (heights : ChildHeight) (k : nat) :
  getTranslateValue (child heights) (firstChild heights) (Z.of_nat k)
  = rowsAbove heights k.
Proof.
  destruct k as [|k]; [reflexivity|].
  rewrite translate_after_start by lia. rewrite rowsAbove_after_first. lia.
Qed.

(** The start of the window does not move up when the list is scrolled
    down. *)
Theorem window_start_monotone
    (props : VirtualScrollProps) (container container' : HTMLElement) (c : Component) :
  0 < child (childHeight c) -> scrollTop container <= scrollTop container' ->
  startNode (updateVirtualScroll props None (Some container) c)
  <= startNode (updateVirtualScroll props None (Some container') c).
Proof.
  intros Hpos Hle. simpl. unfold getNumberOfNodesInHeight.
  destruct (Z.eqb_spec (child (childHeight c)) 0) as [Hz|_]; [lia|].
  pose proof (Z.div_le_mono _ _ (child (childHeight c)) Hpos Hle). lia.
Qed.

Lemma window_start_monotone_witness :
  startNode (updateVirtualScroll threeRows None (Some (mkElement 10000 0 0 500)) measured10)
  <= startNode (updateVirtualScroll threeRows None (Some (mkElement 10000 0 0 2500)) measured10).
Proof.
  apply (window_start_monotone threeRows (mkElement 10000 0 0 500)
           (mkElement 10000 0 0 2500) measured10);
    vm_compute; [reflexivity | intros H; discriminate H].
Defined.



(** On doubles the floor of the quotient can be one less than the floor of
    the exact quotient, and the window starts one row earlier: with rows of
    10.05px, a first height of 0, [scrollToIndex = 61] and a container of 5px
    the offset is 603px and the quotient floors to 59, not 60.  With a buffer
    of two rows the window is then [[57, 61)], without item 61; with a buffer
    of three rows it is [[56, 62)]. *)
Lemma scroll_to_index_on_doubles :
  let child := Double.numberOfHundredths 1005 in
  let offset := Double.scrollOffsetOfIndex 61 child 0 in
  let container := Double.numberOfHundredths 500 in
  offset = Double.numberOfHundredths 60300 /\
  getNumberOfNodesInHeight 1005 60300 = 60 /\
  Double.getNumberOfNodesInHeight child offset = Some 59 /\
  Double.updateVirtualScroll (mkProps 1000 2 61) child (Some offset) 0 container
  = Some (Double.mkWindow 57 0) /\
  Double.updateVirtualScroll (mkProps 1000 3 61) child (Some offset) 0 container
  = Some (Double.mkWindow 56 0).
Proof. vm_compute. repeat split; reflexivity. Qed.

(** A mounted component with [scrollToIndex = k] recomputes, on a resize to a
    non-zero height, for the offset of row [k]: it asks the container to
    scroll there, and row [k] is materialized with a row to spare on either
    side of the window (which a floor that is one less on doubles may take),
    provided the buffer has at least three rows and the first row is lower
    than [bufferSize + 2] rows. *)
Theorem scroll_to_index_materializes
    (props : VirtualScrollProps) (container : HTMLElement) (c : Component) :
  let rowHeight := child (childHeight c) in
  let first := firstChild (childHeight c) in
  let k := scrollToIndex props in
  let c' := resizeEffect props (Some container) c in
  scrollContainerHeight c <> 0 -> 0 < rowHeight ->
  0 <= first < (bufferSize props + 2) * rowHeight ->
  3 <= bufferSize props -> 0 <= rectHeight container ->
  0 < k < itemsLength props ->
  k ∈ visibleChildren props c' /\
  (forall start perViewport,
     getNumberOfNodesInHeight rowHeight ((k - 1) * rowHeight + first) - 1 <= start
     <= getNumberOfNodesInHeight rowHeight ((k - 1) * rowHeight + first) ->
     0 <= perViewport ->
     let startIndex := Z.max 0 (start - bufferSize props) in
     let count := Z.min (itemsLength props - start) perViewport in
     startIndex <= k
     < Z.min (itemsLength props) (startIndex + count + bufferSize props * 2)) /\
  (0 < (k - 1) * rowHeight + first ->
   scrolledTo c' = Some ((k - 1) * rowHeight + first)).
Proof.
  intros rowHeight first k c' Hheight Hpos Hfirst Hbuf Hh Hk.
  set (offset := (k - 1) * rowHeight + first).
  assert (Hc' : c' = updateVirtualScroll props (Some offset) (Some container) c).
  { subst c'. unfold resizeEffect.
    destruct (Z.eqb_spec (scrollContainerHeight c) 0) as [|_]; [contradiction|].
    destruct (Z.ltb_spec 0 (scrollToIndex props)) as [_|Hle]; [reflexivity|].
    unfold k in Hk. lia. }
  pose proof (nodes_in_height_floor rowHeight offset Hpos) as Hstart.
  pose proof (nodes_in_height_floor rowHeight (rectHeight container) Hpos) as Hper.
  set (start := getNumberOfNodesInHeight rowHeight offset) in *.
  set (per := getNumberOfNodesInHeight rowHeight (rectHeight container)) in *.
  unfold is_floor in Hstart, Hper.
  assert (Hs : startNode c' = Z.max 0 (start - bufferSize props))
    by (rewrite Hc'; reflexivity).
  assert (Hv : visibleNodeCount c' = Z.min (itemsLength props - start) per)
    by (rewrite Hc'; reflexivity).
  assert (Hper0 : 0 <= per) by nia.
  assert (Hlow : k - 1 <= start) by (subst offset; nia).
  assert (Hhigh : start <= k + bufferSize props) by (subst offset; nia).
  split; [|split].
  - unfold visibleChildren. rewrite elem_of_for_range. lia.
  - fold offset start. intros start' per' Hstart' Hper'. cbv zeta. lia.
  - intros Hoff. rewrite Hc'. simpl.
    destruct (Z.eqb_spec offset 0) as [H0|_]; [subst offset; lia | reflexivity].
Qed.

Lemma scroll_to_index_materializes_witness :
  (500 : Z) ∈ visibleChildren (mkProps 1000 10 500)
                (resizeEffect (mkProps 1000 10 500) (Some (mkElement 30000 0 0 0))
                   (mkComponent 0 0 (mkChildHeight 1200 1000 1000) 30000 None None None)) /\
  (forall start perViewport,
     getNumberOfNodesInHeight 1000 ((500 - 1) * 1000 + 1200) - 1 <= start
     <= getNumberOfNodesInHeight 1000 ((500 - 1) * 1000 + 1200) ->
     0 <= perViewport ->
     let startIndex := Z.max 0 (start - 10) in
     let count := Z.min (1000 - start) perViewport in
     startIndex <= 500 < Z.min 1000 (startIndex + count + 10 * 2)) /\
  (0 < (500 - 1) * 1000 + 1200 ->
   scrolledTo (resizeEffect (mkProps 1000 10 500) (Some (mkElement 30000 0 0 0))
                 (mkComponent 0 0 (mkChildHeight 1200 1000 1000) 30000 None None None))
   = Some ((500 - 1) * 1000 + 1200)).
Proof.
  apply (scroll_to_index_materializes (mkProps 1000 10 500) (mkElement 30000 0 0 0)
           (mkComponent 0 0 (mkChildHeight 1200 1000 1000) 30000 None None None));
    simpl; lia.
Defined.

(** *** Measuring and reserving *)

Lemma measureChildHeight_children
    (props : VirtualScrollProps) (children : list HTMLElement) (c : Component) :
  visibleChildren props (measureChildHeight props children c) = visibleChildren props c /\
  measuredLength (measureChildHeight props children c) = measuredLength c.
Proof.
  unfold measureChildHeight.
  destruct (length (visibleChildren props c) =? 0)%nat; split; reflexivity.
Qed.

(** The heights are not measured again while the number of materialized items
    stays the same: after the effect has run, a render with the same number of
    items keeps the stored heights, whatever the heights of the rows are by
    then. *)
Theorem heights_measured_once_per_count
    (props : VirtualScrollProps) (children children' : list HTMLElement)
    (c : Component) :
  measureEffect props children' (measureEffect props children c)
  = measureEffect props children c.
Proof.
  unfold measureEffect at 1.
  assert (Hsame : measuredLength (measureEffect props children c)
                  = Some (length (visibleChildren props (measureEffect props children c)))).
  { unfold measureEffect. case_bool_decide as Hdec; [exact Hdec|].
    destruct (measureChildHeight_children props children
                (mkComponent (startNode c) (visibleNodeCount c) (childHeight c)
                   (scrollContainerHeight c) (transform c) (scrolledTo c)
                   (Some (length (visibleChildren props c))))) as [Hvis Hlen].
    rewrite Hvis, Hlen. reflexivity. }
  rewrite bool_decide_eq_true_2 by exact Hsame. reflexivity.
Qed.

(** The height reserved for the list is the sum of the assumed heights of its
    rows (first height, uniform heights, last height) when it has two items
    or more; with one item or none it is the first height plus the last
    height all the same. *)
Theorem reserved_height (props : VirtualScrollProps) (c : Component) :
  (2 <= itemsLength props ->
   minHeight props c
   = rowsAbove (childHeight c) (Z.to_nat (itemsLength props - 1))
     + lastChild (childHeight c)) /\
  (itemsLength props <= 1 ->
   minHeight props c = firstChild (childHeight c) + lastChild (childHeight c)).
Proof.
  split; intros Hn; unfold minHeight.
  - destruct (Z.to_nat (itemsLength props - 1)) as [|k] eqn:Hk; [lia|].
    rewrite rowsAbove_after_first. nia.
  - rewrite Z.max_r by lia. lia.
Qed.

Lemma measureEffect_last_height
    (props : VirtualScrollProps) (children : list HTMLElement) (c : Component) :
  heights_nonneg children -> 0 <= lastChild (childHeight c) ->
  0 <= lastChild (childHeight (measureEffect props children c)).
Proof.
  intros Hch Hlast. unfold measureEffect. case_bool_decide; [exact Hlast|].
  unfold measureChildHeight.
  match goal with |- context [if ?b then _ else _] => destruct b end;
    [exact Hlast|].
  simpl. apply measured_height_nonneg. exact Hch.
Qed.

Lemma step_last_height (props : VirtualScrollProps) (c : Component) (e : Event) :
  event_nonneg e -> 0 <= lastChild (childHeight c) ->
  0 <= lastChild (childHeight (step props c e)).
Proof.
  intros He Hlast.
  assert (Hu : forall arg container c0,
             childHeight (updateVirtualScroll props arg container c0) = childHeight c0)
    by (intros arg [el|] c0; reflexivity).
  destruct e as [container children|height container children];
    destruct He as [Hch _]; simpl; apply measureEffect_last_height; try exact Hch.
  - unfold onScroll. rewrite Hu. exact Hlast.
  - unfold resizeEffect. simpl. destruct (height =? 0); [exact Hlast|].
    rewrite Hu. exact Hlast.
Qed.

(** The invariant of the window and of the heights over the life of a
    component: after the first render and its measurement, and after every
    scroll and resize whose scroll offset is not negative, the window starts
    at a non-negative index and ends within the items, the three stored
    heights are not negative, and so is the height reserved for the list, as
    long as the measured heights are not negative. *)
Theorem window_and_heights_over_a_run
    (props : VirtualScrollProps) (children : list HTMLElement) (es : list Event) :
  0 <= itemsLength props -> 0 <= bufferSize props ->
  heights_nonneg children -> Forall event_nonneg es ->
  let c := run props children es in
  0 <= startNode c /\
  startNode c + visibleNodeCount c <= itemsLength props /\
  0 <= child (childHeight c) /\ 0 <= firstChild (childHeight c) /\
  0 <= lastChild (childHeight c) /\
  0 <= minHeight props c.
Proof.
  intros Hi Hb Hch Hes c.
  assert (Hinv : window_ok props c /\ 0 <= lastChild (childHeight c)).
  { subst c. unfold run.
    assert (Hinit : window_ok props (measureEffect props children initial) /\
                    0 <= lastChild (childHeight (measureEffect props children initial))).
    { split.
      - apply measureEffect_ok; [assumption|]. repeat split; simpl; lia.
      - apply measureEffect_last_height; [assumption | simpl; lia]. }
    revert Hinit. generalize (measureEffect props children initial) as c0.
    induction Hes as [|e es He Hes IH]; intros c0 Hc0; simpl; [assumption|].
    apply IH. destruct Hc0 as [Hok Hlast]. split.
    - apply step_ok; assumption.
    - apply step_last_height; assumption. }
  destruct Hinv as [(H1 & H2 & H3 & H4) H5].
  repeat (split; [assumption|]). unfold minHeight. nia.
Qed.

Lemma window_and_heights_over_a_run_witness :
  let c :=
    run threeRows [row10; row10; row10]
        [Resize 10000 (Some (mkElement 10000 0 0 0)) [row10; row10; row10];
         Scroll (Some (mkElement 10000 0 0 1500)) [row10; row10; row10]] in
  0 <= startNode c /\
  startNode c + visibleNodeCount c <= itemsLength threeRows /\
  0 <= child (childHeight c) /\ 0 <= firstChild (childHeight c) /\
  0 <= lastChild (childHeight c) /\
  0 <= minHeight threeRows c.
Proof.
  apply (window_and_heights_over_a_run threeRows [row10; row10; row10]
           [Resize 10000 (Some (mkElement 10000 0 0 0)) [row10; row10; row10];
            Scroll (Some (mkElement 10000 0 0 1500)) [row10; row10; row10]]).
  - simpl. lia.
  - simpl. lia.
  - unfold heights_nonneg.
    repeat (apply Forall_cons_2; [vm_compute; intros H; discriminate H|]).
    apply Forall_nil_2.
  - repeat (apply Forall_cons_2;
            [ split; [|vm_compute; intros H; discriminate H]; unfold heights_nonneg;
              repeat (apply Forall_cons_2; [vm_compute; intros H; discriminate H|]);
              apply Forall_nil_2 |]).
    apply Forall_nil_2.
Defined.

End VirtualScrollMore.

(** * Further properties of the ComboBox *)

Module ComboBoxMore.
Import ComboBox ComboBoxSpec.

(** *** Option ids and the extra info *)

Lemma replaceWhitespace_chars (s : string) :
  String.length (replaceWhitespace s) = String.length s /\
  (forall n ch, String.get n (replaceWhitespace s) = Some ch -> isWhitespace ch = false) /\
  (forall n ch, String.get n s = Some ch -> isWhitespace ch = false ->
                String.get n (replaceWhitespace s) = Some ch) /\
  (forall n ch, String.get n s = Some ch -> isWhitespace ch = true ->
                String.get n (replaceWhitespace s) = Some "-"%char).
Proof.
  induction s as [|a s (IHlen & IHno & IHkeep & IHdash)]; simpl.
  - repeat split; intros n ch H; discriminate H.
  - split; [rewrite IHlen; reflexivity|].
    split; [|split].
    + intros [|n] ch Hget; simpl in Hget.
      * injection Hget as <-. destruct (isWhitespace a) eqn:E; [reflexivity | exact E].
      * eapply IHno. exact Hget.
    + intros [|n] ch Hget Hch; simpl in Hget |- *.
      * injection Hget as ->. rewrite Hch. reflexivity.
      * apply IHkeep; assumption.
    + intros [|n] ch Hget Hch; simpl in Hget |- *.
      * injection Hget as ->. rewrite Hch. reflexivity.
      * eapply IHdash; eassumption.
Qed.

Section Ids.
Context {T : Type} `{EqDecision T}.

(** The id of an option is the one the caller gave it; otherwise it is
    [idPrefix-option-] followed by the label in which every whitespace
    character is replaced by a dash and every other character is kept in its
    place. *)
Theorem option_id_from_label (opt : SelectOption T) (idPrefix : string) :
  (forall given, id opt = Some given -> getOptionId opt idPrefix = given) /\
  (id opt = None ->
   exists part,
     getOptionId opt idPrefix = idPrefix +:+ "-option-" +:+ part /\
     String.length part = String.length (label opt) /\
     (forall n ch, String.get n part = Some ch -> isWhitespace ch = false) /\
     (forall n ch, String.get n (label opt) = Some ch ->
        String.get n part = Some (if isWhitespace ch then "-"%char else ch))).
Proof.
  split.
  - intros given Hid. unfold getOptionId. rewrite Hid. reflexivity.
  - intros Hid. exists (replaceWhitespace (label opt)).
    destruct (replaceWhitespace_chars (label opt)) as (Hlen & Hno & Hkeep & Hdash).
    split; [unfold getOptionId; rewrite Hid; reflexivity|].
    split; [exact Hlen|]. split; [exact Hno|].
    intros n ch Hget. destruct (isWhitespace ch) eqn:E.
    + eapply Hdash; eassumption.
    + apply Hkeep; assumption.
Qed.

Lemma recordIndexes_dom (idPrefix : string) (options : list (SelectOption T))
    (i : Z) (extraInfo : gmap string Z) :
  dom (recordIndexes idPrefix options i extraInfo)
  = dom extraInfo ∪ list_to_set (idsOf idPrefix options).
Proof.
  revert i extraInfo; induction options as [|opt options IH]; intros i extraInfo; simpl.
  - rewrite (right_id_L ∅ (∪)). reflexivity.
  - rewrite IH, dom_insert_L.
    rewrite (comm_L (∪) {[getOptionId opt idPrefix]} (dom extraInfo)).
    rewrite <- (assoc_L (∪)). reflexivity.
Qed.

Lemma lookup_of_distinct_ids (idPrefix : string) (options : list (SelectOption T))
    (n : nat) (opt : SelectOption T) :
  NoDup (idsOf idPrefix options) -> options !! n = Some opt ->
  recordIndexes idPrefix options 0 ∅ !! getOptionId opt idPrefix = Some (Z.of_nat n).
Proof.
  intros Hnd Hn.
  rewrite (recordIndexes_lookup idPrefix options 0 ∅ n opt Hn); [f_equal; lia|].
  intros m opt' Hlt Hm Heq.
  assert (n = m); [|lia].
  apply (NoDup_lookup (idsOf idPrefix options) n m (getOptionId opt idPrefix) Hnd).
  - unfold idsOf. rewrite list_lookup_fmap, Hn. reflexivity.
  - unfold idsOf. rewrite list_lookup_fmap, Hm. simpl. rewrite Heq. reflexivity.
Qed.

(** When the options have distinct ids, the extra info built at a render
    maps the id of each option to its position in the options, it has one
    entry per option, and each of its entries is the position of an option
    with that id. *)
Theorem extra_info_of_distinct_ids (props : ComboBoxProps T) :
  NoDup (idsOf (idPrefix props) (options props)) ->
  let info := initExtraInfo props ∅ in
  (forall n opt,
     options props !! n = Some opt ->
     info !! getOptionId opt (idPrefix props) = Some (Z.of_nat n)) /\
  size info = length (options props) /\
  (forall key i,
     info !! key = Some i ->
     exists n opt,
       i = Z.of_nat n /\ options props !! n = Some opt /\
       getOptionId opt (idPrefix props) = key).
Proof.
  intros Hnd info.
  assert (Hinfo : info = recordIndexes (idPrefix props) (options props) 0 ∅).
  { subst info. unfold initExtraInfo. destruct (options props); reflexivity. }
  rewrite Hinfo. split; [|split].
  - intros n opt Hn. apply lookup_of_distinct_ids; assumption.
  - rewrite <- size_dom, recordIndexes_dom, dom_empty_L, (left_id_L ∅ (∪)).
    rewrite size_list_to_set by exact Hnd. unfold idsOf. apply length_map.
  - intros key i Hkey.
    assert (Hin : key ∈ dom (recordIndexes (idPrefix props) (options props) 0 ∅))
      by (apply elem_of_dom; eauto).
    rewrite recordIndexes_dom, dom_empty_L, (left_id_L ∅ (∪)) in Hin.
    apply elem_of_list_to_set in Hin. unfold idsOf in Hin.
    apply list_elem_of_fmap in Hin as (opt & -> & Hopt).
    apply list_elem_of_lookup in Hopt as [n Hn].
    exists n, opt. split; [|split; [exact Hn | reflexivity]].
    rewrite (lookup_of_distinct_ids _ _ n opt Hnd Hn) in Hkey. congruence.
Qed.

(** When several options have the same id, the extra info keeps the position
    of the last of them, and the item of every one of them carries it as its
    [data-iui-index]. *)
Theorem duplicate_id_takes_last_index
    (props : ComboBoxProps T) (c : Component T) (n m : nat)
    (opt opt' : SelectOption T) :
  optionsExtraInfo c = initExtraInfo props ∅ ->
  options props !! n = Some opt -> options props !! m = Some opt' ->
  (n <= m)%nat ->
  getOptionId opt (idPrefix props) = getOptionId opt' (idPrefix props) ->
  (forall later other,
     (m < later)%nat -> options props !! later = Some other ->
     getOptionId other (idPrefix props) <> getOptionId opt' (idPrefix props)) ->
  dataIndex <$> getMenuItem props c opt = Some (Z.of_nat m).
Proof.
  intros Hinfo Hn Hm Hle Hid Hlast. unfold getMenuItem. rewrite Hinfo, Hid.
  assert (Hrec : initExtraInfo props ∅
                 = recordIndexes (idPrefix props) (options props) 0 ∅).
  { unfold initExtraInfo. destruct (options props); reflexivity. }
  rewrite Hrec, (recordIndexes_lookup _ _ 0 ∅ m opt' Hm Hlast). reflexivity.
Qed.

(** With distinct ids and the extra info of the options, every option of a
    view taken from the options gets its item, and the item carries the
    position of the option in the full options, not its position in the
    view. *)
Theorem menu_items_carry_original_indexes
    (props : ComboBoxProps T) (c : Component T) :
  NoDup (idsOf (idPrefix props) (options props)) ->
  optionsExtraInfo c = initExtraInfo props ∅ ->
  (forall opt, opt ∈ filteredOptions c -> opt ∈ options props) ->
  exists items,
    menuItems props c = Some items /\
    Forall2 (fun opt item =>
               exists n, dataIndex item = Z.of_nat n /\ options props !! n = Some opt)
            (filteredOptions c) items.
Proof.
  intros Hnd Hinfo Hsub. unfold menuItems.
  assert (Hlookup : forall n opt,
             options props !! n = Some opt ->
             initExtraInfo props ∅ !! getOptionId opt (idPrefix props)
             = Some (Z.of_nat n)).
  { intros n opt Hn.
    replace (initExtraInfo props ∅)
      with (recordIndexes (idPrefix props) (options props) 0 ∅)
      by (unfold initExtraInfo; destruct (options props); reflexivity).
    apply lookup_of_distinct_ids; assumption. }
  assert (Hitems : exists items,
             Forall2 (fun opt item =>
                        getMenuItem props c opt = Some item /\
                        exists n, dataIndex item = Z.of_nat n /\
                                  options props !! n = Some opt)
                     (filteredOptions c) items).
  { induction (filteredOptions c) as [|opt view IH].
    - exists []. constructor.
    - destruct IH as (items & Hall).
      { intros o Ho. apply Hsub. right. exact Ho. }
      assert (Hopt : opt ∈ options props) by (apply Hsub; left).
      apply list_elem_of_lookup in Hopt as [n Hn].
      exists (mkMenuItem (Z.of_nat n) (itemDisabled opt) :: items).
      constructor; [|exact Hall]. split.
      + unfold getMenuItem. rewrite Hinfo, (Hlookup n opt Hn). reflexivity.
      + exists n. split; [reflexivity | exact Hn]. }
  destruct Hitems as (items & Hall). exists items. split.
  - apply mapM_Some. eapply Forall2_impl; [exact Hall|].
    intros opt item (Hitem & _). exact Hitem.
  - eapply Forall2_impl; [exact Hall|].
    intros opt item (_ & Hrest). exact Hrest.
Qed.

End Ids.

Lemma extra_info_of_distinct_ids_witness :
  let props := fruits (SingleValue None) in
  let info := initExtraInfo props ∅ in
  (forall n opt,
     options props !! n = Some opt ->
     info !! getOptionId opt (idPrefix props) = Some (Z.of_nat n)) /\
  size info = length (options props) /\
  (forall key i,
     info !! key = Some i ->
     exists n opt,
       i = Z.of_nat n /\ options props !! n = Some opt /\
       getOptionId opt (idPrefix props) = key).
Proof.
  apply (extra_info_of_distinct_ids (fruits (SingleValue None))).
  apply (bool_decide_unpack _). vm_compute. exact I.
Defined.

Lemma duplicate_id_takes_last_index_witness :
  dataIndex <$> getMenuItem (mkProps [spaced; dashed] (SingleValue None) None false "cb")
                  (boxOf [spaced; dashed] (mkState true (Single (-1)) (-1))) spaced
  = Some (Z.of_nat 1).
Proof.
  apply (duplicate_id_takes_last_index
           (mkProps [spaced; dashed] (SingleValue None) None false "cb")
           (boxOf [spaced; dashed] (mkState true (Single (-1)) (-1)))
           0 1 spaced dashed);
    try reflexivity; [lia|].
  intros [|[|later]] other Hlt Hother; try lia; discriminate Hother.
Defined.

Lemma menu_items_carry_original_indexes_witness :
  exists items,
    menuItems (fruits (SingleValue None))
              (mkComponent (mkState true (Single (-1)) (-1)) true "an" [banana]
                 (initExtraInfo (fruits (SingleValue None)) ∅)) = Some items /\
    Forall2 (fun opt item =>
               exists n, dataIndex item = Z.of_nat n /\
                         options (fruits (SingleValue None)) !! n = Some opt)
            [banana] items.
Proof.
  apply (menu_items_carry_original_indexes (fruits (SingleValue None))
           (mkComponent (mkState true (Single (-1)) (-1)) true "an" [banana]
              (initExtraInfo (fruits (SingleValue None)) ∅))).
  - apply (bool_decide_unpack _). vm_compute. exact I.
  - reflexivity.
  - intros opt Hin. apply list_elem_of_singleton in Hin. subst opt.
    right. left.
Defined.

(** *** The selection in multiple mode *)

Section Selection.
Context {T : Type} `{EqDecision T}.

(** In multiple mode the initial selection has one index per value of the
    value prop, in the order of the values: the position of the first option
    with that value, or -1 when no option has it (the -1 stays in the
    selection); without a value the selection is empty. *)
Theorem initial_selection_in_multiple_mode (props : ComboBoxProps T) :
  (forall values,
     valueProp props = MultipleValue (Some values) ->
     selectedIndex (initialState props) = Multiple (getSelectedIndexes props) /\
     Forall2 (fun v i =>
                (i = -1 /\ forall opt, opt ∈ options props -> value opt <> v) \/
                (exists (n : nat) (opt : SelectOption T),
                   i = Z.of_nat n /\ options props !! n = Some opt /\ value opt = v /\
                   forall (m : nat) (opt' : SelectOption T),
                     (m < n)%nat -> options props !! m = Some opt' -> value opt' <> v))
             values (getSelectedIndexes props)) /\
  (valueProp props = MultipleValue None ->
   selectedIndex (initialState props) = Multiple []).
Proof.
  split.
  - intros values Hv. unfold initialState, getSelectedIndexes. rewrite Hv.
    split; [reflexivity|]. clear Hv.
    induction values as [|v values IH]; [constructor|].
    cbn [map]. constructor; [|exact IH].
    destruct (indexOfValue_spec (options props) (Some v))
      as [[Hr Hnone] | (n & opt & Hr & Hn & Hopt & Hfirst)].
    + left. split; [exact Hr|]. intros opt Hin Heq. apply (Hnone opt Hin). congruence.
    + right. exists n, opt. split; [exact Hr|]. split; [exact Hn|].
      split; [congruence|]. intros m opt' Hm Hm' Heq. apply (Hfirst m opt' Hm Hm'). congruence.
  - intros Hv. unfold initialState, getSelectedIndexes. rewrite Hv. reflexivity.
Qed.

Lemma calls_of_selected_options {N : Type} (call : SelectOption T -> N)
    (options : list (SelectOption T)) (indexes : list Z) :
  (mapM (fmap call) (map (at_index options) indexes) = None <->
   Exists (fun i => at_index options i = None) indexes) /\
  (forall selected,
     Forall2 (fun i opt => at_index options i = Some opt) indexes selected ->
     mapM (fmap call) (map (at_index options) indexes) = Some (map call selected)).
Proof.
  split.
  - rewrite mapM_None, Exists_fmap. apply Exists_proper; [|reflexivity].
    intros i. simpl. destruct (at_index options i); simpl; split; congruence.
  - intros selected Hall. apply mapM_Some.
    induction Hall as [|i opt indexes selected Hi Hall IH]; [constructor|].
    cbn [map]. constructor; [rewrite Hi; reflexivity | exact IH].
Qed.

(** In multiple mode, after the mount, the [onChange] effect of a ComboBox
    that was given [onChange] calls it once for every option of the
    selection, in the order of the selection, with the marker taken from the
    [isSelected] property of the option itself; it throws exactly when the
    selection holds an index that has no option.  Without [onChange] the
    effect calls nothing and does not throw, whatever the selection holds. *)
Theorem onChange_for_every_selected_option
    (props : ComboBoxProps T) (c : Component T) (values : option (list T))
    (indexes : list Z) :
  mounted c = true -> valueProp props = MultipleValue values ->
  selectedIndex (state c) = Multiple indexes ->
  (onChangeEffectFor true props c = None <->
   Exists (fun i => at_index (options props) i = None) indexes) /\
  (forall selected,
     Forall2 (fun i opt => at_index (options props) i = Some opt) indexes selected ->
     onChangeEffectFor true props c
     = Some (c, map (fun opt => OnChangeMultiple (value opt)
                                  (if isSelected opt then removed else added))
                    selected)) /\
  onChangeEffectFor false props c = Some (c, []).
Proof.
  intros Hm Hv Hs. unfold onChangeEffectFor.
  split; [|split; [|rewrite Hm; reflexivity]];
    unfold onChangeEffect; rewrite Hm, Hv, Hs; cbn [negb];
    (destruct indexes as [|i indexes];
     [|cbv zeta; rewrite length_map; cbn [length Nat.ltb Nat.leb];
       destruct (calls_of_selected_options
                   (fun opt => OnChangeMultiple (value opt)
                                 (if isSelected opt then removed else added))
                   (options props) (i :: indexes)) as [Hnone Hsome]]).
  - simpl. split; [discriminate | intros H; inversion H].
  - rewrite <- Hnone. destruct (mapM _ _); simpl; split; congruence.
  - simpl. intros selected Hall. inversion Hall. reflexivity.
  - intros selected Hall. rewrite (Hsome selected Hall). reflexivity.
Qed.

End Selection.

Lemma onChange_for_every_selected_option_witness :
  let props := fruits (MultipleValue (Some [1])) in
  let c := boxOf [apple; banana; cherry] (mkState true (Multiple [0; -1]) 1) in
  (onChangeEffectFor true props c = None <->
   Exists (fun i => at_index (options props) i = None) [0; -1]) /\
  (forall selected,
     Forall2 (fun i opt => at_index (options props) i = Some opt) [0; -1] selected ->
     onChangeEffectFor true props c
     = Some (c, map (fun opt => OnChangeMultiple (value opt)
                                  (if isSelected opt then removed else added))
                    selected)) /\
  onChangeEffectFor false props c = Some (c, []).
Proof.
  apply (onChange_for_every_selected_option
           (fruits (MultipleValue (Some [1])))
           (boxOf [apple; banana; cherry] (mkState true (Multiple [0; -1]) 1))
           (Some [1]) [0; -1]); reflexivity.
Defined.

(** *** Filtering *)

Lemma toLowerCase_append (a b : string) :
  toLowerCase (a +:+ b) = toLowerCase a +:+ toLowerCase b.
Proof.
  induction a as [|x a IH]; [reflexivity|].
  change (String (toLowerCaseChar x) (toLowerCase (a +:+ b))
          = String (toLowerCaseChar x) (toLowerCase a +:+ toLowerCase b)).
  rewrite IH. reflexivity.
Qed.

Lemma includes_longer (s pre text post : string) :
  includes s (pre +:+ text +:+ post) = true -> includes s text = true.
Proof.
  rewrite !includes_spec. intros (before & after & ->).
  exists (before +:+ pre), (post +:+ after).
  rewrite !VirtualScrollMore.append_assoc. reflexivity.
Qed.

Lemma filter_of_filter {A : Type} (f g : A -> bool) (l : list A) :
  (forall x, f x = true -> g x = true) ->
  List.filter f (List.filter g l) = List.filter f l /\
  sublist (List.filter f l) (List.filter g l).
Proof.
  intros Himp. induction l as [|x l [IHeq IHsub]]; simpl; [split; constructor|].
  destruct (f x) eqn:Hf.
  - rewrite (Himp x Hf). simpl. rewrite Hf, IHeq. split; [reflexivity|].
    constructor. exact IHsub.
  - destruct (g x); simpl; [rewrite Hf|]; split; try assumption.
    constructor. exact IHsub.
Qed.

Section Narrowing.
Context {T : Type} `{EqDecision T}.

(** For labels and texts of ASCII characters, typing more narrows the view of
    the default filter: the options kept for a text that contains [text] are
    among those kept for [text], in the same order, and filtering the view
    kept for [text] gives the same options as filtering all the options,
    which is what [handleOnInput] does. *)
Theorem typing_more_narrows_the_view
    (options : list (SelectOption T)) (pre text post : string) :
  Forall (fun opt => isASCII (label opt) = true) options ->
  isASCII pre = true -> isASCII text = true -> isASCII post = true ->
  let longer := pre +:+ text +:+ post in
  sublist (defaultFilter options longer) (defaultFilter options text) /\
  sublist (defaultFilter options text) options /\
  defaultFilter (defaultFilter options text) longer = defaultFilter options longer.
Proof.
  intros _ _ _ _ longer. unfold defaultFilter.
  destruct (filter_of_filter
              (fun opt : SelectOption T =>
                 includes (toLowerCase (label opt)) (toLowerCase longer))
              (fun opt : SelectOption T =>
                 includes (toLowerCase (label opt)) (toLowerCase text))
              options) as [Heq Hsub].
  { intros opt. subst longer. rewrite !toLowerCase_append. apply includes_longer. }
  split; [exact Hsub|]. split; [|exact Heq].
  destruct (filter_of_filter
              (fun opt : SelectOption T =>
                 includes (toLowerCase (label opt)) (toLowerCase text))
              (fun _ : SelectOption T => true) options) as [_ Hall];
    [reflexivity|].
  assert (Hid : List.filter (fun _ : SelectOption T => true) options = options).
  { clear. induction options as [|x l IH]; simpl; [|rewrite IH]; reflexivity. }
  rewrite Hid in Hall. exact Hall.
Qed.

(** *** A click and the Enter key *)

(** A click on the item of an option dispatches what the Enter key dispatches
    when that option is focused in an open dropdown: a toggle in multiple
    mode, a selection followed by a close otherwise.  The click also clears
    the input in multiple mode; the key leaves the input to the effects. *)
Theorem click_as_enter_on_focused_option
    (props : ComboBoxProps T) (c : Component T) (menu : list MenuItem) :
  isOpen (state c) = true ->
  (multiple props = true -> -1 < focusedIndex (state c)) ->
  let clicked := onClickHandler props (focusedIndex (state c)) c in
  fst (handleKeyDown props c None menu Enter) = Dispatched (snd clicked) /\
  snd (handleKeyDown props c None menu Enter) = [] /\
  inputValue (fst clicked) = (if multiple props then ""%string else inputValue c) /\
  state (fst clicked) = state c /\
  filteredOptions (fst clicked) = filteredOptions c.
Proof.
  intros Hopen Hfocus clicked. subst clicked.
  unfold handleKeyDown, onClickHandler. rewrite Hopen.
  destruct (multiple props).
  - specialize (Hfocus eq_refl). apply Z.ltb_lt in Hfocus. rewrite Hfocus.
    repeat split; reflexivity.
  - repeat split; reflexivity.
Qed.

End Narrowing.

Lemma typing_more_narrows_the_view_witness :
  let longer := ("b" +:+ "an" +:+ "a")%string in
  sublist (defaultFilter [apple; banana; cherry] longer)
          (defaultFilter [apple; banana; cherry] "an") /\
  sublist (defaultFilter [apple; banana; cherry] "an") [apple; banana; cherry] /\
  defaultFilter (defaultFilter [apple; banana; cherry] "an") longer
  = defaultFilter [apple; banana; cherry] longer.
Proof.
  apply (typing_more_narrows_the_view [apple; banana; cherry] "b" "an" "a");
    try reflexivity.
  repeat (apply Forall_cons_2; [reflexivity|]). apply Forall_nil_2.
Defined.

Lemma click_as_enter_on_focused_option_witness :
  let props := fruits (MultipleValue None) in
  let c := boxOf [apple; banana; cherry] (mkState true (Multiple []) 1) in
  let clicked := onClickHandler props (focusedIndex (state c)) c in
  fst (handleKeyDown props c None [] Enter) = Dispatched (snd clicked) /\
  snd (handleKeyDown props c None [] Enter) = [] /\
  inputValue (fst clicked) = (if multiple props then ""%string else inputValue c) /\
  state (fst clicked) = state c /\
  filteredOptions (fst clicked) = filteredOptions c.
Proof.
  apply (click_as_enter_on_focused_option
           (fruits (MultipleValue None))
           (boxOf [apple; banana; cherry] (mkState true (Multiple []) 1)) []).
  - reflexivity.
  - simpl. lia.
Defined.

(** *** The arrow keys *)

Lemma querySelector_found (menu : list MenuItem) (index : Z) (p : nat) :
  querySelector menu index = Some p ->
  exists item, menu !! p = Some item /\ dataIndex item = index.
Proof.
  revert p; induction menu as [|x menu IH]; intros p Hp; simpl in Hp; [discriminate Hp|].
  destruct (Z.eqb_spec (dataIndex x) index) as [Heq|_].
  - injection Hp as <-. exists x. split; [reflexivity | exact Heq].
  - destruct (querySelector menu index) as [q|]; [|discriminate Hp].
    injection Hp as <-. exact (IH q eq_refl).
Qed.

Lemma querySelector_absent (menu : list MenuItem) (index : Z) :
  Forall (fun item => dataIndex item <> index) menu ->
  querySelector menu index = None.
Proof.
  induction 1 as [|x menu Hx _ IH]; simpl; [reflexivity|].
  destruct (Z.eqb_spec (dataIndex x) index) as [|_]; [contradiction|].
  rewrite IH. reflexivity.
Qed.

Lemma querySelector_reverse (menu : list MenuItem) (index : Z) :
  querySelector menu index = None -> querySelector (reverse menu) index = None.
Proof.
  intros Hnone. apply querySelector_absent. apply Forall_forall.
  intros item Hin Heq. rewrite elem_of_reverse in Hin.
  apply list_elem_of_lookup in Hin as [p Hp].
  assert (Hsome : is_Some (querySelector menu index)); [|rewrite Hnone in Hsome; destruct Hsome as [? H]; discriminate H].
  clear Hnone. revert p Hp; induction menu as [|x menu IH]; intros p Hp; [discriminate Hp|].
  simpl. destruct (Z.eqb_spec (dataIndex x) index) as [|Hne]; [eexists; reflexivity|].
  destruct p as [|p]; [assert (x = item) by (simpl in Hp; congruence); congruence|].
  destruct (IH p Hp) as [q Hq]. rewrite Hq. eexists; reflexivity.
Qed.

Lemma NoDup_reverse_indexes (menu : list MenuItem) :
  NoDup (dataIndex <$> menu) -> NoDup (dataIndex <$> reverse menu).
Proof. intros Hnd. rewrite fmap_reverse, reverse_Permutation. exact Hnd. Qed.

(** Going up in a list is going down in the reversed list. *)
Lemma prevElement_reverse (menu : list MenuItem) (index : Z) :
  NoDup (dataIndex <$> menu) ->
  prevElement menu index = nextElement (reverse menu) index.
Proof.
  intros Hnd. unfold prevElement, nextElement. rewrite head_reverse.
  destruct (querySelector menu index) as [p|] eqn:Hq.
  - destruct (querySelector_found menu index p Hq) as (item & Hp & <-).
    assert (Hlt : (p < length menu)%nat) by (eapply lookup_lt_Some; exact Hp).
    assert (Hrev : reverse menu !! (length menu - S p)%nat = Some item).
    { rewrite reverse_lookup by lia. rewrite <- Hp. f_equal. lia. }
    rewrite (querySelector_position (reverse menu) _ item
               (NoDup_reverse_indexes menu Hnd) Hrev).
    simpl. unfold nextElementSibling, previousElementSibling.
    destruct p as [|p].
    + rewrite (proj2 (lookup_ge_None (reverse menu) _)); [reflexivity|].
      rewrite length_reverse. lia.
    + rewrite reverse_lookup by lia.
      replace (length menu - S (S (length menu - S (S p))))%nat with p by lia.
      reflexivity.
  - rewrite (querySelector_reverse menu index Hq). reflexivity.
Qed.

Lemma arrowUpLoop_reverse (menu : list MenuItem) (focused : Z) (fuel : nat) (cur : Z) :
  NoDup (dataIndex <$> menu) ->
  arrowUpLoop fuel menu focused cur = arrowDownLoop fuel (reverse menu) focused cur.
Proof.
  intros Hnd. revert cur; induction fuel as [|fuel IH]; intros cur; [reflexivity|].
  cbn [arrowUpLoop arrowDownLoop]. rewrite (prevElement_reverse menu cur Hnd).
  destruct (nextElement (reverse menu) cur) as [item|]; [|reflexivity].
  rewrite IH. reflexivity.
Qed.

Lemma arrowDownLoop_from_focused (menu : list MenuItem) (p : nat) (item : MenuItem) :
  NoDup (dataIndex <$> menu) -> menu !! p = Some item ->
  arrowDownLoop (S (length menu)) menu (dataIndex item) (dataIndex item)
  = focusOn (firstEnabled (itemsAfter menu p)).
Proof.
  intros Hnd Hp.
  destruct (itemsAfter_ends_with menu p item Hnd Hp) as [Hsplit Hothers].
  rewrite Hsplit. apply loop_follows.
  - rewrite <- Hsplit. apply follows_itemsAfter; assumption.
  - exact Hothers.
  - reflexivity.
  - rewrite length_app, length_drop, length_take.
    apply lookup_lt_Some in Hp. lia.
Qed.

Lemma itemsAfter_reverse (menu : list MenuItem) (p : nat) :
  (p < length menu)%nat ->
  itemsAfter (reverse menu) (length menu - S p) = itemsBefore menu p.
Proof.
  intros Hlt. unfold itemsAfter, itemsBefore.
  rewrite drop_reverse, take_reverse. do 3 f_equal; lia.
Qed.

Lemma loop_without_exit (menu : list MenuItem) (focused : Z) :
  menu <> [] ->
  Forall (fun item => ariaDisabled item = true /\ dataIndex item <> focused) menu ->
  forall (fuel : nat) (cur : Z),
    arrowDownLoop fuel menu focused cur = NoTermination /\
    arrowUpLoop fuel menu focused cur = NoTermination.
Proof.
  intros Hne Hall.
  assert (Hnext : forall cur, exists item,
             nextElement menu cur = Some item /\ item ∈ menu).
  { intros cur. unfold nextElement, nextElementSibling.
    destruct (querySelector menu cur ≫= _) as [item|] eqn:E.
    - exists item. split; [reflexivity|].
      destruct (querySelector menu cur) as [q|]; [|discriminate E].
      simpl in E. eapply list_elem_of_lookup_2. exact E.
    - destruct menu as [|x rest]; [contradiction|].
      exists x. split; [reflexivity | left]. }
  assert (Hprev : forall cur, exists item,
             prevElement menu cur = Some item /\ item ∈ menu).
  { intros cur. unfold prevElement, previousElementSibling.
    destruct (querySelector menu cur ≫= _) as [item|] eqn:E.
    - exists item. split; [reflexivity|].
      destruct (querySelector menu cur) as [[|q]|]; try discriminate E.
      simpl in E. eapply list_elem_of_lookup_2. exact E.
    - destruct (last menu) as [x|] eqn:Hlast.
      + exists x. split; [reflexivity|].
        rewrite last_lookup in Hlast. eapply list_elem_of_lookup_2. exact Hlast.
      + apply last_None in Hlast. contradiction. }
  rewrite Forall_forall in Hall.
  induction fuel as [|fuel IH]; intros cur; [split; reflexivity|].
  cbn [arrowDownLoop arrowUpLoop]. split.
  - destruct (Hnext cur) as (item & -> & Hin).
    destruct (Hall item Hin) as [-> Hother]. simpl.
    destruct (Z.eqb_spec (dataIndex item) focused) as [|_]; [contradiction|].
    apply IH.
  - destruct (Hprev cur) as (item & -> & Hin).
    destruct (Hall item Hin) as [-> Hother]. simpl.
    destruct (Z.eqb_spec (dataIndex item) focused) as [|_]; [contradiction|].
    apply IH.
Qed.

Lemma assignProperty_fresh (key : string) (v : Z) (properties : list (string * Z)) :
  key ∉ map fst properties ->
  assignProperty key v properties = properties ++ [(key, v)].
Proof.
  induction properties as [|[k w] rest IH]; intros Hfresh; simpl; [reflexivity|].
  simpl in Hfresh. apply not_elem_of_cons in Hfresh as [Hk Hrest].
  rewrite bool_decide_eq_false_2 by congruence. rewrite IH by exact Hrest.
  reflexivity.
Qed.

Section ArrowKeys.
Context {T : Type} `{EqDecision T}.

Lemma recordIndexes_size (idPrefix : string) (options : list (SelectOption T)) :
  NoDup (idsOf idPrefix options) ->
  size (recordIndexes idPrefix options 0 ∅) = length options.
Proof.
  intros Hnd.
  rewrite <- size_dom, recordIndexes_dom, dom_empty_L, (left_id_L ∅ (∪)).
  rewrite size_list_to_set by exact Hnd. unfold idsOf. apply length_map.
Qed.

(** With distinct ids, the properties of the extra info are those of the
    options, in their order, the last with the index of the last option. *)
Lemma recordProperties_distinct
    (idPrefix : string) (options : list (SelectOption T)) (index : Z)
    (properties : list (string * Z)) :
  NoDup (idsOf idPrefix options) ->
  (forall key, key ∈ idsOf idPrefix options -> key ∉ map fst properties) ->
  exists entries,
    recordProperties idPrefix options index properties = properties ++ entries /\
    map fst entries = idsOf idPrefix options /\
    length entries = length options /\
    (options <> [] ->
     last entries
     = Some (nullish (last (idsOf idPrefix options)) ""%string,
             index + Z.of_nat (length options) - 1)).
Proof.
  revert index properties; induction options as [|opt rest IH];
    intros index properties Hnd Hfresh.
  - exists []. rewrite app_nil_r.
    split; [reflexivity|]. split; [reflexivity|]. split; [reflexivity|].
    intros H. contradiction.
  - unfold idsOf in Hnd. cbn [map] in Hnd. apply NoDup_cons in Hnd as [Hopt Hnd].
    cbn [recordProperties]. rewrite assignProperty_fresh by (apply Hfresh; left).
    destruct (IH (index + 1) (properties ++ [(getOptionId opt idPrefix, index)]) Hnd)
      as (entries & Hrec & Hkeys & Hlen & Hlast).
    { intros key Hkey. rewrite map_app. intros Hin.
      apply elem_of_app in Hin as [Hin | Hin].
      - apply (Hfresh key); [right; exact Hkey | exact Hin].
      - simpl in Hin. apply list_elem_of_singleton in Hin. subst key.
        apply Hopt. exact Hkey. }
    exists ((getOptionId opt idPrefix, index) :: entries).
    split; [rewrite Hrec, <- app_assoc; reflexivity|].
    split; [unfold idsOf; cbn [map]; f_equal; exact Hkeys|].
    split; [simpl; f_equal; exact Hlen|].
    intros _. destruct rest as [|next rest'].
    + destruct entries; [|discriminate Hlen]. simpl. do 2 f_equal. lia.
    + destruct entries as [|entry entries']; [discriminate Hlen|].
      rewrite last_cons_cons, Hlast by discriminate.
      unfold idsOf. cbn [map]. rewrite last_cons_cons.
      do 2 f_equal. cbn [length]. lia.
Qed.

(** ArrowUp with a focused option whose item is at position [p] of the list
    (the items have distinct indices).  The focus goes to the previous item
    that is not disabled, cyclically, the focused one being the last
    candidate; with virtualization nothing happens when the focused item is
    the first one, and from any other item the loop runs as without it. *)
Theorem arrowUp_with_focus
    (props : ComboBoxProps T) (c : Component T) (recorded : list Z)
    (menu : list MenuItem) (p : nat) (item : MenuItem) :
  isOpen (state c) = true -> size (optionsExtraInfo c) <> O ->
  focusedIndex (state c) = dataIndex item -> dataIndex item <> -1 ->
  NoDup (dataIndex <$> menu) -> menu !! p = Some item ->
  (enableVirtualization props = false \/ p <> O ->
   handleArrowUp props c recorded menu = focusOn (firstEnabled (itemsBefore menu p))) /\
  (enableVirtualization props = true -> p = O ->
   handleArrowUp props c recorded menu = Dispatched []).
Proof.
  intros Hopen Hsize Hfocus Hne Hnd Hp.
  assert (Hlt : (p < length menu)%nat) by (eapply lookup_lt_Some; exact Hp).
  unfold handleArrowUp. rewrite Hopen, Hfocus. cbn -[arrowUpLoop].
  destruct (Nat.eqb_spec (size (optionsExtraInfo c)) 0) as [|_]; [contradiction|].
  destruct (Z.eqb_spec (dataIndex item) (-1)) as [|_]; [contradiction|].
  rewrite (querySelector_position menu p item Hnd Hp). simpl mbind.
  split.
  - intros Hcase.
    assert (Hguard : enableVirtualization props &&
                     negb (bool_decide (is_Some (previousElementSibling menu p))) = false).
    { destruct Hcase as [-> | Hp0]; [reflexivity|].
      destruct p as [|q]; [contradiction|]. simpl.
      destruct (menu !! q) as [before|] eqn:Hq.
      - rewrite bool_decide_eq_true_2 by (eexists; reflexivity).
        apply andb_false_r.
      - apply lookup_ge_None in Hq. lia. }
    rewrite Hguard. rewrite arrowUpLoop_reverse by exact Hnd.
    rewrite <- (length_reverse menu).
    rewrite <- (itemsAfter_reverse menu p Hlt).
    apply arrowDownLoop_from_focused; [apply NoDup_reverse_indexes; exact Hnd|].
    rewrite reverse_lookup by lia. rewrite <- Hp. f_equal. lia.
  - intros -> ->. reflexivity.
Qed.

(** ArrowUp with no focused option, when no item carries the index -1, for
    options with distinct ids of which none is an array index, and the
    extra info of these options.  The guard against wrapping comes before
    the test of the focus: with virtualization the key does nothing; without
    it the focus goes to the index recorded last in the extra info, which is
    the index of the last of the full options, whatever the list shows. *)
Theorem arrowUp_without_focus
    (props : ComboBoxProps T) (c : Component T) (menu : list MenuItem) :
  isOpen (state c) = true -> focusedIndex (state c) = -1 ->
  options props <> [] ->
  optionsExtraInfo c = initExtraInfo props ∅ ->
  NoDup (idsOf (idPrefix props) (options props)) ->
  Forall (fun key => digitsOnly key = false) (idsOf (idPrefix props) (options props)) ->
  Forall (fun item => dataIndex item <> -1) menu ->
  (enableVirtualization props = true ->
   handleArrowUp props c (recordedValues props) menu = Dispatched []) /\
  (enableVirtualization props = false ->
   handleArrowUp props c (recordedValues props) menu
   = Dispatched [Focus (Some (Z.of_nat (length (options props)) - 1))]).
Proof.
  intros Hopen Hfocus Hne Hinfo Hnd _ Hmenu.
  assert (Hsize : size (optionsExtraInfo c) = length (options props)).
  { rewrite Hinfo. unfold initExtraInfo.
    destruct (options props) as [|opt rest] eqn:Hopts; [contradiction|].
    cbn [length Nat.ltb Nat.leb andb]. rewrite bool_decide_eq_true_2 by reflexivity.
    apply recordIndexes_size. exact Hnd. }
  destruct (recordProperties_distinct (idPrefix props) (options props) 0 [] Hnd)
    as (entries & Hrec & _ & Hlen & Hlast).
  { intros key _ Hin. inversion Hin. }
  unfold handleArrowUp. rewrite Hopen, Hfocus, Hsize. cbn [negb].
  destruct (Nat.eqb_spec (length (options props)) 0) as [H0|_].
  { destruct (options props); [contradiction | discriminate H0]. }
  rewrite (querySelector_absent menu (-1) Hmenu). simpl mbind.
  split.
  - intros ->. reflexivity.
  - intros ->. simpl. unfold recordedValues. rewrite Hrec. simpl.
    rewrite list_lookup_fmap.
    replace (length (options props) - 1)%nat with (Nat.pred (length entries)) by lia.
    rewrite <- last_lookup. rewrite (Hlast Hne). reflexivity.
Qed.

(** Without virtualization, when every item of the list is disabled and none
    of them is the focused one, the loops of ArrowDown and of ArrowUp have no
    exit: whatever the number of iterations allowed, they have not
    returned. *)
Theorem arrow_keys_loop_without_exit
    (props : ComboBoxProps T) (c : Component T) (recorded : list Z)
    (menu : list MenuItem) :
  isOpen (state c) = true -> size (optionsExtraInfo c) <> O ->
  focusedIndex (state c) <> -1 -> enableVirtualization props = false ->
  menu <> [] ->
  Forall (fun item => ariaDisabled item = true /\
                      dataIndex item <> focusedIndex (state c)) menu ->
  (forall (fuel : nat) (cur : Z),
     arrowDownLoop fuel menu (focusedIndex (state c)) cur = NoTermination /\
     arrowUpLoop fuel menu (focusedIndex (state c)) cur = NoTermination) /\
  handleKeyDown props c None menu ArrowDown = (NoTermination, []) /\
  handleArrowUp props c recorded menu = NoTermination.
Proof.
  intros Hopen Hsize Hfocus Hvirt Hne Hall.
  pose proof (loop_without_exit menu (focusedIndex (state c)) Hne Hall) as Hloop.
  split; [exact Hloop|].
  unfold handleKeyDown, handleArrowUp. rewrite Hopen, Hvirt. cbn [negb andb].
  destruct (Nat.eqb_spec (size (optionsExtraInfo c)) 0) as [|_]; [contradiction|].
  destruct (Z.eqb_spec (focusedIndex (state c)) (-1)) as [|_]; [contradiction|].
  split.
  - rewrite (proj1 (Hloop _ _)). reflexivity.
  - exact (proj2 (Hloop _ _)).
Qed.

(** When the list shows no item (no option passes the filter) and the
    dropdown is open, ArrowDown with no focused option focuses index 0, the
    first of the full options; with a focused option and no virtualization,
    ArrowDown and ArrowUp dispatch a focus on [Number(undefined)]. *)
Theorem arrow_keys_on_empty_list
    (props : ComboBoxProps T) (c : Component T) (recorded : list Z) :
  isOpen (state c) = true -> size (optionsExtraInfo c) <> O ->
  (focusedIndex (state c) = -1 ->
   handleKeyDown props c None [] ArrowDown = (Dispatched [Focus (Some 0)], [])) /\
  (focusedIndex (state c) <> -1 -> enableVirtualization props = false ->
   handleKeyDown props c None [] ArrowDown = (FocusNaN, []) /\
   handleArrowUp props c recorded [] = FocusNaN) /\
  (focusedIndex (state c) <> -1 -> enableVirtualization props = true ->
   handleKeyDown props c None [] ArrowDown = (Dispatched [], []) /\
   handleArrowUp props c recorded [] = Dispatched []).
Proof.
  intros Hopen Hsize.
  unfold handleKeyDown, handleArrowUp. rewrite Hopen. cbn [negb].
  destruct (Nat.eqb_spec (size (optionsExtraInfo c)) 0) as [|_]; [contradiction|].
  split; [|split].
  - intros ->. reflexivity.
  - intros Hfocus ->.
    destruct (Z.eqb_spec (focusedIndex (state c)) (-1)) as [|_]; [contradiction|].
    split; reflexivity.
  - intros Hfocus ->.
    destruct (Z.eqb_spec (focusedIndex (state c)) (-1)) as [|_]; [contradiction|].
    split; reflexivity.
Qed.

End ArrowKeys.

Lemma arrowUp_with_focus_witness :
  let props := mkProps [disabledApple; banana; cherry] (SingleValue None) None false "cb" in
  let c := boxOf [disabledApple; banana; cherry] (mkState true (Single (-1)) 1) in
  let menu := [mkMenuItem 0 true; mkMenuItem 1 false; mkMenuItem 2 false] in
  (enableVirtualization props = false \/ 1%nat <> O ->
   handleArrowUp props c [0; 1; 2] menu = focusOn (firstEnabled (itemsBefore menu 1))) /\
  (enableVirtualization props = true -> 1%nat = O ->
   handleArrowUp props c [0; 1; 2] menu = Dispatched []).
Proof.
  apply (arrowUp_with_focus
           (mkProps [disabledApple; banana; cherry] (SingleValue None) None false "cb")
           (boxOf [disabledApple; banana; cherry] (mkState true (Single (-1)) 1))
           [0; 1; 2]
           [mkMenuItem 0 true; mkMenuItem 1 false; mkMenuItem 2 false]
           1 (mkMenuItem 1 false)).
  - reflexivity.
  - vm_compute. intros H. discriminate H.
  - reflexivity.
  - simpl. lia.
  - apply (bool_decide_unpack _). vm_compute. exact I.
  - reflexivity.
Defined.

Lemma arrowUp_without_focus_witness :
  let props := fruits (SingleValue None) in
  let c := boxOf [apple; banana; cherry] (mkState true (Single (-1)) (-1)) in
  let menu := [mkMenuItem 1 false] in
  (enableVirtualization props = true ->
   handleArrowUp props c (recordedValues props) menu = Dispatched []) /\
  (enableVirtualization props = false ->
   handleArrowUp props c (recordedValues props) menu
   = Dispatched [Focus (Some (Z.of_nat (length (options props)) - 1))]).
Proof.
  apply (arrowUp_without_focus
           (fruits (SingleValue None))
           (boxOf [apple; banana; cherry] (mkState true (Single (-1)) (-1)))
           [mkMenuItem 1 false]).
  - reflexivity.
  - reflexivity.
  - intros H. discriminate H.
  - reflexivity.
  - apply (bool_decide_unpack _). vm_compute. exact I.
  - repeat (apply Forall_cons_2; [reflexivity|]). apply Forall_nil_2.
  - apply Forall_cons_2; [simpl; lia | apply Forall_nil_2].
Defined.

Lemma arrow_keys_loop_without_exit_witness :
  let props := fruits (SingleValue None) in
  let c := boxOf [apple; banana; cherry] (mkState true (Single (-1)) 1) in
  let menu := [mkMenuItem 0 true; mkMenuItem 2 true] in
  (forall (fuel : nat) (cur : Z),
     arrowDownLoop fuel menu (focusedIndex (state c)) cur = NoTermination /\
     arrowUpLoop fuel menu (focusedIndex (state c)) cur = NoTermination) /\
  handleKeyDown props c None menu ArrowDown = (NoTermination, []) /\
  handleArrowUp props c [0; 1; 2] menu = NoTermination.
Proof.
  apply (arrow_keys_loop_without_exit
           (fruits (SingleValue None))
           (boxOf [apple; banana; cherry] (mkState true (Single (-1)) 1))
           [0; 1; 2] [mkMenuItem 0 true; mkMenuItem 2 true]).
  - reflexivity.
  - vm_compute. intros H. discriminate H.
  - simpl. lia.
  - reflexivity.
  - intros H. discriminate H.
  - repeat (apply Forall_cons_2; [split; [reflexivity | simpl; lia]|]).
    apply Forall_nil_2.
Defined.

Lemma arrow_keys_on_empty_list_witness :
  let props := fruits (SingleValue None) in
  let c := boxOf [apple; banana; cherry] (mkState true (Single (-1)) (-1)) in
  (focusedIndex (state c) = -1 ->
   handleKeyDown props c None [] ArrowDown = (Dispatched [Focus (Some 0)], [])) /\
  (focusedIndex (state c) <> -1 -> enableVirtualization props = false ->
   handleKeyDown props c None [] ArrowDown = (FocusNaN, []) /\
   handleArrowUp props c [0; 1; 2] [] = FocusNaN) /\
  (focusedIndex (state c) <> -1 -> enableVirtualization props = true ->
   handleKeyDown props c None [] ArrowDown = (Dispatched [], []) /\
   handleArrowUp props c [0; 1; 2] [] = Dispatched []).
Proof.
  apply (arrow_keys_on_empty_list
           (fruits (SingleValue None))
           (boxOf [apple; banana; cherry] (mkState true (Single (-1)) (-1)))
           [0; 1; 2]).
  - reflexivity.
  - vm_compute. intros H. discriminate H.
Defined.

Lemma arrowDown_with_focus_witness :
  let props := mkProps [disabledApple; banana; cherry] (SingleValue None) None false "cb" in
  let c := boxOf [disabledApple; banana; cherry] (mkState true (Single (-1)) 2) in
  let menu := [mkMenuItem 0 true; mkMenuItem 1 false; mkMenuItem 2 false] in
  (enableVirtualization props = false ->
   handleKeyDown props c None menu ArrowDown
   = (focusOn (firstEnabled (itemsAfter menu 2)), [])) /\
  (enableVirtualization props = true -> menu !! 3%nat = None ->
   handleKeyDown props c None menu ArrowDown = (Dispatched [], [])).
Proof.
  apply (arrowDown_with_focus
           (mkProps [disabledApple; banana; cherry] (SingleValue None) None false "cb")
           (boxOf [disabledApple; banana; cherry] (mkState true (Single (-1)) 2))
           [mkMenuItem 0 true; mkMenuItem 1 false; mkMenuItem 2 false]
           2 (mkMenuItem 2 false)).
  - reflexivity.
  - vm_compute. intros H. discriminate H.
  - reflexivity.
  - simpl. lia.
  - apply (bool_decide_unpack _). vm_compute. exact I.
  - reflexivity.
Defined.

Section OptionsEffect.
Context {T : Type} `{EqDecision T}.

(** The view that the options effect stores is the one [handleOnInput] would
    store for the current input text, as long as that text is not empty; for
    an empty text the effect stores all the options, while the handler asks
    a custom [filterFunction] if there is one. *)
Theorem options_effect_and_input_handler (props : ComboBoxProps T) (c : Component T) :
  let viaEffect := filteredOptions (fst (filteredOptionsEffect props c)) in
  let viaInput := filteredOptions (fst (handleOnInput props (inputValue c) c)) in
  (inputValue c <> ""%string -> viaEffect = viaInput) /\
  (inputValue c = ""%string ->
   viaEffect = options props /\
   viaInput = nullish ((fun f => f (options props) ""%string) <$> filterFunction props)
                      (options props)).
Proof.
  intros viaEffect viaInput. subst viaEffect viaInput.
  unfold filteredOptionsEffect, handleOnInput. cbn [fst filteredOptions].
  split.
  - intros Hne. rewrite bool_decide_eq_false_2 by exact Hne. reflexivity.
  - intros Hempty. rewrite Hempty, bool_decide_eq_true_2 by reflexivity.
    split; [reflexivity|]. unfold filterOptions.
    rewrite defaultFilter_empty. reflexivity.
Qed.

End OptionsEffect.

End ComboBoxMore.
